(** * Auction lifecycle and bidding engine of the Pokemon auction bot

    A shallow embedding of the database-facing part of [main.py]: the
    tables [items], [users], [bids] and [auction_state], and the handlers
    [complete_submission], [admin_approval_callback], [bid], [bido] and
    [endo_callback] that read and write them.

    Conventions of the embedding.
    - A table is the list of its rows in rowid order (the order a full
      scan returns them); [users] is keyed by its INTEGER PRIMARY KEY and
      never scanned, so it is a finite map.
    - SQLite INTEGER columns and Python ints are [Z]; TEXT columns are
      [string]; a nullable column is an [option].
    - Python truthiness is written out ([truthy], [truthy_str]): [None],
      [0] and the empty string are false.
    - What a handler sends back is its [reply]; direct messages that were
      delivered are collected in [sent], calls to [logger.error] in [log].
    - Everything the handler cannot decide by itself (the clock, the random
      generator, whether a statement or a Telegram call raises) is an
      explicit argument. *)

From Stdlib Require Import Ascii String.
From stdpp Require Import gmap strings list sorting.

Local Open Scope Z_scope.

(** ** Python truthiness *)

Definition truthy (z : Z) : bool := negb (bool_decide (z = 0)).

Definition truthy_str (o : option string) : bool :=
  match o with
  | Some s => negb (bool_decide (s = EmptyString))
  | None => false
  end.

(** ** Tables *)

(** A row of [items].  The descriptive columns that no handler below reads
    (photo ids, IV/EV text, TM power and the like) are left out. *)
Record item := {
  item_id : string;
  user_id : Z;
  username : option string;
  first_name : string;
  item_type : string;
  name : option string;
  tm_name : option string;
  base_price : Z;
  status : string;
  highest_bid : option Z;
  highest_bidder_id : option Z;
  highest_bidder_name : option string;
  channel_message_id2 : option Z
}.

(** A row of [users]; [user_id] is the key of the map. *)
Record user_row := {
  u_username : option string;
  u_first_name : string;
  u_last_seen : string;
  is_banned : Z;
  submissions_count : Z;
  approved_count : Z;
  rejected_count : Z;
  bids_count : Z;
  wins_count : Z
}.

(** A row of [bids].  The AUTOINCREMENT key [bid_id] is the position of the
    row in the table. *)
Record bid_row := {
  b_item_id : string;
  b_user_id : Z;
  b_username : option string;
  b_first_name : string;
  b_amount : Z;
  b_bid_time : string
}.

Record db := {
  items : list item;
  users : gmap Z user_row;
  bids : list bid_row;
  submissions_open : Z;
  bidding_open : Z
}.

(** [update.effective_user] *)
Record tg_user := {
  tg_id : Z;
  tg_username : option string;
  tg_first_name : string
}.

#[global] Instance item_eq_dec : EqDecision item.
Proof. solve_decision. Defined.

#[global] Instance bid_row_eq_dec : EqDecision bid_row.
Proof. solve_decision. Defined.

(** ** Row updates *)

Definition set_status (s : string) (it : item) : item :=
  {| item_id := item_id it; user_id := user_id it; username := username it;
     first_name := first_name it; item_type := item_type it; name := name it;
     tm_name := tm_name it; base_price := base_price it; status := s;
     highest_bid := highest_bid it; highest_bidder_id := highest_bidder_id it;
     highest_bidder_name := highest_bidder_name it;
     channel_message_id2 := channel_message_id2 it |}.

Definition set_highest (a : Z) (bidder : Z) (bname : string) (it : item) : item :=
  {| item_id := item_id it; user_id := user_id it; username := username it;
     first_name := first_name it; item_type := item_type it; name := name it;
     tm_name := tm_name it; base_price := base_price it; status := status it;
     highest_bid := Some a; highest_bidder_id := Some bidder;
     highest_bidder_name := Some bname;
     channel_message_id2 := channel_message_id2 it |}.

Definition set_channel_message (m : Z) (it : item) : item :=
  {| item_id := item_id it; user_id := user_id it; username := username it;
     first_name := first_name it; item_type := item_type it; name := name it;
     tm_name := tm_name it; base_price := base_price it; status := status it;
     highest_bid := highest_bid it; highest_bidder_id := highest_bidder_id it;
     highest_bidder_name := highest_bidder_name it;
     channel_message_id2 := Some m |}.

(** [UPDATE items SET ... WHERE item_id = ?] *)
Definition update_item (id : string) (f : item → item) (its : list item) : list item :=
  (λ it, if bool_decide (item_id it = id) then f it else it) <$> its.

(** [SELECT * FROM items WHERE item_id = ?], [fetchone()] *)
Fixpoint fetch_item (id : string) (its : list item) : option item :=
  match its with
  | [] => None
  | it :: rest =>
      if bool_decide (item_id it = id) then Some it else fetch_item id rest
  end.

(** [SELECT * FROM items WHERE item_id = ? AND status = 'approved'],
    [fetchone()] *)
Fixpoint fetch_approved (id : string) (its : list item) : option item :=
  match its with
  | [] => None
  | it :: rest =>
      if bool_decide (item_id it = id) && bool_decide (status it = "approved"%string)
      then Some it
      else fetch_approved id rest
  end.

Definition with_items (its : list item) (d : db) : db :=
  {| items := its; users := users d; bids := bids d;
     submissions_open := submissions_open d; bidding_open := bidding_open d |}.

Definition with_users (us : gmap Z user_row) (d : db) : db :=
  {| items := items d; users := us; bids := bids d;
     submissions_open := submissions_open d; bidding_open := bidding_open d |}.

Definition with_bids (bs : list bid_row) (d : db) : db :=
  {| items := items d; users := users d; bids := bs;
     submissions_open := submissions_open d; bidding_open := bidding_open d |}.

Definition with_phase (s b : Z) (d : db) : db :=
  {| items := items d; users := users d; bids := bids d;
     submissions_open := s; bidding_open := b |}.

(** [get_auction_state] *)
Definition get_auction_state (d : db) : Z * Z :=
  (submissions_open d, bidding_open d).

(** ** The world outside the handlers *)

(** The statements of the unit of work of [bid], in program order. *)
Inductive stmt := StBegin | StUpdateItem | StInsertBid | StUpdateUser | StCommit.

#[global] Instance stmt_eq_dec : EqDecision stmt.
Proof. solve_decision. Defined.

(** - [now]: [datetime.now().isoformat()];
    - [storage_fault]: the statement of the unit of work on which sqlite
      raises, if any (a locked database, a full disk, an amount that does
      not fit an INTEGER column, ...);
    - [channel_ok]: whether a call that edits or posts in the auction
      channel returns (it raises, for one, when the stored message id is
      NULL);
    - [reachable]: whether a direct message to that chat id is delivered
      (it raises when the user blocked the bot or never started it). *)
Record env := {
  now : string;
  storage_fault : option stmt;
  channel_ok : bool;
  reachable : Z → bool
}.

(** Messages that reach somebody else than the caller. *)
Inductive notice :=
  | ChannelEdit (message_id : option Z) (item : string) (amount : Z) (by_user : Z)
  | Outbid (chat : Z) (item : string) (amount : Z)
  | NewBid (chat : Z) (item : string) (amount : Z)
  | Sold (chat : Z) (item : string) (amount : Z)
  | BiddingClosedNotice.

(** What [bid] answers to the caller, one constructor per
    [reply_text] of the handler:
    - [InvalidAmount]: "Invalid amount. Please provide a positive number."
    - [BiddingClosed]: "Bidding is currently closed."
    - [BidderBanned]: "You are banned from bidding."
    - [ItemNotBiddable]: "Item not found or not approved for bidding."
    - [SelfBidForbidden]: "You cannot bid on your own item."
    - [BidNotHigher c]: "Your bid must be higher than the current bid of c."
    - [BidTooLow i m]: "Minimum bid increment is i. Your bid must be at
      least m."
    - [BidPlaced a]: "Your bid of a on item ... has been placed!"
    - [BidProcessingFailed]: "An error occurred while processing your
      bid. Please try again." *)
Inductive reply :=
  | InvalidAmount
  | BiddingClosed
  | BidderBanned
  | ItemNotBiddable
  | SelfBidForbidden
  | BidNotHigher (current : Z)
  | BidTooLow (increment minimum : Z)
  | BidPlaced (amount : Z)
  | BidProcessingFailed.

#[global] Instance reply_eq_dec : EqDecision reply.
Proof. solve_decision. Defined.

Record outcome := {
  replied : reply;
  db_after : db;
  sent : list notice;
  log : list string
}.

Definition answer (r : reply) (d : db) : outcome :=
  {| replied := r; db_after := d; sent := []; log := [] |}.

(** ** Bidding system *)

(** [current_bid = item['highest_bid'] if item['highest_bid'] else
    item['base_price']] *)
Definition current_bid (it : item) : Z :=
  match highest_bid it with
  | Some h => if truthy h then h else base_price it
  | None => base_price it
  end.

(** The [increment] computed by [bid] from [current_bid]. *)
Definition increment (current : Z) : Z :=
  if bool_decide (50000 ≤ current) then 5000
  else if bool_decide (20000 ≤ current) then 2000
  else 1000.

(** One statement inside the [try] block: it raises when the world says
    so, otherwise it changes the working copy of the database. *)
Definition exec (e : env) (s : stmt) (f : db → db) (w : db) : option db :=
  if bool_decide (storage_fault e = Some s) then None else Some (f w).

Definition bump_bids_count (u : user_row) : user_row :=
  {| u_username := u_username u; u_first_name := u_first_name u;
     u_last_seen := u_last_seen u; is_banned := is_banned u;
     submissions_count := submissions_count u;
     approved_count := approved_count u; rejected_count := rejected_count u;
     bids_count := bids_count u + 1; wins_count := wins_count u |}.

Definition new_bid_row (e : env) (user : tg_user) (id : string) (amount : Z) : bid_row :=
  {| b_item_id := id; b_user_id := tg_id user; b_username := tg_username user;
     b_first_name := tg_first_name user; b_amount := amount;
     b_bid_time := now e |}.

(** The statements between [BEGIN TRANSACTION] and [conn.commit()];
    [None] when one of them raised. *)
Definition bid_unit_of_work (e : env) (user : tg_user) (id : string) (amount : Z)
    (d : db) : option db :=
  w0 ← exec e StBegin (λ w, w) d;
  w1 ← exec e StUpdateItem
         (λ w, with_items
                 (update_item id (set_highest amount (tg_id user) (tg_first_name user))
                    (items w)) w) w0;
  w2 ← exec e StInsertBid
         (λ w, with_bids (bids w ++ [new_bid_row e user id amount]) w) w1;
  w3 ← exec e StUpdateUser
         (λ w, with_users (alter bump_bids_count (tg_id user) (users w)) w) w2;
  exec e StCommit (λ w, w) w3.

(** The two notifications after the commit, each in a [try] of its own. *)
Definition notify_previous_bidder (e : env) (user : tg_user) (it : item)
    (amount : Z) : list notice * list string :=
  match highest_bidder_id it with
  | Some prev =>
      if truthy prev && negb (bool_decide (prev = tg_id user)) then
        if reachable e prev then ([Outbid prev (item_id it) amount], [])
        else ([], ["Error notifying previous bidder"%string])
      else ([], [])
  | None => ([], [])
  end.

Definition notify_seller (e : env) (it : item) (amount : Z)
    : list notice * list string :=
  if reachable e (user_id it) then ([NewBid (user_id it) (item_id it) amount], [])
  else ([], ["Error notifying seller"%string]).

(** [SELECT is_banned FROM users WHERE user_id = ?] followed by
    [user_record and user_record['is_banned']]. *)
Definition banned (d : db) (uid : Z) : bool :=
  match users d !! uid with
  | Some user_record => truthy (is_banned user_record)
  | None => false
  end.

(** [bid], from the point where [context.args] has been split:
    [id] is [context.args[0].upper()] and [amount] is
    [int(context.args[1])]. *)
Definition bid (e : env) (user : tg_user) (id : string) (amount : Z) (d : db)
    : outcome :=
  if bool_decide (amount ≤ 0) then answer InvalidAmount d else
  let '(_, open) := get_auction_state d in
  if negb (truthy open) then answer BiddingClosed d else
  if banned d (tg_id user) then answer BidderBanned d else
  match fetch_approved id (items d) with
  | None => answer ItemNotBiddable d
  | Some it =>
      if bool_decide (tg_id user = user_id it) then answer SelfBidForbidden d else
      let current := current_bid it in
      if bool_decide (amount ≤ current) then answer (BidNotHigher current) d else
      let inc := increment current in
      if bool_decide (amount < current + inc)
      then answer (BidTooLow inc (current + inc)) d else
      match bid_unit_of_work e user id amount d with
      | None =>
          (* conn.rollback() *)
          {| replied := BidProcessingFailed; db_after := d; sent := [];
             log := ["Error processing bid"%string] |}
      | Some d' =>
          if channel_ok e then
            let '(s1, l1) := notify_previous_bidder e user it amount in
            let '(s2, l2) := notify_seller e it amount in
            {| replied := BidPlaced amount; db_after := d';
               sent := ChannelEdit (channel_message_id2 it) id amount (tg_id user)
                         :: s1 ++ s2;
               log := l1 ++ l2 |}
          else
            (* the commit has happened; conn.rollback() finds nothing to undo *)
            {| replied := BidProcessingFailed; db_after := d'; sent := [];
               log := ["Error processing bid"%string] |}
      end
  end.

(** ** Submission *)

Definition ascii_uppercase : list ascii :=
  list_ascii_of_string "ABCDEFGHIJKLMNOPQRSTUVWXYZ".

Definition digits : list ascii := list_ascii_of_string "0123456789".

(** [random.choice(seq)]: the element at a position below [len(seq)];
    [raw] is what the generator drew. *)
Definition choice (seq : list ascii) (raw : nat) : ascii :=
  nth (raw mod length seq)%nat seq "?"%char.

(** [generate_item_id]; [r k] is the [k]-th draw of the random generator. *)
Definition generate_item_id (r : nat → nat) : string :=
  let prefix := choice ascii_uppercase (r 0%nat) in
  let suffix := (λ k, choice digits (r k)) <$> [1; 2; 3; 4]%nat in
  String prefix (string_of_list_ascii suffix).

(** [context.user_data] at the end of the submission dialogue. *)
Record draft := {
  d_item_type : string;
  d_name : string;
  d_tm_name : string;
  d_base_price : Z
}.

Definition ADMIN_IDS : list Z := [5816482345; 7335094257; 5858459838; 8095253829].
Definition ADMIN_APPROVAL_GROUP_CHAT_ID : Z := -4766309126.

Definition is_admin (uid : Z) : bool := bool_decide (uid ∈ ADMIN_IDS).

Definition fresh_user_row (user : tg_user) (seen : string) : user_row :=
  {| u_username := tg_username user; u_first_name := tg_first_name user;
     u_last_seen := seen; is_banned := 0; submissions_count := 0;
     approved_count := 0; rejected_count := 0; bids_count := 0;
     wins_count := 0 |}.

Definition touch_submitter (user : tg_user) (seen : string) (u : user_row) : user_row :=
  {| u_username := tg_username user; u_first_name := tg_first_name user;
     u_last_seen := seen; is_banned := is_banned u;
     submissions_count := submissions_count u + 1;
     approved_count := approved_count u; rejected_count := rejected_count u;
     bids_count := bids_count u; wins_count := wins_count u |}.

(** [INSERT OR IGNORE INTO users ...] *)
Definition insert_or_ignore (uid : Z) (u : user_row) (us : gmap Z user_row)
    : gmap Z user_row :=
  match us !! uid with
  | Some _ => us
  | None => <[uid := u]> us
  end.

(** The row [complete_submission] inserts: a Pokemon row has a [name] and
    no [tm_name], a TM row the other way round. *)
Definition new_item (id : string) (user : tg_user) (dr : draft) : item :=
  let pokemon := bool_decide (d_item_type dr = "pokemon"%string) in
  {| item_id := id; user_id := tg_id user; username := tg_username user;
     first_name := tg_first_name user; item_type := d_item_type dr;
     name := if pokemon then Some (d_name dr) else None;
     tm_name := if pokemon then None else Some (d_tm_name dr);
     base_price := d_base_price dr; status := "pending";
     highest_bid := None; highest_bidder_id := None;
     highest_bidder_name := None; channel_message_id2 := None |}.

Inductive submit_reply :=
  | Submitted (id : string)
  | Raised (exception : string).

(** The values an INTEGER column of SQLite holds: 64 bits, signed.  Binding
    a Python int outside this range raises [OverflowError]. *)
Definition sqlite_integer (z : Z) : bool :=
  bool_decide (- 2 ^ 63 ≤ z < 2 ^ 63).

(** [complete_submission].  The INSERT into [items] raises [OverflowError]
    when [base_price] does not fit an INTEGER column (the price step accepts
    every positive number), and [sqlite3.IntegrityError] when the primary
    key is taken; the parameters are bound before the statement runs, so
    the first comes first.  Nothing was committed by then, so the database
    is as before.  The later Telegram calls raise after the commit.  (User
    ids are Telegram's and fit an INTEGER column.) *)
Definition complete_submission (e : env) (r : nat → nat) (user : tg_user)
    (dr : draft) (d : db) : submit_reply * db :=
  let id := generate_item_id r in
  let us := alter (touch_submitter user (now e)) (tg_id user)
              (insert_or_ignore (tg_id user) (fresh_user_row user (now e)) (users d)) in
  if negb (sqlite_integer (d_base_price dr)) then
    (Raised "OverflowError", d)
  else if bool_decide (id ∈ item_id <$> items d) then
    (Raised "sqlite3.IntegrityError", d)
  else
    let d' := with_items (items d ++ [new_item id user dr]) (with_users us d) in
    if negb (reachable e ADMIN_APPROVAL_GROUP_CHAT_ID) then
      (Raised "telegram.error.TelegramError", d')
    else if negb (reachable e (tg_id user)) then
      (Raised "telegram.error.TelegramError", d')
    else (Submitted id, d').

(** ** Admin decision *)

Definition bump_approved_count (u : user_row) : user_row :=
  {| u_username := u_username u; u_first_name := u_first_name u;
     u_last_seen := u_last_seen u; is_banned := is_banned u;
     submissions_count := submissions_count u;
     approved_count := approved_count u + 1; rejected_count := rejected_count u;
     bids_count := bids_count u; wins_count := wins_count u |}.

Definition bump_rejected_count (u : user_row) : user_row :=
  {| u_username := u_username u; u_first_name := u_first_name u;
     u_last_seen := u_last_seen u; is_banned := is_banned u;
     submissions_count := submissions_count u;
     approved_count := approved_count u; rejected_count := rejected_count u + 1;
     bids_count := bids_count u; wins_count := wins_count u |}.

(** What the handler answers by editing the message that carries the
    buttons, or the exception it ends in after the decision has been
    committed. *)
Inductive decision_reply :=
  | AdminsOnly
  | NotFound
  | AlreadyDecided (current_status : string)
  | Approved
  | Rejected
  | DecisionRaised (exception : string).

(** The end of both branches of [admin_approval_callback], after the
    commits: [query.message.text + "... by admin"] is evaluated first and
    raises [TypeError] when the message has no text; then the message of the
    admin group is edited and the owner is written to, neither in a [try]. *)
Definition announce_decision (e : env) (message_text : option string)
    (owner : Z) (done : decision_reply) : decision_reply :=
  match message_text with
  | None => DecisionRaised "TypeError"
  | Some _ =>
      if negb (reachable e ADMIN_APPROVAL_GROUP_CHAT_ID) then
        DecisionRaised "telegram.error.TelegramError"
      else if negb (reachable e owner) then
        DecisionRaised "telegram.error.TelegramError"
      else done
  end.

(** [admin_approval_callback] on callback data [action_item].
    - [message_text] is [query.message.text], the text of the message that
      carries the two buttons: [None] for a photo with a caption, which is
      what [complete_submission] sends to the admins for a Pokemon.
    - [posted] is the message id [post_to_auction_channel] returned, [None]
      when the posting failed. *)
Definition admin_approval_callback (e : env) (admin : Z) (action id : string)
    (message_text : option string) (posted : option Z) (d : db)
    : decision_reply * db :=
  if negb (is_admin admin) then (AdminsOnly, d) else
  match fetch_item id (items d) with
  | None => (NotFound, d)
  | Some it =>
      if negb (bool_decide (status it = "pending"%string))
      then (AlreadyDecided (status it), d)
      else if bool_decide (action = "approve"%string) then
        let d1 := with_users (alter bump_approved_count (user_id it) (users d))
                    (with_items (update_item id (set_status "approved") (items d)) d) in
        let d2 := match posted with
                  | Some m =>
                      with_items
                        (update_item id (set_channel_message (m + 1)) (items d1)) d1
                  | None => d1
                  end in
        (announce_decision e message_text (user_id it) Approved, d2)
      else
        (announce_decision e message_text (user_id it) Rejected,
         with_users (alter bump_rejected_count (user_id it) (users d))
           (with_items (update_item id (set_status "rejected") (items d)) d))
  end.

(** ** Closing the bidding *)

Record closing := {
  c_db : db;
  c_sent : list notice;
  c_log : list string;
  c_raised : option string
}.

(** The rows of [SELECT ... FROM items WHERE status = 'approved' AND
    highest_bidder_id IS NOT NULL], in scan order. *)
Definition bido_rows (its : list item) : list item :=
  filter (λ it, status it = "approved"%string ∧ is_Some (highest_bidder_id it)) its.

(** The seller's notification of one row; formatting [highest_bid] with
    [:,] raises inside the [try] when the column is NULL. *)
Definition notify_sold (e : env) (it : item) : list notice * list string :=
  match highest_bid it with
  | Some a =>
      if reachable e (user_id it) then ([Sold (user_id it) (item_id it) a], [])
      else ([], ["Error notifying seller"%string])
  | None => ([], ["Error notifying seller"%string])
  end.

(** The [for item in items] loop of [bido] over the fetched rows.
    - [item['tm_number']] is read when [item['name']] is false, but
      [tm_number] is not among the selected columns: [sqlite3.Row] raises
      [IndexError], outside any [try], and the handler ends there.
    - The winner's message reads [item['username']], not selected either:
      the [IndexError] is raised inside the [try], so it is logged and the
      winner gets no message.
    - The row is then set to [sold] (the source lacks the closing
      parenthesis of this [cursor.execute] call; it is read as the call
      with the two arguments shown). *)
Fixpoint bido_loop (e : env) (rows : list item) (acc : closing) : closing :=
  match rows with
  | [] => acc
  | it :: rest =>
      if truthy_str (name it) then
        let '(s, l) := notify_sold e it in
        bido_loop e rest
          {| c_db := with_items (update_item (item_id it) (set_status "sold")
                                   (items (c_db acc))) (c_db acc);
             c_sent := c_sent acc ++ s;
             c_log := c_log acc ++ "Error notifying winner"%string :: l;
             c_raised := None |}
      else
        {| c_db := c_db acc; c_sent := c_sent acc; c_log := c_log acc;
           c_raised := Some "IndexError"%string |}
  end.

(** The body of [bido] (the admin check of its decorator is left to the
    caller). *)
Definition bido (e : env) (d : db) : closing :=
  let d0 := with_phase (submissions_open d) 0 d in
  let rows := bido_rows (items d0) in
  let c := bido_loop e rows {| c_db := d0; c_sent := []; c_log := []; c_raised := None |} in
  match c_raised c with
  | Some _ => c
  | None =>
      if channel_ok e then
        {| c_db := c_db c; c_sent := c_sent c ++ [BiddingClosedNotice];
           c_log := c_log c; c_raised := None |}
      else
        {| c_db := c_db c; c_sent := c_sent c; c_log := c_log c;
           c_raised := Some "telegram.error.TelegramError"%string |}
  end.

(** ** Cleanup *)

Definition cleanup_statuses : list string :=
  ["sold"; "ended"; "rejected"; "cancelled"]%string.

(** [endo_callback] on callback data [data]: the two DELETE statements run
    only for ["confirm_endo"]. *)
Definition endo_callback (data : string) (d : db) : db :=
  if bool_decide (data = "confirm_endo"%string) then
    let kept := filter (λ it, status it ∉ cleanup_statuses) (items d) in
    let live := filter (λ b, b_item_id b ∈ item_id <$> kept) (bids d) in
    with_bids live (with_items kept d)
  else d.

(** ** Derived notions used by the statements *)

(** The database the unit of work of [bid] commits. *)
Definition committed_bid (e : env) (user : tg_user) (id : string) (amount : Z)
    (d : db) : db :=
  with_users (alter bump_bids_count (tg_id user) (users d))
    (with_bids (bids d ++ [new_bid_row e user id amount])
       (with_items
          (update_item id (set_highest amount (tg_id user) (tg_first_name user))
             (items d)) d)).

(** One constructor per path of the handler, with the conditions that
    lead there. *)
Inductive bid_path (e : env) (user : tg_user) (id : string) (amount : Z) (d : db)
    : outcome → Prop :=
  | path_invalid :
      amount ≤ 0 →
      bid_path e user id amount d (answer InvalidAmount d)
  | path_closed :
      0 < amount → truthy (bidding_open d) = false →
      bid_path e user id amount d (answer BiddingClosed d)
  | path_banned :
      0 < amount → truthy (bidding_open d) = true →
      banned d (tg_id user) = true →
      bid_path e user id amount d (answer BidderBanned d)
  | path_no_item :
      0 < amount → truthy (bidding_open d) = true →
      banned d (tg_id user) = false →
      fetch_approved id (items d) = None →
      bid_path e user id amount d (answer ItemNotBiddable d)
  | path_self it :
      0 < amount → truthy (bidding_open d) = true →
      banned d (tg_id user) = false →
      fetch_approved id (items d) = Some it →
      tg_id user = user_id it →
      bid_path e user id amount d (answer SelfBidForbidden d)
  | path_not_higher it :
      0 < amount → truthy (bidding_open d) = true →
      banned d (tg_id user) = false →
      fetch_approved id (items d) = Some it →
      tg_id user ≠ user_id it →
      amount ≤ current_bid it →
      bid_path e user id amount d (answer (BidNotHigher (current_bid it)) d)
  | path_too_low it :
      0 < amount → truthy (bidding_open d) = true →
      banned d (tg_id user) = false →
      fetch_approved id (items d) = Some it →
      tg_id user ≠ user_id it →
      current_bid it < amount < current_bid it + increment (current_bid it) →
      bid_path e user id amount d
        (answer (BidTooLow (increment (current_bid it))
                   (current_bid it + increment (current_bid it))) d)
  | path_rolled_back it s :
      0 < amount → truthy (bidding_open d) = true →
      banned d (tg_id user) = false →
      fetch_approved id (items d) = Some it →
      tg_id user ≠ user_id it →
      current_bid it + increment (current_bid it) ≤ amount →
      storage_fault e = Some s →
      bid_path e user id amount d
        {| replied := BidProcessingFailed; db_after := d; sent := [];
           log := ["Error processing bid"%string] |}
  | path_committed it o :
      0 < amount → truthy (bidding_open d) = true →
      banned d (tg_id user) = false →
      fetch_approved id (items d) = Some it →
      tg_id user ≠ user_id it →
      current_bid it + increment (current_bid it) ≤ amount →
      storage_fault e = None →
      db_after o = committed_bid e user id amount d →
      replied o = (if channel_ok e then BidPlaced amount else BidProcessingFailed) →
      bid_path e user id amount d o.

(** The current price as the glossary words it: [highest_bid] if set,
    otherwise [base_price]. *)
Definition current_price (it : item) : Z :=
  default (base_price it) (highest_bid it).


(** The text of each [reply_text], without the leading emoji and with the
    formatted numbers left as holes. *)
Definition template (r : reply) : string :=
  match r with
  | InvalidAmount => "Invalid amount. Please provide a positive number."
  | BiddingClosed => "Bidding is currently closed."
  | BidderBanned => "You are banned from bidding."
  | ItemNotBiddable => "Item not found or not approved for bidding."
  | SelfBidForbidden => "You cannot bid on your own item."
  | BidNotHigher _ => "Your bid must be higher than the current bid of {}."
  | BidTooLow _ _ => "Minimum bid increment is {}. Your bid must be at least {}."
  | BidPlaced _ => "Your bid of {} on item `{}` has been placed!"
  | BidProcessingFailed =>
      "An error occurred while processing your bid. Please try again."
  end.

(** The replies of the five precondition checks, in the order of the checks;
    the price check has two. *)
Definition precondition_failures (current inc : Z) : list reply :=
  [BiddingClosed; BidderBanned; ItemNotBiddable; SelfBidForbidden;
   BidNotHigher current; BidTooLow inc (current + inc)].

(** Item and bid history agree: an item that shows a highest bid has a row
    in [bids] with that item, amount and bidder, and a row in [bids] whose
    item is still in [items] finds a highest bid shown there. *)
Definition bid_recorded (bs : list bid_row) (it : item) : Prop :=
  match highest_bid it with
  | Some a =>
      Exists (λ b, b_item_id b = item_id it ∧ b_amount b = a
                   ∧ highest_bidder_id it = Some (b_user_id b)) bs
  | None => True
  end.

Definition bid_shown (its : list item) (b : bid_row) : Prop :=
  Forall (λ it, item_id it = b_item_id b → is_Some (highest_bid it)) its.

Definition consistent (d : db) : Prop :=
  Forall (bid_recorded (bids d)) (items d) ∧ Forall (bid_shown (items d)) (bids d).

#[global] Instance bid_recorded_dec bs it : Decision (bid_recorded bs it).
Proof. unfold bid_recorded. destruct (highest_bid it); apply _. Defined.

#[global] Instance consistent_dec d : Decision (consistent d).
Proof. unfold consistent, bid_shown. apply _. Defined.

#[global] Instance user_row_eq_dec : EqDecision user_row.
Proof. solve_decision. Defined.

#[global] Instance db_eq_dec : EqDecision db.
Proof. solve_decision. Defined.

(** One [/bid] command together with what the world does while it runs. *)
Record bid_call := {
  bc_env : env;
  bc_user : tg_user;
  bc_item : string;
  bc_amount : Z
}.

Definition run_bid (c : bid_call) (d : db) : outcome :=
  bid (bc_env c) (bc_user c) (bc_item c) (bc_amount c) d.

Fixpoint run_bids (cs : list bid_call) (d : db) : db :=
  match cs with
  | [] => d
  | c :: rest => run_bids rest (db_after (run_bid c d))
  end.

(** The column [highest_bid] of the item with the given id. *)
Definition shown_bid (id : string) (d : db) : option Z :=
  it ← fetch_item id (items d); highest_bid it.

(** A call is accepted on item [id] when it names that item and changes
    the database. *)
Definition accepted_on (id : string) (c : bid_call) (d : db) : bool :=
  bool_decide (bc_item c = id) && bool_decide (db_after (run_bid c d) ≠ d).

(** The values the column [highest_bid] of item [id] shows right after each
    accepted bid on it, over a run of bid commands, oldest first. *)
Fixpoint highest_bid_history (id : string) (cs : list bid_call) (d : db)
    : list (option Z) :=
  match cs with
  | [] => []
  | c :: rest =>
      let d' := db_after (run_bid c d) in
      if accepted_on id c d
      then shown_bid id d' :: highest_bid_history id rest d'
      else highest_bid_history id rest d'
  end.

(** The primary key of [items]. *)
Definition unique_ids (d : db) : Prop := NoDup (item_id <$> items d).

(** A highest bid, when shown, lies above the base price. *)
Definition above_base (it : item) : Prop :=
  ∀ h, highest_bid it = Some h → base_price it < h.

(** One uppercase letter followed by four digits. *)
Definition letter_and_four_digits (id : string) : Prop :=
  ∃ c d1 d2 d3 d4,
    id = String c (String d1 (String d2 (String d3 (String d4 EmptyString))))
    ∧ c ∈ ascii_uppercase
    ∧ Forall (λ x, x ∈ digits) [d1; d2; d3; d4].

(** The rows the loop of [bido] gets through: those in front of the first
    row without a [name]. *)
Fixpoint named_prefix (rows : list item) : list item :=
  match rows with
  | [] => []
  | it :: rest => if truthy_str (name it) then it :: named_prefix rest else []
  end.


(** * The rest of the bot

    The helpers and handlers around the bidding engine: text escaping,
    callback data, the phase commands, bans, the bid prompt and the refresh
    button, the listings, the broadcast and the price step of the
    submission dialogue. *)

(** ** Text helpers *)

(** [escape_chars] of [escape_markdown_v2]. *)
Definition escape_chars : list ascii :=
  list_ascii_of_string "_*[]()~`>#+-=|{}.!".

Definition backslash : ascii := Ascii.ascii_of_nat 92.

(** [escape_markdown_v2]: a backslash in front of every character of
    [escape_chars], the other characters as they are.  The text is the
    sequence of its UTF-8 bytes; the escaped characters are ASCII, so no
    byte of a longer sequence is one of them. *)
Fixpoint escape_markdown_v2 (text : string) : string :=
  match text with
  | EmptyString => EmptyString
  | String char rest =>
      if bool_decide (char ∈ escape_chars)
      then String backslash (String char (escape_markdown_v2 rest))
      else String char (escape_markdown_v2 rest)
  end.

(** Reading an escaped text back: a backslash in front of a character of
    [escape_chars] is dropped. *)
Fixpoint unescape (s : string) : string :=
  match s with
  | EmptyString => EmptyString
  | String c rest =>
      match rest with
      | String c' rest' =>
          if bool_decide (c = backslash) && bool_decide (c' ∈ escape_chars)
          then String c' (unescape rest')
          else String c (unescape rest)
      | EmptyString => String c EmptyString
      end
  end.

(** [s.split(sep)] for a separator of one character: the pieces between
    the separators, at least one piece. *)
Fixpoint split (sep : ascii) (s : string) : list string :=
  match s with
  | EmptyString => [EmptyString]
  | String c rest =>
      if bool_decide (c = sep) then EmptyString :: split sep rest
      else match split sep rest with
           | piece :: pieces => String c piece :: pieces
           | [] => [String c EmptyString]
           end
  end.

Definition underscore : ascii := Ascii.ascii_of_nat 95.

(** The callback data of the buttons, as the f-strings build them. *)
Definition approve_button (id : string) : string := "approve_" +:+ id.
Definition reject_button (id : string) : string := "reject_" +:+ id.
Definition bid_prompt_button (id : string) : string := "bid_prompt_" +:+ id.
Definition refresh_button (id : string) : string := "refresh_" +:+ id.

(** [action, item_id = query.data.split('_')] of
    [admin_approval_callback]; [None] is the [ValueError] of unpacking
    anything but two pieces. *)
Definition approval_data (data : string) : option (string * string) :=
  match split underscore data with
  | [action; id] => Some (action, id)
  | _ => None
  end.

(** [query.data.split('_')[2]] of [bid_prompt_callback] and
    [query.data.split('_')[1]] of [refresh_callback]; [None] is the
    [IndexError]. *)
Definition bid_prompt_data (data : string) : option string :=
  split underscore data !! 2%nat.

Definition refresh_data (data : string) : option string :=
  split underscore data !! 1%nat.

(** ** Long messages *)

(** A text is the list of its characters ([len] and slicing count
    characters, whatever they are). *)

Definition max_length : nat := 4000.

(** [range(0, n, step)] for a positive [step]. *)
Definition range_step (n step : nat) : list nat :=
  (λ k, k * step)%nat <$> seq 0 ((n + step - 1) / step)%nat.

(** [message_chunks] of [post]:
    [[message_text[i:i+max_length] for i in range(0, len(message_text),
    max_length)]]. *)
Definition message_chunks {A} (message_text : list A) : list (list A) :=
  (λ i, take max_length (drop i message_text))
    <$> range_step (length message_text) max_length.

(** The loop of [alist] that packs the rendered lines into messages:
    [current_message] is flushed when the next line would take it beyond
    4000 characters, and whatever is left at the end is flushed if it is not
    empty. *)
Fixpoint alist_pack {A} (lines : list (list A)) (current_message : list A)
    (messages : list (list A)) : list (list A) :=
  match lines with
  | [] =>
      match current_message with
      | [] => messages
      | _ :: _ => messages ++ [current_message]
      end
  | line :: rest =>
      if bool_decide (4000 < length current_message + length line)%nat
      then alist_pack rest line (messages ++ [current_message])
      else alist_pack rest (current_message ++ line) messages
  end.

Definition alist_messages {A} (header : list A) (lines : list (list A))
    : list (list A) :=
  alist_pack lines header [].

(** ** Broadcast *)

(** [SELECT user_id FROM users WHERE is_banned = 0] *)
Definition unbanned_user_ids (d : db) : list Z :=
  (filter (λ row, is_banned row.2 = 0) (map_to_list (users d))).*1.

(** "Failed to post to channel." or "Broadcast complete" with its three
    numbers. *)
Inductive post_reply :=
  | PostFailed
  | BroadcastComplete (channel_messages success failed : nat).

(** [post] on the joined arguments.  A loop over the chunks can only fail
    if there is a chunk to send; a user counts as a success when all chunks
    went through.  The second component lists the users counted as
    successes. *)
Definition post (e : env) (message_text : list ascii) (d : db)
    : post_reply * list Z :=
  let chunks := message_chunks message_text in
  let delivered (ok : bool) : bool := bool_decide (chunks = []) || ok in
  if negb (delivered (channel_ok e)) then (PostFailed, [])
  else
    let ids := unbanned_user_ids d in
    let reached := filter (λ uid, delivered (reachable e uid) = true) ids in
    let missed := filter (λ uid, ¬ delivered (reachable e uid) = true) ids in
    (BroadcastComplete (length chunks) (length reached) (length missed), reached).

(** ** Phase commands *)

(** The bodies of [starto] and [submito] (the admin check of the decorator
    is left to the caller); the announcement in the channel comes after the
    commit. *)
Definition starto (d : db) : db := with_phase 1 1 d.

Definition submito (d : db) : db := with_phase 0 (bidding_open d) d.

(** "Submissions are currently closed.", "You already have an item
    submission in progress." or the keyboard with the item types. *)
Inductive add_reply := SubmissionsClosed | SubmissionInProgress | ChooseItemType.

(** [add]; [in_progress] is [context.user_data.get('item_type')]. *)
Definition add (in_progress : bool) (d : db) : add_reply :=
  let '(open, _) := get_auction_state d in
  if negb (truthy open) then SubmissionsClosed
  else if in_progress then SubmissionInProgress
  else ChooseItemType.

(** ** Bans *)

Definition set_banned (flag : Z) (u : user_row) : user_row :=
  {| u_username := u_username u; u_first_name := u_first_name u;
     u_last_seen := u_last_seen u; is_banned := flag;
     submissions_count := submissions_count u;
     approved_count := approved_count u; rejected_count := rejected_count u;
     bids_count := bids_count u; wins_count := wins_count u |}.

(** [aban] and [unban] from the point where the target is a numeric user
    id: the UPDATE of [users] (the column [ban_reason], which no handler
    reads, is not part of [user_row]).  The message to the user is sent in
    a [try] and changes nothing. *)
Definition aban (uid : Z) (d : db) : db :=
  with_users (alter (set_banned 1) uid (users d)) d.

Definition unban (uid : Z) (d : db) : db :=
  with_users (alter (set_banned 0) uid (users d)) d.

(** ** Bid prompt, refresh and listings *)

(** "Item not found or not approved for bidding." or the hint with the
    current bid and the minimum bid. *)
Inductive prompt_reply :=
  | PromptNotBiddable
  | BidHint (id : string) (current min_bid : Z).

(** [bid_prompt_callback] on the item id taken from the callback data; it
    computes the increment with the same three lines as [bid]. *)
Definition bid_prompt_callback (id : string) (d : db) : prompt_reply :=
  match fetch_approved id (items d) with
  | None => PromptNotBiddable
  | Some it =>
      let current := current_bid it in
      BidHint id current (current + increment current)
  end.

(** What the refresh button shows. *)
Inductive refresh_view :=
  | RefreshNotBiddable
  | HighestBid (amount : Z) (by_name : string)
  | NoBidsYet (starting_price : Z)
  | RefreshRaised (exception : string).

(** [refresh_callback] on the item id taken from the callback data.
    [escape_markdown_v2] iterates over the bidder name and raises
    [TypeError] when the column is NULL. *)
Definition refresh_callback (id : string) (d : db) : refresh_view :=
  match fetch_approved id (items d) with
  | None => RefreshNotBiddable
  | Some it =>
      match highest_bid it with
      | Some h =>
          if truthy h then
            match highest_bidder_name it with
            | Some n => HighestBid h (escape_markdown_v2 n)
            | None => RefreshRaised "TypeError"
            end
          else NoBidsYet (base_price it)
      | None => NoBidsYet (base_price it)
      end
  end.

(** The rows of [SELECT ... FROM items WHERE highest_bidder_id = ? AND
    status = 'approved'] of [mybids]. *)
Definition mybids_rows (uid : Z) (its : list item) : list item :=
  filter (λ it, highest_bidder_id it = Some uid ∧ status it = "approved"%string) its.

(** One line of the listing: item id, name, the user's bid, starting
    price. *)
Definition mybids_line : Type := string * string * Z * Z.

(** The loop of [mybids] over the fetched rows.  As in [bido],
    [item['tm_number']] is read for a row without a name although the SELECT
    does not fetch that column: [IndexError].  Formatting a NULL
    [highest_bid] with [:,] is a [TypeError]. *)
Fixpoint mybids_lines (rows : list item) : string + list mybids_line :=
  match rows with
  | [] => inr []
  | it :: rest =>
      match name it with
      | Some n =>
          if truthy_str (name it) then
            match highest_bid it with
            | Some h =>
                match mybids_lines rest with
                | inr lines => inr ((item_id it, n, h, base_price it) :: lines)
                | inl exception => inl exception
                end
            | None => inl "TypeError"%string
            end
          else inl "IndexError"%string
      | None => inl "IndexError"%string
      end
  end.

(** "You're not currently winning any bids.", the listing, or the
    exception that ended the handler. *)
Inductive mybids_reply :=
  | NotWinning
  | Winning (lines : list mybids_line)
  | MybidsRaised (exception : string).

Definition mybids (user : tg_user) (d : db) : mybids_reply :=
  match mybids_rows (tg_id user) (items d) with
  | [] => NotWinning
  | rows =>
      match mybids_lines rows with
      | inr lines => Winning lines
      | inl exception => MybidsRaised exception
      end
  end.

(** ** The price step of the submission dialogue *)

Definition with_base_price (price : Z) (dr : draft) : draft :=
  {| d_item_type := d_item_type dr; d_name := d_name dr;
     d_tm_name := d_tm_name dr; d_base_price := price |}.

(** "Invalid price. Please send a positive number:" (the dialogue stays in
    the price state) or the outcome of [complete_submission]. *)
Inductive price_reply :=
  | InvalidPrice
  | SubmissionDone (r : submit_reply).

(** [poke_price] and [tm_price] have the same body; [parsed] is
    [int(update.message.text)], [None] when it raises [ValueError]. *)
Definition poke_price (parsed : option Z) (e : env) (r : nat → nat)
    (user : tg_user) (dr : draft) (d : db) : price_reply * db :=
  match parsed with
  | Some price =>
      if bool_decide (price ≤ 0) then (InvalidPrice, d)
      else
        let '(reply, d') := complete_submission e r user (with_base_price price dr) d in
        (SubmissionDone reply, d')
  | None => (InvalidPrice, d)
  end.

Definition tm_price (parsed : option Z) (e : env) (r : nat → nat)
    (user : tg_user) (dr : draft) (d : db) : price_reply * db :=
  match parsed with
  | Some price =>
      if bool_decide (price ≤ 0) then (InvalidPrice, d)
      else
        let '(reply, d') := complete_submission e r user (with_base_price price dr) d in
        (SubmissionDone reply, d')
  | None => (InvalidPrice, d)
  end.

(** ** The submission dialogue up to the price step *)

(** The callbacks [main] registers for the state [POKE_CATEGORY]. *)
Inductive category_callback := CbPokeCategory | CbItemTm.

(** A [CallbackQueryHandler]: its callback and its [pattern], if it was
    given one. *)
Record callback_query_handler := {
  callback : category_callback;
  pattern : option (string → bool)
}.

(** [check_update] of a [CallbackQueryHandler] on the data of a callback
    query: a handler without a pattern accepts every query. *)
Definition check_update (h : callback_query_handler) (data : string) : bool :=
  match pattern h with
  | Some matches => matches data
  | None => true
  end.

(** [states[POKE_CATEGORY]] of the conversation handler:
    [[CallbackQueryHandler(poke_category), CallbackQueryHandler(item_tm)]]. *)
Definition POKE_CATEGORY : list callback_query_handler :=
  [ {| callback := CbPokeCategory; pattern := None |};
    {| callback := CbItemTm; pattern := None |} ].

(** The conversation handler runs the first handler of the current state
    that accepts the update. *)
Definition handler_for (handlers : list callback_query_handler) (data : string)
    : option category_callback :=
  callback <$> head (filter (λ h, check_update h data = true) handlers).

(** [filters.TEXT & ~filters.COMMAND] of the states [POKE_NAME] and
    [TM_INFO]: the message has a text, which is not empty, and [command]
    (Telegram has marked the beginning of the text as a bot command) is
    false. *)
Definition text_not_command (text : string) (command : bool) : bool :=
  negb (bool_decide (text = EmptyString)) && negb command.

(** What the dialogue has put into [context.user_data] when it reaches the
    price step, [None] when it ended or did not go on.
    - [data] is the callback data of the button pressed in the state
      [POKE_CATEGORY]: [poke_category] ends the dialogue on ["cancel"],
      otherwise sets [item_type] to ['pokemon'] and reads
      [data.split('_')[1]] (an [IndexError] when there is no such piece);
      [item_tm] sets [item_type] to ['tm'].
    - [text] and [command] describe the message sent next: [poke_name]
      stores the text as [name].
    - [tm_move] is the move name [tm_info] reads from its message.
    The base price is set by the price step. *)
Definition dialogue_draft (data text : string) (command : bool)
    (tm_move : string) : option draft :=
  match handler_for POKE_CATEGORY data with
  | Some CbPokeCategory =>
      if bool_decide (data = "cancel"%string) then None
      else match split underscore data !! 1%nat with
           | None => None
           | Some category =>
               if text_not_command text command then
                 Some {| d_item_type := "pokemon"; d_name := text;
                         d_tm_name := EmptyString; d_base_price := 0 |}
               else None
           end
  | Some CbItemTm =>
      Some {| d_item_type := "tm"; d_name := EmptyString; d_tm_name := tm_move;
              d_base_price := 0 |}
  | None => None
  end.

(** ** Runs of the bot *)

(** The database of a newly created file after [init_db]: the tables are
    empty and the one row of [auction_state] says closed, closed.  (The DDL
    of [bids] is read with its closing parenthesis.) *)
Definition init_db : db :=
  {| items := []; users := ∅; bids := []; submissions_open := 0;
     bidding_open := 0 |}.

(** One call of a handler that writes to the database, with its arguments
    and with what the world does meanwhile. *)
Inductive op :=
  | OpStarto
  | OpSubmito
  | OpPrice (parsed : option Z) (e : env) (r : nat → nat) (user : tg_user)
      (dr : draft)
  | OpDecision (e : env) (admin : Z) (action id : string)
      (message_text : option string) (posted : option Z)
  | OpBid (e : env) (user : tg_user) (id : string) (amount : Z)
  | OpBido (e : env)
  | OpEndo (data : string)
  | OpAban (uid : Z)
  | OpUnban (uid : Z).

Definition step (o : op) (d : db) : db :=
  match o with
  | OpStarto => starto d
  | OpSubmito => submito d
  | OpPrice parsed e r user dr => (poke_price parsed e r user dr d).2
  | OpDecision e admin action id message_text posted =>
      (admin_approval_callback e admin action id message_text posted d).2
  | OpBid e user id amount => db_after (bid e user id amount d)
  | OpBido e => c_db (bido e d)
  | OpEndo data => endo_callback data d
  | OpAban uid => aban uid d
  | OpUnban uid => unban uid d
  end.

Definition run (ops : list op) (d : db) : db :=
  foldl (λ acc o, step o acc) d ops.

(** Every row of [bids] names an item that is in [items]. *)
Definition no_orphan_bids (d : db) : Prop :=
  Forall (λ b, b_item_id b ∈ item_id <$> items d) (bids d).

(** Base prices are positive and highest bids lie above them. *)
Definition prices_ok (d : db) : Prop :=
  Forall (λ it, 0 < base_price it ∧ above_base it) (items d).

Definition sound (d : db) : Prop :=
  unique_ids d ∧ consistent d ∧ no_orphan_bids d ∧ prices_ok d.

(** The moves of the status of an item: it stays, a pending item is
    approved or rejected, an approved item is sold. *)
Definition status_move (s s' : string) : Prop :=
  s' = s
  ∨ (s = "pending"%string ∧ (s' = "approved"%string ∨ s' = "rejected"%string))
  ∨ (s = "approved"%string ∧ s' = "sold"%string).

(** A change of a row that leaves the columns alone on which [sound]
    depends. *)
Definition keeps_columns (g : item → item) : Prop :=
  ∀ x, item_id (g x) = item_id x
       ∧ highest_bid (g x) = highest_bid x
       ∧ highest_bidder_id (g x) = highest_bidder_id x
       ∧ base_price (g x) = base_price x.

(** How one call may change a row of [items]: the id, the owner and the
    base price stay, the status moves along [status_move], and the bid
    columns stay unless the call is a bid on this very item, which must be
    approved and then shows the amount and the bidder of the call, above
    the price it stood at. *)
Definition item_move (o : op) (x x' : item) : Prop :=
  item_id x' = item_id x
  ∧ user_id x' = user_id x
  ∧ base_price x' = base_price x
  ∧ status_move (status x) (status x')
  ∧ ((highest_bid x' = highest_bid x
      ∧ highest_bidder_id x' = highest_bidder_id x)
     ∨ ∃ e user amount,
         o = OpBid e user (item_id x) amount
         ∧ status x = "approved"%string ∧ status x' = "approved"%string
         ∧ highest_bid x' = Some amount
         ∧ highest_bidder_id x' = Some (tg_id user)
         ∧ current_price x < amount).

(** Every item has a name that is not empty. *)
Definition named_items (d : db) : Prop :=
  Forall (λ it, truthy_str (name it) = true) (items d).

(** A call whose draft, if it is the price step of a submission, is one the
    dialogue can have collected. *)
Definition from_dialogue (o : op) : Prop :=
  match o with
  | OpPrice _ _ _ _ dr =>
      ∃ data text command tm_move,
        dialogue_draft data text command tm_move = Some dr
  | _ => True
  end.
(** ** Sample data *)

Module Sample.

Definition calm : env :=
  {| now := "2024-05-01T12:00:00"; storage_fault := None; channel_ok := true;
     reachable := λ _, true |}.

(** Nobody can be reached and the channel is down. *)
Definition deaf : env :=
  {| now := "2024-05-01T12:00:00"; storage_fault := None; channel_ok := false;
     reachable := λ _, false |}.

(** The database and the channel work, but no direct message arrives. *)
Definition muted : env :=
  {| now := "2024-05-01T12:00:00"; storage_fault := None; channel_ok := true;
     reachable := λ _, false |}.

Definition failing (s : stmt) : env :=
  {| now := "2024-05-01T12:00:00"; storage_fault := Some s; channel_ok := true;
     reachable := λ _, true |}.

Definition alice : tg_user :=
  {| tg_id := 101; tg_username := Some "alice"%string; tg_first_name := "Alice" |}.
Definition bob : tg_user :=
  {| tg_id := 202; tg_username := Some "bob"%string; tg_first_name := "Bob" |}.
Definition carol : tg_user :=
  {| tg_id := 303; tg_username := None; tg_first_name := "Carol" |}.
Definition dave : tg_user :=
  {| tg_id := 404; tg_username := Some "dave"%string; tg_first_name := "Dave" |}.

(** An approved Pokemon of Alice, base price 25000, no bid yet. *)
Definition pikachu : item :=
  {| item_id := "A0000"; user_id := 101; username := Some "alice"%string;
     first_name := "Alice"; item_type := "pokemon"; name := Some "Pikachu"%string;
     tm_name := None; base_price := 25000; status := "approved";
     highest_bid := None; highest_bidder_id := None;
     highest_bidder_name := None; channel_message_id2 := Some 11 |}.

(** An approved Pokemon of Alice, base price 60000, Bob leads with 65000. *)
Definition mew : item :=
  {| item_id := "B1234"; user_id := 101; username := Some "alice"%string;
     first_name := "Alice"; item_type := "pokemon"; name := Some "Mew"%string;
     tm_name := None; base_price := 60000; status := "approved";
     highest_bid := Some 65000; highest_bidder_id := Some 202;
     highest_bidder_name := Some "Bob"%string; channel_message_id2 := Some 13 |}.

(** An approved TM of Alice as the TM branch of [complete_submission] would
store it (a TM row has no [name]), Bob leads with 6000. *)
Definition tm26 : item :=
  {| item_id := "C0026"; user_id := 101; username := Some "alice"%string;
     first_name := "Alice"; item_type := "tm"; name := None;
     tm_name := Some "Earthquake"%string; base_price := 5000;
     status := "approved";
     highest_bid := Some 6000; highest_bidder_id := Some 202;
     highest_bidder_name := Some "Bob"%string; channel_message_id2 := Some 15 |}.

(** A submission of Dave still waiting for the admins. *)
Definition eevee : item :=
  {| item_id := "D4321"; user_id := 404; username := Some "dave"%string;
     first_name := "Dave"; item_type := "pokemon"; name := Some "Eevee"%string;
     tm_name := None; base_price := 1000; status := "pending";
     highest_bid := None; highest_bidder_id := None;
     highest_bidder_name := None; channel_message_id2 := None |}.

(** A rejected submission of Dave. *)
Definition rattata : item :=
  {| item_id := "E0007"; user_id := 404; username := Some "dave"%string;
     first_name := "Dave"; item_type := "pokemon"; name := Some "Rattata"%string;
     tm_name := None; base_price := 500; status := "rejected";
     highest_bid := None; highest_bidder_id := None;
     highest_bidder_name := None; channel_message_id2 := None |}.

Definition row (u : tg_user) (ban : Z) (subs : Z) (nbids : Z) : user_row :=
  {| u_username := tg_username u; u_first_name := tg_first_name u;
     u_last_seen := "2024-04-30T09:00:00"; is_banned := ban;
     submissions_count := subs; approved_count := 0; rejected_count := 0;
     bids_count := nbids; wins_count := 0 |}.

Definition bid_of (u : tg_user) (id : string) (a : Z) : bid_row :=
  {| b_item_id := id; b_user_id := tg_id u; b_username := tg_username u;
     b_first_name := tg_first_name u; b_amount := a;
     b_bid_time := "2024-05-01T10:00:00" |}.

(** A Pokemon of Dave sold to Bob in the previous round. *)
Definition onix : item :=
  {| item_id := "F0099"; user_id := 404; username := Some "dave"%string;
   first_name := "Dave"; item_type := "pokemon"; name := Some "Onix"%string;
   tm_name := None; base_price := 2000; status := "sold";
   highest_bid := Some 3000; highest_bidder_id := Some 202;
   highest_bidder_name := Some "Bob"%string; channel_message_id2 := Some 5 |}.

(** Alice and Dave have submitted items, Dave has since been banned; Bob
    and Carol never submitted anything, so they have no row in [users]. *)
Definition shop : db :=
  {| items := [onix; pikachu; mew; eevee; rattata];
     users := <[101 := row alice 0 2 0]> (<[404 := row dave 1 2 0]> ∅);
     bids := [bid_of bob "F0099" 3000; bid_of bob "B1234" 65000];
     submissions_open := 0; bidding_open := 1 |}.

Definition closed_shop : db := with_phase 0 0 shop.

(** An approved Pokemon of Dave, Carol leads with 13000. *)
Definition gengar : item :=
  {| item_id := "G0094"; user_id := 404; username := Some "dave"%string;
   first_name := "Dave"; item_type := "pokemon"; name := Some "Gengar"%string;
   tm_name := None; base_price := 12000; status := "approved";
   highest_bid := Some 13000; highest_bidder_id := Some 303;
   highest_bidder_name := Some "Carol"%string; channel_message_id2 := Some 17 |}.

(** An auction with a TM among the items that have bids: Pikachu has no
bid, Mew, the TM and Gengar have one each. *)
Definition tm_shop : db :=
  {| items := [pikachu; mew; tm26; gengar];
   users := <[101 := row alice 0 3 0]> (<[404 := row dave 0 1 0]> ∅);
   bids := [bid_of bob "B1234" 65000; bid_of bob "C0026" 6000;
            bid_of carol "G0094" 13000];
   submissions_open := 0; bidding_open := 1 |}.

(** The same auction without the TM. *)
Definition pokemon_shop : db :=
  {| items := [pikachu; mew; gengar];
   users := <[101 := row alice 0 2 0]> (<[404 := row dave 0 1 0]> ∅);
   bids := [bid_of bob "B1234" 65000; bid_of carol "G0094" 13000];
   submissions_open := 0; bidding_open := 1 |}.

(** An auction that has just been opened and has nothing in it yet. *)
Definition opening : db :=
  {| items := []; users := ∅; bids := []; submissions_open := 1; bidding_open := 1 |}.

Definition abra_draft : draft :=
  {| d_item_type := "pokemon"; d_name := "Abra"; d_tm_name := EmptyString;
   d_base_price := 10000 |}.

(** Alice submits Abra, an admin approves it (the message with the buttons
is the photo of Abra, so it has no text), Bob bids 11000 and Carol 12000. *)
Definition submitted : db :=
  (complete_submission calm (λ _, 0%nat) alice abra_draft opening).2.
Definition listed : db :=
  (admin_approval_callback calm 5816482345 "approve" "A0000" None (Some 20)
   submitted).2.
Definition after_bob : db := db_after (bid calm bob "A0000" 11000 listed).
Definition after_carol : db := db_after (bid calm carol "A0000" 12000 after_bob).

Definition gengar_draft : draft :=
  {| d_item_type := "pokemon"; d_name := "Gengar"; d_tm_name := EmptyString;
   d_base_price := 12000 |}.

(** A run of bid commands: Bob opens on Pikachu, Carol bids too little and
then enough, Bob bids while the database is failing, banned Dave tries,
Carol raises on Mew, Alice bids on her own item. *)
Definition calls : list bid_call :=
  [ {| bc_env := calm; bc_user := bob; bc_item := "A0000"; bc_amount := 27000 |};
  {| bc_env := calm; bc_user := carol; bc_item := "A0000"; bc_amount := 28000 |};
  {| bc_env := deaf; bc_user := carol; bc_item := "A0000"; bc_amount := 29000 |};
  {| bc_env := failing StCommit; bc_user := bob; bc_item := "A0000";
     bc_amount := 40000 |};
  {| bc_env := calm; bc_user := dave; bc_item := "A0000"; bc_amount := 50000 |};
  {| bc_env := calm; bc_user := carol; bc_item := "B1234"; bc_amount := 70000 |};
  {| bc_env := calm; bc_user := alice; bc_item := "A0000"; bc_amount := 90000 |} ].

End Sample.
(** * Properties *)

(** ** The paths through [bid] *)

Lemma bid_unit_of_work_no_fault e user id amount d :
  storage_fault e = None →
  bid_unit_of_work e user id amount d = Some (committed_bid e user id amount d).
Proof.
  intros Hf. unfold bid_unit_of_work, exec. rewrite Hf. reflexivity.
Qed.

Lemma bid_unit_of_work_fault e user id amount d s :
  storage_fault e = Some s → bid_unit_of_work e user id amount d = None.
Proof.
  intros Hf. unfold bid_unit_of_work, exec. rewrite Hf.
  destruct s; reflexivity.
Qed.

Lemma bid_unit_of_work_Some e user id amount d d' :
  bid_unit_of_work e user id amount d = Some d' →
  storage_fault e = None ∧ d' = committed_bid e user id amount d.
Proof.
  intros H. destruct (storage_fault e) as [s|] eqn:Hf.
  - rewrite (bid_unit_of_work_fault _ _ _ _ _ s Hf) in H. discriminate.
  - rewrite (bid_unit_of_work_no_fault _ _ _ _ _ Hf) in H. by simplify_eq.
Qed.

Lemma bid_paths e user id amount d :
  bid_path e user id amount d (bid e user id amount d).
Proof.
  unfold bid, get_auction_state.
  case_bool_decide as Hpos; [by apply path_invalid|].
  assert (0 < amount) as Hpos' by lia.
  destruct (truthy (bidding_open d)) eqn:Hopen; simpl;
    [|by apply path_closed].
  destruct (banned d (tg_id user)) eqn:Hban; [by apply path_banned|].
  destruct (fetch_approved id (items d)) as [it|] eqn:Hit;
    [|by apply path_no_item].
  case_bool_decide as Hown; [by apply (path_self _ _ _ _ _ it)|].
  case_bool_decide as Hle; [by apply (path_not_higher _ _ _ _ _ it)|].
  case_bool_decide as Hlt; [apply (path_too_low _ _ _ _ _ it); [done..|lia]|].
  assert (current_bid it + increment (current_bid it) ≤ amount) as Hge by lia.
  destruct (storage_fault e) as [s|] eqn:Hf.
  - rewrite (bid_unit_of_work_fault _ _ _ _ _ s Hf).
    by apply (path_rolled_back _ _ _ _ _ it s).
  - rewrite (bid_unit_of_work_no_fault _ _ _ _ _ Hf).
    apply (path_committed _ _ _ _ _ it); try done.
    + destruct (channel_ok e); [|done].
      by destruct (notify_previous_bidder _ _ _ _), (notify_seller _ _ _).
    + destruct (channel_ok e); [|done].
      by destruct (notify_previous_bidder _ _ _ _), (notify_seller _ _ _).
Qed.

Lemma bid_reply_placed e user id amount d a :
  replied (bid e user id amount d) = BidPlaced a →
  a = amount
  ∧ db_after (bid e user id amount d) = committed_bid e user id amount d
  ∧ storage_fault e = None ∧ channel_ok e = true
  ∧ ∃ it, fetch_approved id (items d) = Some it
          ∧ tg_id user ≠ user_id it
          ∧ current_bid it + increment (current_bid it) ≤ amount.
Proof.
  intros Hr. destruct (bid_paths e user id amount d); try discriminate.
  match goal with H : replied _ = (if _ then _ else _) |- _ => rename H into Hc end.
  rewrite Hr in Hc. destruct (channel_ok e); [|discriminate].
  simplify_eq. eauto 10.
Qed.

Lemma bid_changes_only_when_committed e user id amount d :
  db_after (bid e user id amount d) = d
  ∨ db_after (bid e user id amount d) = committed_bid e user id amount d
    ∧ 0 < amount
    ∧ storage_fault e = None
    ∧ ∃ it, fetch_approved id (items d) = Some it
            ∧ tg_id user ≠ user_id it
            ∧ current_bid it + increment (current_bid it) ≤ amount.
Proof.
  destruct (bid_paths e user id amount d); eauto 10.
Qed.

(** ** Current price and tiers *)

Lemma current_bid_current_price it :
  highest_bid it ≠ Some 0 → current_bid it = current_price it.
Proof.
  unfold current_bid, current_price, truthy.
  destruct (highest_bid it) as [h|]; simpl; [|done].
  intros Hh. case_bool_decide; [congruence|done].
Qed.

Lemma increment_tiers p :
  (50000 ≤ p ∧ increment p = 5000)
  ∨ (20000 ≤ p < 50000 ∧ increment p = 2000)
  ∨ (p < 20000 ∧ increment p = 1000).
Proof.
  unfold increment. repeat case_bool_decide; lia.
Qed.

Lemma increment_pos p : 0 < increment p.
Proof. destruct (increment_tiers p) as [[_ ->]|[[_ ->]|[_ ->]]]; lia. Qed.


(** The same paths read forwards: what [bid] returns once the conditions
    of a path are known. *)
Section Forward.
Context (e : env) (user : tg_user) (id : string) (amount : Z) (d : db).

Lemma bid_invalid : amount ≤ 0 → bid e user id amount d = answer InvalidAmount d.
Proof. intros. unfold bid. by rewrite bool_decide_eq_true_2. Qed.

Context (Hpos : 0 < amount).

Lemma bid_closed :
  truthy (bidding_open d) = false → bid e user id amount d = answer BiddingClosed d.
Proof.
  intros Hc. unfold bid, get_auction_state.
  rewrite bool_decide_eq_false_2 by lia. by rewrite Hc.
Qed.

Context (Hopen : truthy (bidding_open d) = true).

Lemma bid_banned :
  banned d (tg_id user) = true → bid e user id amount d = answer BidderBanned d.
Proof.
  intros Hb. unfold bid, get_auction_state.
  rewrite bool_decide_eq_false_2 by lia. by rewrite Hopen, Hb.
Qed.

Context (Hban : banned d (tg_id user) = false).

Lemma bid_no_item :
  fetch_approved id (items d) = None →
  bid e user id amount d = answer ItemNotBiddable d.
Proof.
  intros Hn. unfold bid, get_auction_state.
  rewrite bool_decide_eq_false_2 by lia. by rewrite Hopen, Hban, Hn.
Qed.

Context (it : item) (Hit : fetch_approved id (items d) = Some it).

Lemma bid_self :
  tg_id user = user_id it → bid e user id amount d = answer SelfBidForbidden d.
Proof.
  intros Ho. unfold bid, get_auction_state.
  rewrite bool_decide_eq_false_2 by lia. rewrite Hopen, Hban, Hit. simpl.
  by rewrite bool_decide_eq_true_2.
Qed.

Context (Hown : tg_id user ≠ user_id it).

Lemma bid_not_higher :
  amount ≤ current_bid it →
  bid e user id amount d = answer (BidNotHigher (current_bid it)) d.
Proof.
  intros Hle. unfold bid, get_auction_state.
  rewrite bool_decide_eq_false_2 by lia. rewrite Hopen, Hban, Hit. simpl.
  rewrite (bool_decide_eq_false_2 _ Hown). by rewrite bool_decide_eq_true_2.
Qed.

Lemma bid_too_low :
  current_bid it < amount < current_bid it + increment (current_bid it) →
  bid e user id amount d
  = answer (BidTooLow (increment (current_bid it))
              (current_bid it + increment (current_bid it))) d.
Proof.
  intros Hlt. unfold bid, get_auction_state.
  rewrite bool_decide_eq_false_2 by lia. rewrite Hopen, Hban, Hit. simpl.
  rewrite (bool_decide_eq_false_2 _ Hown).
  rewrite bool_decide_eq_false_2 by lia. by rewrite bool_decide_eq_true_2 by lia.
Qed.

Context (Hamount : current_bid it + increment (current_bid it) ≤ amount).

Lemma bid_rolled_back s :
  storage_fault e = Some s →
  bid e user id amount d
  = {| replied := BidProcessingFailed; db_after := d; sent := [];
       log := ["Error processing bid"%string] |}.
Proof.
  intros Hf. pose proof (increment_pos (current_bid it)).
  unfold bid, get_auction_state.
  rewrite bool_decide_eq_false_2 by lia. rewrite Hopen, Hban, Hit. simpl.
  rewrite (bool_decide_eq_false_2 _ Hown).
  rewrite bool_decide_eq_false_2 by lia. rewrite bool_decide_eq_false_2 by lia.
  by rewrite (bid_unit_of_work_fault _ _ _ _ _ s Hf).
Qed.

Lemma bid_committed :
  storage_fault e = None →
  db_after (bid e user id amount d) = committed_bid e user id amount d
  ∧ replied (bid e user id amount d)
    = (if channel_ok e then BidPlaced amount else BidProcessingFailed).
Proof.
  intros Hf. pose proof (increment_pos (current_bid it)).
  unfold bid, get_auction_state.
  rewrite bool_decide_eq_false_2 by lia. rewrite Hopen, Hban, Hit. simpl.
  rewrite (bool_decide_eq_false_2 _ Hown).
  rewrite bool_decide_eq_false_2 by lia. rewrite bool_decide_eq_false_2 by lia.
  rewrite (bid_unit_of_work_no_fault _ _ _ _ _ Hf).
  destruct (channel_ok e); [|done].
  by destruct (notify_previous_bidder _ _ _ _), (notify_seller _ _ _).
Qed.

End Forward.

(** ** The price check *)

(** C1 (as amended).  On an approved item that the bidder does not own,
    with bidding open and the bidder not banned, let [p] be the current
    price ([highest_bid] if set, else [base_price]).  The required
    increment [i] is 5000 for [p >= 50000], 2000 for [20000 <= p < 50000]
    and 1000 below; it depends on [p] alone.  A bid with [amount <= p] is
    refused with the current price [p] in the answer and no minimum; a bid
    with [p < amount < p + i] is refused with the increment [i] and the
    minimum [p + i] in the answer; neither changes the database.  A bid is
    placed, or changes the database at all, only if [amount >= p + i], and
    when no statement and no channel call fails such a bid is placed and
    committed. *)
Theorem bid_price_check e user id amount d it :
  0 < amount →
  truthy (bidding_open d) = true →
  banned d (tg_id user) = false →
  fetch_approved id (items d) = Some it →
  tg_id user ≠ user_id it →
  highest_bid it ≠ Some 0 →
  let p := current_price it in
  let o := bid e user id amount d in
  ∃ i,
    ((50000 ≤ p ∧ i = 5000) ∨ (20000 ≤ p < 50000 ∧ i = 2000)
     ∨ (p < 20000 ∧ i = 1000))
    ∧ (amount ≤ p → o = answer (BidNotHigher p) d)
    ∧ (p < amount < p + i → o = answer (BidTooLow i (p + i)) d)
    ∧ (p + i ≤ amount → storage_fault e = None → channel_ok e = true →
       replied o = BidPlaced amount
       ∧ db_after o = committed_bid e user id amount d)
    ∧ ((∃ a, replied o = BidPlaced a) ∨ db_after o ≠ d → p + i ≤ amount).
Proof.
  intros Hpos Hopen Hban Hit Hown Hnz p o.
  assert (Hp : current_bid it = p) by by apply current_bid_current_price.
  clearbody p. subst p. set (p := current_bid it) in *. exists (increment p). split; [apply increment_tiers|].
  pose proof (increment_pos p) as Hinc.
  split_and!.
  - intros Hle. subst o. by apply bid_not_higher.
  - intros Hlt. subst o. by apply bid_too_low.
  - intros Hge Hf Hc.
    destruct (bid_committed e user id amount d Hpos Hopen Hban it Hit Hown)
      as [Hdb Hr]; [done..|].
    subst o. by rewrite Hr, Hc.
  - intros Hacc.
    destruct (Z.le_gt_cases amount p) as [Hle|Hgt].
    { exfalso. subst o.
      rewrite (bid_not_higher e user id amount d Hpos Hopen Hban it Hit Hown) in Hacc
        by done.
      destruct Hacc as [[a Ha]|Hne]; [discriminate|done]. }
    destruct (Z.le_gt_cases (p + increment p) amount) as [|Hlow]; [done|].
    exfalso. subst o.
    rewrite (bid_too_low e user id amount d Hpos Hopen Hban it Hit Hown) in Hacc
      by (split; [apply Hgt|apply Hlow]).
    destruct Hacc as [[a Ha]|Hne]; [discriminate|done].
Qed.

Lemma bid_price_check_witness :
  bid Sample.calm Sample.bob "A0000" 26500 Sample.shop
  = answer (BidTooLow 2000 27000) Sample.shop.
Proof.
  destruct (bid_price_check Sample.calm Sample.bob "A0000" 26500 Sample.shop
              Sample.pikachu) as (i & Hi & _ & Hlow & _);
    [lia|reflexivity|reflexivity|reflexivity|by vm_compute|discriminate|].
  change (current_price Sample.pikachu) with 25000 in *.
  assert (i = 2000) as -> by lia.
  apply Hlow. lia.
Defined.

(** C1, the counterexample.  Pikachu stands at 25000, so the tier asks for
    27000.  A bid of 25000 is refused, but the answer names the current
    bid 25000, not the minimum 27000. *)
Lemma bid_at_current_price_names_no_minimum :
  current_price Sample.pikachu = 25000
  ∧ bid Sample.calm Sample.bob "A0000" 25000 Sample.shop
    = answer (BidNotHigher 25000) Sample.shop
  ∧ ¬ (∃ i, replied (bid Sample.calm Sample.bob "A0000" 25000 Sample.shop)
            = BidTooLow i 27000).
Proof.
  split_and!; [reflexivity|reflexivity|].
  intros [i Hi]. vm_compute in Hi. discriminate.
Qed.

(** The three examples of the specification. *)
Example bid_26500_on_25000 :
  replied (bid Sample.calm Sample.bob "A0000" 26500 Sample.shop)
  = BidTooLow 2000 27000.
Proof. reflexivity. Qed.

Example bid_27000_on_25000 :
  replied (bid Sample.calm Sample.bob "A0000" 27000 Sample.shop) = BidPlaced 27000
  ∧ highest_bid <$> fetch_item "A0000"
      (items (db_after (bid Sample.calm Sample.bob "A0000" 27000 Sample.shop)))
    = Some (Some 27000).
Proof. split; reflexivity. Qed.

Example bid_66000_on_65000 :
  replied (bid Sample.calm Sample.carol "B1234" 66000 Sample.shop)
  = BidTooLow 5000 70000.
Proof. reflexivity. Qed.

(** The tier follows the price before the bid: from 19500 a bid of 20500 is
    enough although the amount itself lies in the next tier. *)
Example increment_below_20000 : increment 19500 = 1000 ∧ increment 20500 = 2000.
Proof. split; reflexivity. Qed.

(** ** The order of the checks *)

Lemma templates_distinct current inc :
  NoDup (template <$> precondition_failures current inc).
Proof.
  apply (bool_decide_unpack _). by vm_compute.
Qed.

(** C4.  For a bid with a positive amount the checks run in the order
    (a) bidding open, (b) bidder not banned, (c) item exists and is
    approved, (d) bidder is not the owner, (e) amount reaches the tier
    minimum: the answer is that of the first check that fails, whatever the
    later checks would say, the database stays as it is, and the answers of
    different checks have different texts.  In particular, with bidding
    open a banned bidder gets the ban answer for every item and every
    amount. *)
Theorem bid_check_order e user id amount d :
  0 < amount →
  let o := bid e user id amount d in
  let open := truthy (bidding_open d) in
  let ban := banned d (tg_id user) in
  let found := fetch_approved id (items d) in
  (open = false → o = answer BiddingClosed d)
  ∧ (open = true → ban = true → o = answer BidderBanned d)
  ∧ (open = true → ban = false → found = None → o = answer ItemNotBiddable d)
  ∧ (∀ it, open = true → ban = false → found = Some it →
       tg_id user = user_id it → o = answer SelfBidForbidden d)
  ∧ (∀ it, open = true → ban = false → found = Some it →
       tg_id user ≠ user_id it →
       amount < current_bid it + increment (current_bid it) →
       o = answer (BidNotHigher (current_bid it)) d
       ∨ o = answer (BidTooLow (increment (current_bid it))
                       (current_bid it + increment (current_bid it))) d)
  ∧ (∀ it, open = true → ban = false → found = Some it →
       tg_id user ≠ user_id it →
       current_bid it + increment (current_bid it) ≤ amount →
       replied o = BidPlaced amount ∨ replied o = BidProcessingFailed)
  ∧ (∀ current inc, NoDup (template <$> precondition_failures current inc)).
Proof.
  intros Hpos o open ban found. subst o open ban found.
  split_and!.
  - by apply bid_closed.
  - by apply bid_banned.
  - by apply bid_no_item.
  - intros it Hopen Hban Hit Hown. by apply (bid_self _ _ _ _ _ Hpos Hopen Hban it).
  - intros it Hopen Hban Hit Hown Hlt.
    destruct (Z.le_gt_cases amount (current_bid it)) as [Hle|Hgt].
    + left. by apply bid_not_higher.
    + right. by apply bid_too_low.
  - intros it Hopen Hban Hit Hown Hge.
    destruct (storage_fault e) as [s|] eqn:Hf.
    + right. by rewrite (bid_rolled_back _ _ _ _ _ Hpos Hopen Hban it Hit Hown Hge s Hf).
    + destruct (bid_committed _ _ _ _ _ Hpos Hopen Hban it Hit Hown Hge Hf) as [_ ->].
      destruct (channel_ok e); auto.
  - apply templates_distinct.
Qed.

(** Dave is banned: his bid on Mew is refused as banned although 70000
    would meet the tier minimum. *)
Lemma bid_check_order_witness :
  bid Sample.calm Sample.dave "B1234" 70000 Sample.shop
  = answer BidderBanned Sample.shop.
Proof.
  destruct (bid_check_order Sample.calm Sample.dave "B1234" 70000 Sample.shop)
    as (_ & Hb & _); [lia|].
  apply Hb; reflexivity.
Defined.

(** ** Bidding on one's own item *)

(** C8.  When the approved item found under the given id belongs to the
    bidder, the bid never changes the database, sends nothing and is never
    answered as placed, whatever the amount; and once the earlier checks
    are passed (positive amount, bidding open, bidder not banned) the
    answer is the self-bid refusal, whatever the amount. *)
Theorem self_bid_forbidden e user id amount d it :
  fetch_approved id (items d) = Some it →
  tg_id user = user_id it →
  let o := bid e user id amount d in
  db_after o = d
  ∧ sent o = []
  ∧ (∀ a, replied o ≠ BidPlaced a)
  ∧ (0 < amount → truthy (bidding_open d) = true →
     banned d (tg_id user) = false → o = answer SelfBidForbidden d).
Proof.
  intros Hit Hown o.
  assert (Hcases : o = answer InvalidAmount d ∨ o = answer BiddingClosed d
                   ∨ o = answer BidderBanned d ∨ o = answer SelfBidForbidden d).
  { subst o. destruct (Z.le_gt_cases amount 0) as [Hle|Hpos].
    { left. by apply bid_invalid. }
    destruct (truthy (bidding_open d)) eqn:Hopen;
      [|right; left; by apply bid_closed].
    destruct (banned d (tg_id user)) eqn:Hban;
      [right; right; left; by apply bid_banned|].
    do 3 right. by apply (bid_self _ _ _ _ _ Hpos Hopen Hban it). }
  split_and!.
  - by destruct Hcases as [-> | [-> | [-> | ->]]].
  - by destruct Hcases as [-> | [-> | [-> | ->]]].
  - intros a. by destruct Hcases as [-> | [-> | [-> | ->]]].
  - intros Hpos Hopen Hban. subst o.
    by apply (bid_self _ _ _ _ _ Hpos Hopen Hban it).
Qed.

(** Alice offers a billion for her own Pikachu. *)
Lemma self_bid_forbidden_witness :
  bid Sample.calm Sample.alice "A0000" 1000000000 Sample.shop
  = answer SelfBidForbidden Sample.shop.
Proof.
  destruct (self_bid_forbidden Sample.calm Sample.alice "A0000" 1000000000
              Sample.shop Sample.pikachu) as (_ & _ & _ & Hself);
    [reflexivity|reflexivity|].
  apply Hself; [lia|reflexivity|reflexivity].
Defined.

(** ** Bidders without a row in [users] *)

Lemma replied_independent_of_clean_row e user id amount d u :
  users d !! tg_id user = None →
  truthy (is_banned u) = false →
  replied (bid e user id amount d)
  = replied (bid e user id amount (with_users (<[tg_id user := u]> (users d)) d)).
Proof.
  intros Hnone Hclean.
  assert (Hb1 : banned d (tg_id user) = false)
    by (unfold banned; by rewrite Hnone).
  assert (Hb2 : banned (with_users (<[tg_id user := u]> (users d)) d) (tg_id user)
                = false)
    by (unfold banned; simpl; by rewrite lookup_insert_eq).
  unfold bid, get_auction_state. rewrite Hb1, Hb2. simpl.
  case_bool_decide; [done|].
  destruct (truthy (bidding_open d)); simpl; [|done].
  destruct (fetch_approved id (items d)) as [it|]; [|done].
  repeat (case_bool_decide; [done|]).
  destruct (storage_fault e) as [s|] eqn:Hf.
  - by rewrite !(bid_unit_of_work_fault _ _ _ _ _ s Hf).
  - rewrite !(bid_unit_of_work_no_fault _ _ _ _ _ Hf).
    destruct (channel_ok e); [|done].
    by destruct (notify_previous_bidder _ _ _ _), (notify_seller _ _ _).
Qed.

(** C10.  A bidder with no row in [users] is not banned: the answer is
    never the ban refusal and is the one a bidder with a fresh, unbanned row
    would get; with a positive amount and bidding open the bid goes on to
    the item lookup, so a missing item is answered as such and a bid that
    meets the remaining checks is placed. *)
Theorem unknown_bidder_is_not_banned e user id amount d :
  users d !! tg_id user = None →
  let o := bid e user id amount d in
  banned d (tg_id user) = false
  ∧ replied o ≠ BidderBanned
  ∧ replied o
    = replied (bid e user id amount
                 (with_users (<[tg_id user := fresh_user_row user (now e)]> (users d)) d))
  ∧ (0 < amount → truthy (bidding_open d) = true →
     (fetch_approved id (items d) = None → o = answer ItemNotBiddable d)
     ∧ (∀ it, fetch_approved id (items d) = Some it →
          tg_id user ≠ user_id it →
          current_bid it + increment (current_bid it) ≤ amount →
          storage_fault e = None → channel_ok e = true →
          replied o = BidPlaced amount
          ∧ db_after o = committed_bid e user id amount d)).
Proof.
  intros Hnone o.
  assert (Hban : banned d (tg_id user) = false)
    by (unfold banned; by rewrite Hnone).
  split_and!; [done| | |].
  - subst o. destruct (bid_paths e user id amount d); simpl; try done.
    + congruence.
    + match goal with H : replied _ = _ |- _ => rewrite H end.
      by destruct (channel_ok e).
  - by apply replied_independent_of_clean_row.
  - intros Hpos Hopen. split.
    + intros Hn. by apply bid_no_item.
    + intros it Hit Hown Hge Hf Hc.
      destruct (bid_committed e user id amount d Hpos Hopen Hban it Hit Hown Hge Hf)
        as [Hdb Hr].
      subst o. by rewrite Hr, Hc.
Qed.

(** Bob never submitted anything, so he has no row; his bid of 27000 on
    Pikachu is placed. *)
Lemma unknown_bidder_is_not_banned_witness :
  Sample.shop.(users) !! 202 = None
  ∧ replied (bid Sample.calm Sample.bob "A0000" 27000 Sample.shop) = BidPlaced 27000.
Proof.
  split; [reflexivity|].
  destruct (unknown_bidder_is_not_banned Sample.calm Sample.bob "A0000" 27000
              Sample.shop) as (_ & _ & _ & Hgo); [reflexivity|].
  destruct Hgo as [_ Hplaced]; [lia|reflexivity|].
  apply (Hplaced Sample.pikachu); [reflexivity|by vm_compute|by vm_compute|reflexivity..].
Defined.

(** ** The unit of work of a bid *)

Lemma committed_bid_consistent e user id amount d :
  consistent d → consistent (committed_bid e user id amount d).
Proof.
  unfold consistent, committed_bid. simpl. intros [Hrec Hshown]. split.
  - unfold update_item. apply Forall_fmap, (Forall_impl _ _ _ Hrec).
    intros it Hit. simpl. unfold bid_recorded in *. case_bool_decide; simpl.
    + apply Exists_app. right. apply Exists_cons_hd. simpl. by subst.
    + destruct (highest_bid it); [|done]. apply Exists_app. by left.
  - assert (Hupd : ∀ b, bid_shown (items d) b ∨ b_item_id b = id →
        bid_shown
          (update_item id (set_highest amount (tg_id user) (tg_first_name user))
             (items d)) b).
    { intros b Hb. unfold bid_shown, update_item in *. apply Forall_fmap.
      apply Forall_forall. intros it Hin. simpl.
      case_bool_decide as Hid; simpl; [by eauto|].
      intros Heq. destruct Hb as [Hb|Hb]; [|congruence].
      rewrite Forall_forall in Hb. by apply Hb. }
    apply Forall_app. split.
    + apply (Forall_impl _ _ _ Hshown). intros b Hb. apply Hupd. by left.
    + apply Forall_singleton, Hupd. by right.
Qed.

(** ** Rows found by id *)

Lemma fetch_approved_Some id its it :
  fetch_approved id its = Some it →
  it ∈ its ∧ item_id it = id ∧ status it = "approved"%string.
Proof.
  induction its as [|x rest IH]; simpl; [done|].
  destruct (bool_decide (item_id x = id)) eqn:Hid;
    destruct (bool_decide (status x = "approved"%string)) eqn:Hst; simpl;
    try (intros H; destruct (IH H) as (? & ? & ?); split_and!;
         [by apply list_elem_of_further|done..]).
  intros [= ->]. apply bool_decide_eq_true_1 in Hid, Hst.
  split_and!; [by apply list_elem_of_here|done..].
Qed.

Lemma fetch_approved_fetch_item id its it :
  NoDup (item_id <$> its) →
  fetch_approved id its = Some it → fetch_item id its = Some it.
Proof.
  induction its as [|x rest IH]; simpl; [done|].
  rewrite NoDup_cons. intros [Hx Hnd].
  case_bool_decide as Hid; simpl.
  - case_bool_decide as Hst; [done|].
    intros H. apply fetch_approved_Some in H as (Hin & Hid' & _).
    exfalso. apply Hx. rewrite Hid, <- Hid'. by apply list_elem_of_fmap_2.
  - by apply IH.
Qed.

Section UpdateItem.
Context (f : item → item) (Hf : ∀ it, item_id (f it) = item_id it).

Lemma update_item_ids id its : item_id <$> update_item id f its = item_id <$> its.
Proof.
  unfold update_item. rewrite <- list_fmap_compose. apply list_fmap_ext.
  intros i it _. simpl. by case_bool_decide.
Qed.

Lemma fetch_item_update_same id its :
  fetch_item id (update_item id f its) = f <$> fetch_item id its.
Proof.
  induction its as [|x rest IH]; [done|].
  unfold update_item in *. rewrite fmap_cons. simpl.
  destruct (decide (item_id x = id)) as [Hid|Hid].
  - rewrite (bool_decide_eq_true_2 _ Hid). simpl.
    rewrite bool_decide_eq_true_2; [done|by rewrite Hf].
  - rewrite (bool_decide_eq_false_2 _ Hid). simpl.
    by rewrite (bool_decide_eq_false_2 _ Hid).
Qed.

Lemma fetch_item_update_other id id' its :
  id ≠ id' → fetch_item id (update_item id' f its) = fetch_item id its.
Proof.
  intros Hne. induction its as [|x rest IH]; [done|].
  unfold update_item in *. rewrite fmap_cons. simpl.
  destruct (decide (item_id x = id')) as [Hid|Hid].
  - rewrite (bool_decide_eq_true_2 _ Hid). simpl.
    rewrite !bool_decide_eq_false_2; [done|congruence|rewrite Hf; congruence].
  - rewrite (bool_decide_eq_false_2 _ Hid). by rewrite IH.
Qed.

End UpdateItem.

Lemma above_current_price it amount :
  0 < amount → above_base it →
  current_bid it + increment (current_bid it) ≤ amount →
  current_price it < amount ∧ base_price it < amount.
Proof.
  intros Hpos Hab Hge. pose proof (increment_pos (current_bid it)) as Hinc.
  unfold above_base, current_bid, current_price, truthy in *.
  destruct (highest_bid it) as [h|]; simpl in *; [|lia].
  specialize (Hab h eq_refl). case_bool_decide; simpl in *; lia.
Qed.

(** ** Highest bids only rise *)

Lemma committed_bid_changes e user id amount d : committed_bid e user id amount d ≠ d.
Proof.
  intros Heq. apply (f_equal (λ x, length (bids x))) in Heq.
  unfold committed_bid in Heq. simpl in Heq. rewrite length_app in Heq.
  simpl in Heq. lia.
Qed.

Lemma bid_step id e user id' amount d it :
  unique_ids d → fetch_item id (items d) = Some it → above_base it →
  let d' := db_after (bid e user id' amount d) in
  unique_ids d'
  ∧ (d' = d
     ∨ (d' ≠ d ∧ id' ≠ id ∧ fetch_item id (items d') = Some it)
     ∨ (d' ≠ d ∧ id' = id
        ∧ fetch_item id (items d')
          = Some (set_highest amount (tg_id user) (tg_first_name user) it)
        ∧ current_price it < amount ∧ base_price it < amount)).
Proof.
  intros Hnd Hit Hab d'.
  destruct (bid_changes_only_when_committed e user id' amount d)
    as [Heq|(Heq & Hpos & _ & it0 & Hit0 & _ & Hge)]; subst d'; rewrite Heq.
  { split; [done|by left]. }
  pose proof (committed_bid_changes e user id' amount d) as Hne.
  split.
  { unfold unique_ids, committed_bid. simpl. by rewrite update_item_ids. }
  right. destruct (decide (id' = id)) as [->|Hid].
  - right. apply fetch_approved_fetch_item in Hit0; [|done].
    assert (it0 = it) as -> by congruence.
    split_and!; [done..| |by apply above_current_price|by apply above_current_price].
    unfold committed_bid. simpl. rewrite fetch_item_update_same by done.
    by rewrite Hit.
  - left. split_and!; [done..|].
    unfold committed_bid. simpl. by rewrite fetch_item_update_other.
Qed.

(** C2.  Take any item and any run of bid commands (on this or other
    items, accepted or not, with or without failures of the world).  The
    values its [highest_bid] shows after the accepted bids on it form a
    strictly increasing sequence, each of them strictly above the price the
    item stood at before the run ([highest_bid] if there was one, else
    [base_price]) and strictly above [base_price]; the item ends the run
    with the last of them (or unchanged if none was accepted), with the
    same [base_price]. *)
Theorem highest_bid_strictly_increasing id cs d it :
  unique_ids d →
  fetch_item id (items d) = Some it →
  above_base it →
  ∃ amounts it',
    highest_bid_history id cs d = Some <$> amounts
    ∧ StronglySorted Z.lt amounts
    ∧ Forall (λ a, current_price it < a ∧ base_price it < a) amounts
    ∧ fetch_item id (items (run_bids cs d)) = Some it'
    ∧ base_price it' = base_price it
    ∧ highest_bid it' = default (highest_bid it) (last (Some <$> amounts))
    ∧ above_base it'.
Proof.
  revert d it. induction cs as [|c rest IH]; intros d it Hnd Hit Hab.
  { exists [], it. simpl. split_and!; try done. constructor. }
  simpl. unfold accepted_on, run_bid.
  destruct (bid_step id (bc_env c) (bc_user c) (bc_item c) (bc_amount c) d it
              Hnd Hit Hab) as [Hnd' Hstep].
  set (d' := db_after (bid (bc_env c) (bc_user c) (bc_item c) (bc_amount c) d)) in *.
  destruct Hstep as [Heq|[(Hne & Hid & Hit')|(Hne & Hid & Hit' & Hcur & Hbase)]].
  - rewrite (bool_decide_eq_false_2 (d' ≠ d)) by (intros H; by apply H).
    rewrite andb_false_r. rewrite Heq. by apply IH.
  - rewrite (bool_decide_eq_false_2 (bc_item c = id)) by done. simpl.
    by apply IH.
  - rewrite (bool_decide_eq_true_2 (bc_item c = id)) by done.
    rewrite (bool_decide_eq_true_2 (d' ≠ d)) by done. simpl.
    set (it1 := set_highest (bc_amount c) (tg_id (bc_user c))
                  (tg_first_name (bc_user c)) it) in *.
    assert (Hab1 : above_base it1) by (intros h [= <-]; exact Hbase).
    destruct (IH d' it1 Hnd' Hit' Hab1)
      as (amounts & it' & Hhist & Hsorted & Hall & Hfinal & Hbp & Hhb & Hab').
    exists (bc_amount c :: amounts), it'.
    assert (Hshown : shown_bid id d' = Some (bc_amount c))
      by (unfold shown_bid; by rewrite Hit').
    rewrite Hshown, Hhist.
    split_and!; try done.
    + constructor; [done|]. apply (Forall_impl _ _ _ Hall).
      intros a [Ha _]. exact Ha.
    + constructor; [done|]. apply (Forall_impl _ _ _ Hall).
      intros a [Ha1 Ha2]. change (current_price it1) with (bc_amount c) in Ha1.
      change (base_price it1) with (base_price it) in Ha2. lia.
    + rewrite Hhb. rewrite fmap_cons, last_cons.
      change (highest_bid it1) with (Some (bc_amount c)).
      by destruct (last (Some <$> amounts)).
Qed.

Lemma highest_bid_strictly_increasing_witness :
  highest_bid_history "A0000" Sample.calls Sample.shop = [Some 27000; Some 29000]
  ∧ shown_bid "A0000" (run_bids Sample.calls Sample.shop) = Some 29000
  ∧ ∃ amounts it',
      highest_bid_history "A0000" Sample.calls Sample.shop = Some <$> amounts
      ∧ StronglySorted Z.lt amounts
      ∧ Forall (λ a, current_price Sample.pikachu < a
                     ∧ base_price Sample.pikachu < a) amounts
      ∧ fetch_item "A0000" (items (run_bids Sample.calls Sample.shop)) = Some it'
      ∧ base_price it' = base_price Sample.pikachu
      ∧ highest_bid it'
        = default (highest_bid Sample.pikachu) (last (Some <$> amounts))
      ∧ above_base it'.
Proof.
  split; [reflexivity|]. split; [reflexivity|].
  apply (highest_bid_strictly_increasing "A0000" Sample.calls Sample.shop
           Sample.pikachu).
  - apply (bool_decide_unpack _). by vm_compute.
  - reflexivity.
  - intros h. discriminate.
Defined.

(** ** Cleanup *)

Lemma cleanup_statuses_spec s :
  s ∉ cleanup_statuses
  ↔ s ≠ "sold"%string ∧ s ≠ "ended"%string ∧ s ≠ "rejected"%string
    ∧ s ≠ "cancelled"%string.
Proof.
  unfold cleanup_statuses. rewrite !not_elem_of_cons. split.
  - intros (? & ? & ? & ? & _). done.
  - intros (? & ? & ? & ?). split_and!; try done. apply not_elem_of_nil.
Qed.

(** C7.  A confirmed cleanup deletes every item whose status is sold,
    ended, rejected or cancelled and keeps, in their order and unchanged,
    exactly the other items; it deletes every bid row whose item id is not
    the id of a kept item and keeps, in their order and unchanged, exactly
    the other bid rows.  So every pending or approved item stays with all
    bid rows that name it.  Users and the phase flags are not touched, and
    any other callback data changes nothing. *)
Theorem cleanup_deletes_exactly d :
  let d' := endo_callback "confirm_endo" d in
  let deleted (it : item) :=
    status it = "sold"%string ∨ status it = "ended"%string
    ∨ status it = "rejected"%string ∨ status it = "cancelled"%string in
  items d' = filter (λ it, ¬ deleted it) (items d)
  ∧ bids d' = filter (λ b, b_item_id b ∈ item_id <$> items d') (bids d)
  ∧ (∀ it, it ∈ items d' ↔ it ∈ items d ∧ ¬ deleted it)
  ∧ (∀ it, it ∈ items d → deleted it → it ∉ items d')
  ∧ (∀ b, b ∈ bids d' ↔
          b ∈ bids d ∧ ∃ it, it ∈ items d' ∧ item_id it = b_item_id b)
  ∧ (∀ b, b ∈ bids d → (∀ it, it ∈ items d → item_id it = b_item_id b → deleted it) →
          b ∉ bids d')
  ∧ items d' `sublist_of` items d
  ∧ bids d' `sublist_of` bids d
  ∧ (∀ it, it ∈ items d →
       status it = "pending"%string ∨ status it = "approved"%string →
       it ∈ items d' ∧ ∀ b, b ∈ bids d → b_item_id b = item_id it → b ∈ bids d')
  ∧ users d' = users d
  ∧ submissions_open d' = submissions_open d
  ∧ bidding_open d' = bidding_open d
  ∧ (∀ data, data ≠ "confirm_endo"%string → endo_callback data d = d).
Proof.
  intros d' deleted.
  assert (Hdel : ∀ it, status it ∉ cleanup_statuses ↔ ¬ deleted it).
  { intros it. rewrite cleanup_statuses_spec. subst deleted. simpl. tauto. }
  assert (Hkept : items d' = filter (λ it, ¬ deleted it) (items d)).
  { subst d'. unfold endo_callback. simpl. apply list_filter_iff. intros it. apply Hdel. }
  assert (Hlive : bids d' = filter (λ b, b_item_id b ∈ item_id <$> items d') (bids d)).
  { rewrite Hkept. subst d'. unfold endo_callback. simpl.
    erewrite (list_filter_iff (λ it, status it ∉ cleanup_statuses)); [done|].
    intros it. apply Hdel. }
  assert (Hitems : ∀ it, it ∈ items d' ↔ it ∈ items d ∧ ¬ deleted it).
  { intros it. rewrite Hkept, list_elem_of_filter. tauto. }
  assert (Hbids : ∀ b, b ∈ bids d' ↔
            b ∈ bids d ∧ ∃ it, it ∈ items d' ∧ item_id it = b_item_id b).
  { intros b. rewrite Hlive, list_elem_of_filter, list_elem_of_fmap. split.
    - intros [(it & Hid & Hin) Hb]. eauto.
    - intros [Hb (it & Hin & Hid)]. eauto. }
  split_and!; try done.
  - intros it _ Hgone Hin. apply Hitems in Hin as [_ Hkeep]. by apply Hkeep.
  - intros b _ Hall Hb. apply Hbids in Hb as [_ (it & Hin & Hid)].
    apply Hitems in Hin as [Hin Hkeep]. apply Hkeep. by apply Hall.
  - rewrite Hkept. apply sublist_filter.
  - rewrite Hlive. apply sublist_filter.
  - intros it Hin Hst.
    assert (Hkeep : ¬ deleted it).
    { subst deleted. simpl. intros Hgone.
      destruct Hst as [Hst|Hst]; rewrite Hst in Hgone;
        by destruct Hgone as [?|[?|[?|?]]]. }
    split; [by apply Hitems|].
    intros b Hb Hid. apply Hbids. split; [done|]. exists it. by rewrite Hitems.
  - intros data Hdata. unfold endo_callback. by rewrite bool_decide_eq_false_2.
Qed.

(** The cleanup of the sample auction: Onix (sold) and Rattata (rejected)
    are gone, and so is the bid on Onix; Pikachu and Mew (approved) and
    Eevee (pending) stay, with the bid on Mew. *)
Lemma cleanup_deletes_exactly_witness :
  (Sample.onix ∉ items (endo_callback "confirm_endo" Sample.shop))
  ∧ (Sample.rattata ∉ items (endo_callback "confirm_endo" Sample.shop))
  ∧ (Sample.bid_of Sample.bob "F0099" 3000
     ∉ bids (endo_callback "confirm_endo" Sample.shop))
  ∧ Sample.mew ∈ items (endo_callback "confirm_endo" Sample.shop)
  ∧ Sample.eevee ∈ items (endo_callback "confirm_endo" Sample.shop)
  ∧ Sample.bid_of Sample.bob "B1234" 65000
    ∈ bids (endo_callback "confirm_endo" Sample.shop).
Proof.
  destruct (cleanup_deletes_exactly Sample.shop)
    as (_ & _ & _ & Hgone & _ & Horphan & _ & _ & Hstay & _).
  assert (Hmew : Sample.mew ∈ items Sample.shop)
    by (apply (bool_decide_unpack _); by vm_compute).
  assert (Heevee : Sample.eevee ∈ items Sample.shop)
    by (apply (bool_decide_unpack _); by vm_compute).
  split_and!.
  - apply Hgone; [apply (bool_decide_unpack _); by vm_compute|by left].
  - apply Hgone; [apply (bool_decide_unpack _); by vm_compute|].
    right. right. by left.
  - apply Horphan; [apply (bool_decide_unpack _); by vm_compute|].
    intros it Hin Hid. left.
    assert (Hcases : Forall (λ x, item_id x = "F0099"%string → status x = "sold"%string)
                       (items Sample.shop))
      by (apply (bool_decide_unpack _); by vm_compute).
    rewrite Forall_forall in Hcases. by apply Hcases.
  - apply (Hstay Sample.mew Hmew). by right.
  - apply (Hstay Sample.eevee Heevee). by left.
  - apply (Hstay Sample.mew Hmew); [by right| |reflexivity].
    apply (bool_decide_unpack _). by vm_compute.
Defined.

(** On the sample auction the cleanup removes Onix (sold) with its bid and
    Rattata (rejected), and keeps the rest. *)
Example cleanup_sample :
  item_id <$> items (endo_callback "confirm_endo" Sample.shop)
    = ["A0000"; "B1234"; "D4321"]%string
  ∧ bids (endo_callback "confirm_endo" Sample.shop)
    = [Sample.bid_of Sample.bob "B1234" 65000].
Proof. split; reflexivity. Qed.

(** ** Item ids *)

Lemma choice_elem seq raw : seq ≠ [] → choice seq raw ∈ seq.
Proof.
  intros Hne. unfold choice. apply list_elem_of_In, nth_In.
  apply Nat.mod_upper_bound. by destruct seq.
Qed.

Lemma generate_item_id_format r : letter_and_four_digits (generate_item_id r).
Proof.
  unfold letter_and_four_digits, generate_item_id.
  eexists _, _, _, _, _. split; [reflexivity|]. split.
  - by apply choice_elem.
  - repeat (apply Forall_cons; split; [by apply choice_elem|]). apply Forall_nil_2.
Qed.

Lemma sqlite_integer_spec z : sqlite_integer z = true ↔ - 2 ^ 63 ≤ z < 2 ^ 63.
Proof. unfold sqlite_integer. by rewrite bool_decide_eq_true. Qed.

Lemma complete_submission_overflow e r user dr d :
  ¬ (- 2 ^ 63 ≤ d_base_price dr < 2 ^ 63) →
  complete_submission e r user dr d = (Raised "OverflowError", d).
Proof.
  intros Hbig. unfold complete_submission.
  destruct (sqlite_integer (d_base_price dr)) eqn:Hfit; [|done].
  by apply sqlite_integer_spec in Hfit.
Qed.

Lemma complete_submission_fits e r user dr d :
  - 2 ^ 63 ≤ d_base_price dr < 2 ^ 63 →
  complete_submission e r user dr d
  = if bool_decide (generate_item_id r ∈ item_id <$> items d) then
      (Raised "sqlite3.IntegrityError", d)
    else
      let d' := with_items (items d ++ [new_item (generate_item_id r) user dr])
                  (with_users
                     (alter (touch_submitter user (now e)) (tg_id user)
                        (insert_or_ignore (tg_id user) (fresh_user_row user (now e))
                           (users d))) d) in
      if negb (reachable e ADMIN_APPROVAL_GROUP_CHAT_ID) then
        (Raised "telegram.error.TelegramError", d')
      else if negb (reachable e (tg_id user)) then
        (Raised "telegram.error.TelegramError", d')
      else (Submitted (generate_item_id r), d').
Proof.
  intros Hfit. unfold complete_submission.
  by rewrite (proj2 (sqlite_integer_spec _) Hfit).
Qed.

(** C6 (as amended).  The id of a submission is one uppercase letter
    followed by four digits, drawn at random without looking at the items
    that exist.  The primary key of [items] settles a collision: when the
    drawn id is that of an item still in the table, the insertion raises,
    no other id is drawn, no item is created and the database stays as it
    was.  A base price that does not fit a 64-bit INTEGER column makes the
    insertion raise as well, with the same effect.  Otherwise the new item
    is appended as pending under the drawn id, with the sender as owner and
    the price of the draft.  In every case the ids in [items] stay pairwise
    different and whatever row is new carries an id that was not in the
    table before. *)
Theorem complete_submission_id e r user dr d :
  unique_ids d →
  let id := generate_item_id r in
  let res := complete_submission e r user dr d in
  let fits := - 2 ^ 63 ≤ d_base_price dr < 2 ^ 63 in
  letter_and_four_digits id
  ∧ (id ∈ item_id <$> items d →
     res.2 = d ∧ (∀ id', res.1 ≠ Submitted id')
     ∧ (fits → res = (Raised "sqlite3.IntegrityError", d)))
  ∧ (¬ fits → res = (Raised "OverflowError", d))
  ∧ (id ∉ item_id <$> items d → fits →
     (∃ it, items res.2 = items d ++ [it]
            ∧ item_id it = id ∧ status it = "pending"%string
            ∧ user_id it = tg_id user ∧ base_price it = d_base_price dr
            ∧ highest_bid it = None ∧ highest_bidder_id it = None)
     ∧ (reachable e ADMIN_APPROVAL_GROUP_CHAT_ID = true →
        reachable e (tg_id user) = true → res.1 = Submitted id))
  ∧ (∀ id', res.1 = Submitted id' → id' = id ∧ id' ∉ item_id <$> items d)
  ∧ (∀ it, it ∈ items res.2 →
       it ∈ items d ∨ (item_id it = id ∧ id ∉ item_id <$> items d))
  ∧ unique_ids res.2.
Proof.
  intros Hnd id res fits. subst res fits.
  split; [apply generate_item_id_format|].
  destruct (decide (- 2 ^ 63 ≤ d_base_price dr < 2 ^ 63)) as [Hfit|Hbig].
  2:{ rewrite (complete_submission_overflow _ _ _ _ _ Hbig). simpl.
      split_and!.
      - intros _. split_and!; [done|done|by intros ?].
      - done.
      - by intros _ ?.
      - by intros id' [=].
      - intros it Hit. by left.
      - done. }
  rewrite (complete_submission_fits _ _ _ _ _ Hfit). fold id.
  case_bool_decide as Hin; simpl.
  - split_and!; try done.
    intros it Hit. by left.
  - assert (Hitems : ∀ x, unique_ids (with_items (items d ++ [new_item id user dr]) x)).
    { intros x. unfold unique_ids. simpl. rewrite fmap_app. simpl.
      apply NoDup_app. split_and!; [done| |apply NoDup_singleton].
      intros y Hy Hy'. apply list_elem_of_singleton in Hy'. by subst. }
    split_and!; try done.
    + intros _ _. split.
      * exists (new_item id user dr).
        by destruct (reachable e ADMIN_APPROVAL_GROUP_CHAT_ID),
                    (reachable e (tg_id user)).
      * by intros -> ->.
    + intros id'.
      destruct (reachable e ADMIN_APPROVAL_GROUP_CHAT_ID),
               (reachable e (tg_id user)); simpl; intros [=]; by subst.
    + intros it.
      destruct (reachable e ADMIN_APPROVAL_GROUP_CHAT_ID),
               (reachable e (tg_id user)); simpl; intros Hit;
        (apply elem_of_app in Hit as [Hit|Hit]; [by left|];
         apply list_elem_of_singleton in Hit as ->; by right).
    + destruct (reachable e ADMIN_APPROVAL_GROUP_CHAT_ID),
               (reachable e (tg_id user)); simpl; apply Hitems.
Qed.

(** Carol submits a Pokemon and the generator draws an id that is free. *)
Lemma complete_submission_id_witness :
  (complete_submission Sample.calm (λ k, (7 * k + 3)%nat) Sample.carol
     Sample.gengar_draft Sample.shop).1 = Submitted "D0741"
  ∧ unique_ids
      (complete_submission Sample.calm (λ k, (7 * k + 3)%nat) Sample.carol
         Sample.gengar_draft Sample.shop).2.
Proof.
  assert (Hnd : unique_ids Sample.shop)
    by (apply (bool_decide_unpack _); by vm_compute).
  destruct (complete_submission_id Sample.calm (λ k, (7 * k + 3)%nat) Sample.carol
              Sample.gengar_draft Sample.shop Hnd) as (_ & _ & _ & Hfree & _ & _ & Hu).
  split; [|exact Hu].
  destruct Hfree as (_ & Hsub).
  - apply (bool_decide_unpack _). by vm_compute.
  - by vm_compute.
  - by apply Hsub.
Defined.

(** C6, the counterexample.  The generator draws A0000, the id of Pikachu.
    No second id is drawn: the submission ends in the integrity error and
    Carol's item is not created. *)
Lemma colliding_id_is_not_regenerated :
  generate_item_id (λ _, 0%nat) = "A0000"%string
  ∧ "A0000"%string ∈ item_id <$> items Sample.shop
  ∧ complete_submission Sample.calm (λ _, 0%nat) Sample.carol
      Sample.gengar_draft Sample.shop
    = (Raised "sqlite3.IntegrityError", Sample.shop)
  ∧ ∀ id, (complete_submission Sample.calm (λ _, 0%nat) Sample.carol
             Sample.gengar_draft Sample.shop).1 ≠ Submitted id.
Proof.
  split_and!; [reflexivity| |reflexivity|by intros id].
  apply (bool_decide_unpack _). by vm_compute.
Qed.

(** A price of 2^63 passes the price step and is refused by the table. *)
Example price_too_large_for_sqlite :
  complete_submission Sample.calm (λ k, (7 * k + 3)%nat) Sample.carol
    {| d_item_type := "pokemon"; d_name := "Gengar"; d_tm_name := EmptyString;
       d_base_price := 9223372036854775808 |} Sample.shop
  = (Raised "OverflowError", Sample.shop).
Proof. reflexivity. Qed.

(** ** Closing the bidding *)

Lemma sold_fold its rows :
  foldl (λ acc r, update_item (item_id r) (set_status "sold") acc) its rows
  = (λ it, if bool_decide (item_id it ∈ item_id <$> rows)
           then set_status "sold" it else it) <$> its.
Proof.
  revert its. induction rows as [|r rest IH]; intros its.
  - rewrite <- (list_fmap_id its) at 1. apply list_fmap_ext.
    intros i it _. rewrite bool_decide_eq_false_2; [done|].
    rewrite fmap_nil. apply not_elem_of_nil.
  - rewrite fmap_cons. cbn [foldl]. rewrite IH. unfold update_item.
    rewrite <- list_fmap_compose.
    apply list_fmap_ext. intros i it _. cbn [compose].
    destruct (decide (item_id it = item_id r)) as [Hr|Hr].
    + rewrite (bool_decide_eq_true_2 _ Hr).
      rewrite (bool_decide_eq_true_2 (item_id it ∈ item_id r :: _))
        by (rewrite Hr; apply list_elem_of_here).
      cbn [item_id set_status]. by case_bool_decide.
    + rewrite (bool_decide_eq_false_2 _ Hr).
      destruct (decide (item_id it ∈ item_id <$> rest)) as [Hin|Hin].
      * rewrite (bool_decide_eq_true_2 _ Hin).
        by rewrite bool_decide_eq_true_2 by by apply list_elem_of_further.
      * rewrite (bool_decide_eq_false_2 _ Hin).
        rewrite bool_decide_eq_false_2; [done|].
        rewrite elem_of_cons. tauto.
Qed.

Lemma bido_loop_db e rows acc :
  c_db (bido_loop e rows acc)
  = with_items
      (foldl (λ its r, update_item (item_id r) (set_status "sold") its)
         (items (c_db acc)) (named_prefix rows))
      (c_db acc).
Proof.
  revert acc. induction rows as [|r rest IH]; intros acc; simpl.
  - by destruct (c_db acc).
  - destruct (truthy_str (name r)); simpl.
    + destruct (notify_sold e r) as [s l]. by rewrite IH.
    + by destruct (c_db acc).
Qed.

Lemma bido_loop_raised e rows acc :
  c_raised acc = None →
  c_raised (bido_loop e rows acc)
  = if bool_decide (named_prefix rows = rows) then None else Some "IndexError"%string.
Proof.
  revert acc. induction rows as [|r rest IH]; intros acc Hacc;
    cbn [bido_loop named_prefix].
  { by rewrite bool_decide_eq_true_2. }
  destruct (truthy_str (name r)).
  - destruct (notify_sold e r) as [s l]. rewrite IH by done.
    destruct (decide (named_prefix rest = rest)) as [Heq|Hne].
    + rewrite bool_decide_eq_true_2 by done.
      by rewrite bool_decide_eq_true_2 by by rewrite Heq.
    + rewrite bool_decide_eq_false_2 by done.
      rewrite bool_decide_eq_false_2; [done|]. by intros [=].
  - by rewrite bool_decide_eq_false_2.
Qed.

Lemma bido_db e d : c_db (bido e d) = c_db (bido_loop e (bido_rows (items d))
  {| c_db := with_phase (submissions_open d) 0 d; c_sent := []; c_log := [];
     c_raised := None |}).
Proof.
  unfold bido. simpl.
  destruct (c_raised (bido_loop _ _ _)); [done|]. by destruct (channel_ok e).
Qed.

(** What [bido] leaves in [items]: the rows whose id is that of a row the
    loop got through are sold, the others are as before. *)
Lemma bido_items e d :
  items (c_db (bido e d))
  = (λ it, if bool_decide
               (item_id it ∈ item_id <$> named_prefix (bido_rows (items d)))
           then set_status "sold" it else it) <$> items d.
Proof. rewrite bido_db, bido_loop_db. simpl. apply sold_fold. Qed.

Lemma bido_frame e d :
  users (c_db (bido e d)) = users d
  ∧ bids (c_db (bido e d)) = bids d
  ∧ submissions_open (c_db (bido e d)) = submissions_open d
  ∧ bidding_open (c_db (bido e d)) = 0.
Proof. rewrite bido_db, bido_loop_db. by simpl. Qed.


Lemma named_prefix_all rows :
  Forall (λ it, truthy_str (name it) = true) rows → named_prefix rows = rows.
Proof.
  induction 1 as [|r rest Hr _ IH]; simpl; [done|]. by rewrite Hr, IH.
Qed.

Lemma named_prefix_sublist rows : named_prefix rows `sublist_of` rows.
Proof.
  induction rows as [|r rest IH]; simpl; [done|].
  destruct (truthy_str (name r)); [by apply sublist_skip|apply sublist_nil_l].
Qed.

(** When every row with a bid has a [name], all of them are sold, whatever
    messages fail. *)
Lemma bido_all_named_sold e d it :
  Forall (λ r, truthy_str (name r) = true) (bido_rows (items d)) →
  it ∈ items d → status it = "approved"%string → is_Some (highest_bidder_id it) →
  set_status "sold" it ∈ items (c_db (bido e d)).
Proof.
  intros Hnamed Hin Hst Hbid. rewrite bido_items, (named_prefix_all _ Hnamed).
  apply list_elem_of_fmap. exists it. split; [|done].
  rewrite bool_decide_eq_true_2; [done|].
  apply list_elem_of_fmap_2. unfold bido_rows. by apply list_elem_of_filter.
Qed.

Lemma unique_ids_inj d x y :
  unique_ids d → x ∈ items d → y ∈ items d → item_id x = item_id y → x = y.
Proof.
  unfold unique_ids. induction (items d) as [|z rest IH]; simpl.
  { intros _ Hx. by apply elem_of_nil in Hx. }
  rewrite NoDup_cons. intros [Hz Hnd] Hx Hy Hid.
  apply elem_of_cons in Hx as [->|Hx], Hy as [->|Hy]; try done.
  - exfalso. apply Hz. rewrite Hid. by apply list_elem_of_fmap_2.
  - exfalso. apply Hz. rewrite <- Hid. by apply list_elem_of_fmap_2.
  - by apply IH.
Qed.




(** ** A whole round *)

(** Submission, approval, two minimal bids, closing and cleanup, run on the
    embedding: base price 10000, bids of 11000 and 12000, the item is sold
    at 12000 and then cleaned away with its bids.  The approval is committed
    although the handler then fails on the photo message of the admins. *)
Example round_trip :
  (complete_submission Sample.calm (λ _, 0%nat) Sample.alice Sample.abra_draft
     Sample.opening).1 = Submitted "A0000"
  ∧ status <$> fetch_item "A0000" (items Sample.submitted) = Some "pending"%string
  ∧ (admin_approval_callback Sample.calm 5816482345 "approve" "A0000" None
       (Some 20) Sample.submitted).1 = DecisionRaised "TypeError"
  ∧ status <$> fetch_item "A0000" (items Sample.listed) = Some "approved"%string
  ∧ (admin_approval_callback Sample.calm 5816482345 "reject" "A0000" None None
       Sample.listed).1 = AlreadyDecided "approved"
  ∧ (admin_approval_callback Sample.calm 202 "approve" "A0000" None None
       Sample.submitted).1 = AdminsOnly
  ∧ replied (bid Sample.calm Sample.bob "A0000" 10500 Sample.listed)
    = BidTooLow 1000 11000
  ∧ replied (bid Sample.calm Sample.bob "A0000" 11000 Sample.listed)
    = BidPlaced 11000
  ∧ sent (bid Sample.calm Sample.carol "A0000" 12000 Sample.after_bob)
    = [ChannelEdit (Some 21) "A0000" 12000 303; Outbid 202 "A0000" 12000;
       NewBid 101 "A0000" 12000]
  ∧ b_amount <$> bids Sample.after_carol = [11000; 12000]
  ∧ c_sent (bido Sample.calm Sample.after_carol)
    = [Sold 101 "A0000" 12000; BiddingClosedNotice]
  ∧ (λ it, (status it, highest_bid it))
      <$> items (c_db (bido Sample.calm Sample.after_carol))
    = [("sold"%string, Some 12000)]
  ∧ replied (bid Sample.calm Sample.bob "A0000" 13000
               (c_db (bido Sample.calm Sample.after_carol)))
    = BiddingClosed
  ∧ items (endo_callback "confirm_endo"
             (c_db (bido Sample.calm Sample.after_carol))) = []
  ∧ bids (endo_callback "confirm_endo"
            (c_db (bido Sample.calm Sample.after_carol))) = [].
Proof. by split_and!. Qed.

(** With the bidding closed, even banned Dave is told that it is closed:
    the phase check comes first. *)
Example closed_before_banned :
  bid Sample.calm Sample.dave "B1234" 70000 Sample.closed_shop
  = answer BiddingClosed Sample.closed_shop.
Proof. reflexivity. Qed.

(** * Properties of the rest of the bot *)

(** ** Escaping *)

Lemma escape_head_not_special text c rest :
  escape_markdown_v2 text = String c rest → c ∉ escape_chars.
Proof.
  destruct text as [|char text']; simpl; [done|].
  case_bool_decide as Hspecial.
  - intros [= <- _]. apply (bool_decide_unpack _). by vm_compute.
  - by intros [= <- _].
Qed.

Lemma unescape_cons c c' rest :
  unescape (String c (String c' rest))
  = if bool_decide (c = backslash) && bool_decide (c' ∈ escape_chars)
    then String c' (unescape rest)
    else String c (unescape (String c' rest)).
Proof. reflexivity. Qed.

Lemma unescape_escape text : unescape (escape_markdown_v2 text) = text.
Proof.
  induction text as [|char rest IH]; [done|].
  cbn [escape_markdown_v2]. case_bool_decide as Hspecial.
  - rewrite unescape_cons.
    rewrite (bool_decide_eq_true_2 (backslash = backslash)) by done.
    rewrite (bool_decide_eq_true_2 _ Hspecial). cbn [andb]. by rewrite IH.
  - destruct (escape_markdown_v2 rest) as [|c' rest'] eqn:Hrest.
    + cbn [unescape]. cbn [unescape] in IH. by rewrite <- IH.
    + pose proof (escape_head_not_special _ _ _ Hrest) as Hc'.
      rewrite unescape_cons.
      rewrite (bool_decide_eq_false_2 (c' ∈ escape_chars)) by done.
      rewrite andb_false_r. by rewrite IH.
Qed.

(** X1.  An escaped text can be read back: dropping the backslashes that
    stand in front of the escaped characters gives the original text, so two
    different texts never have the same escaped form. *)
Theorem escape_markdown_v2_injective text1 text2 :
  unescape (escape_markdown_v2 text1) = text1
  ∧ (escape_markdown_v2 text1 = escape_markdown_v2 text2 → text1 = text2).
Proof.
  split; [apply unescape_escape|].
  intros Heq. rewrite <- (unescape_escape text1), <- (unescape_escape text2).
  by rewrite Heq.
Qed.

Lemma escape_markdown_v2_append a b :
  escape_markdown_v2 (a +:+ b) = escape_markdown_v2 a +:+ escape_markdown_v2 b.
Proof.
  induction a as [|c a IH]; [done|].
  change (String c a +:+ b) with (String c (a +:+ b)).
  cbn [escape_markdown_v2]. rewrite IH. by case_bool_decide.
Qed.

(** X2.  Escaping works piece by piece, leaves a text without any of the
    escaped characters as it is, and at most doubles the length. *)
Theorem escape_markdown_v2_pieces a b :
  escape_markdown_v2 (a +:+ b) = escape_markdown_v2 a +:+ escape_markdown_v2 b
  ∧ (Forall (λ c, c ∉ escape_chars) (list_ascii_of_string a) →
     escape_markdown_v2 a = a)
  ∧ (String.length a ≤ String.length (escape_markdown_v2 a) ≤ 2 * String.length a)%nat.
Proof.
  split; [apply escape_markdown_v2_append|]. split.
  - induction a as [|c a IH]; [done|].
    cbn [list_ascii_of_string escape_markdown_v2]. rewrite Forall_cons.
    intros [Hc Ha]. rewrite bool_decide_eq_false_2 by done. by rewrite IH.
  - induction a as [|c a IH]; [simpl; lia|].
    cbn [escape_markdown_v2]. case_bool_decide; cbn [String.length]; lia.
Qed.

(** ** Callback data *)

Lemma split_clean sep s :
  Forall (λ c, c ≠ sep) (list_ascii_of_string s) → split sep s = [s].
Proof.
  induction s as [|c s IH]; [done|].
  cbn [list_ascii_of_string split]. rewrite Forall_cons. intros [Hc Hs].
  rewrite bool_decide_eq_false_2 by done. by rewrite IH.
Qed.

Lemma split_piece sep piece rest :
  Forall (λ c, c ≠ sep) (list_ascii_of_string piece) →
  split sep (piece +:+ String sep rest) = piece :: split sep rest.
Proof.
  induction piece as [|c piece IH].
  - intros _. change (EmptyString +:+ String sep rest) with (String sep rest).
    cbn [split]. by rewrite bool_decide_eq_true_2.
  - change (String c piece +:+ String sep rest)
      with (String c (piece +:+ String sep rest)).
    cbn [list_ascii_of_string split]. rewrite Forall_cons.
    intros [Hc Hp]. rewrite bool_decide_eq_false_2 by done. by rewrite IH.
Qed.

Lemma generate_item_id_clean r :
  Forall (λ c, c ≠ underscore) (list_ascii_of_string (generate_item_id r)).
Proof.
  destruct (generate_item_id_format r) as (c & d1 & d2 & d3 & d4 & -> & Hc & Hd).
  assert (Hup : ∀ x, x ∈ ascii_uppercase → x ≠ underscore).
  { intros x Hx ->. revert Hx. apply (bool_decide_unpack _). by vm_compute. }
  assert (Hdg : ∀ x, x ∈ digits → x ≠ underscore).
  { intros x Hx ->. revert Hx. apply (bool_decide_unpack _). by vm_compute. }
  cbn [list_ascii_of_string].
  apply Forall_cons. split; [by apply Hup|].
  apply (Forall_impl _ _ _ Hd). intros x Hx. by apply Hdg.
Qed.

Lemma button_data id :
  Forall (λ c, c ≠ underscore) (list_ascii_of_string id) →
  approval_data (approve_button id) = Some ("approve"%string, id)
  ∧ approval_data (reject_button id) = Some ("reject"%string, id)
  ∧ bid_prompt_data (bid_prompt_button id) = Some id
  ∧ refresh_data (refresh_button id) = Some id.
Proof.
  intros Hid.
  assert (Hw : ∀ w, Forall (λ c, c ≠ underscore) (list_ascii_of_string w) →
                    split underscore (w +:+ String underscore id) = [w; id]).
  { intros w Hw. rewrite split_piece by done. by rewrite split_clean. }
  unfold approval_data, bid_prompt_data, refresh_data,
    approve_button, reject_button, bid_prompt_button, refresh_button.
  split_and!.
  - change ("approve_" +:+ id) with ("approve" +:+ String underscore id).
    rewrite Hw; [done|]. apply (bool_decide_unpack _). by vm_compute.
  - change ("reject_" +:+ id) with ("reject" +:+ String underscore id).
    rewrite Hw; [done|]. apply (bool_decide_unpack _). by vm_compute.
  - change ("bid_prompt_" +:+ id)
      with ("bid" +:+ String underscore ("prompt" +:+ String underscore id)).
    rewrite split_piece by (apply (bool_decide_unpack _); by vm_compute).
    rewrite Hw; [done|]. apply (bool_decide_unpack _). by vm_compute.
  - change ("refresh_" +:+ id) with ("refresh" +:+ String underscore id).
    rewrite Hw; [done|]. apply (bool_decide_unpack _). by vm_compute.
Qed.

(** X3.  The callback data of the four buttons decode to the item id they
    were built from, for every id the generator can produce: the approval
    callback unpacks exactly an action and the id, and the bid prompt and
    the refresh button find the id at the index they read. *)
Theorem callback_data_round_trip r :
  let id := generate_item_id r in
  approval_data (approve_button id) = Some ("approve"%string, id)
  ∧ approval_data (reject_button id) = Some ("reject"%string, id)
  ∧ bid_prompt_data (bid_prompt_button id) = Some id
  ∧ refresh_data (refresh_button id) = Some id.
Proof. apply button_data, generate_item_id_clean. Qed.

(** ** Long messages *)

Lemma slices_join {A} (text : list A) (m q : nat) :
  mjoin ((λ i, take m (drop i text)) <$> ((λ k, k * m)%nat <$> seq 0 q))
  = take (q * m) text.
Proof.
  induction q as [|q IH]; [done|].
  rewrite seq_S, !fmap_app, join_app, IH. simpl. rewrite app_nil_r.
  rewrite take_take_drop. f_equal. lia.
Qed.

Lemma range_step_covers n step :
  (0 < step)%nat → (n ≤ (n + step - 1) / step * step)%nat.
Proof.
  intros Hstep.
  pose proof (Nat.div_mod_eq (n + step - 1) step) as Hdm.
  pose proof (Nat.mod_upper_bound (n + step - 1) step) as Hlt. nia.
Qed.

Lemma range_step_below n step i :
  (0 < step)%nat → i ∈ range_step n step → (i < n)%nat.
Proof.
  intros Hstep Hi. unfold range_step in Hi.
  apply list_elem_of_fmap in Hi as (k & -> & Hk).
  apply elem_of_seq in Hk.
  pose proof (Nat.div_mod_eq (n + step - 1) step) as Hdm.
  pose proof (Nat.mod_upper_bound (n + step - 1) step) as Hlt. nia.
Qed.

(** X4.  The chunks of a broadcast, put together again, are the message;
    no chunk is empty or longer than 4000 characters, and there are as many
    chunks as 4000 goes into the length, rounded up. *)
Theorem message_chunks_join {A} (message_text : list A) :
  mjoin (message_chunks message_text) = message_text
  ∧ Forall (λ chunk, (0 < length chunk ≤ max_length)%nat)
      (message_chunks message_text)
  ∧ length (message_chunks message_text)
    = ((length message_text + max_length - 1) / max_length)%nat.
Proof.
  assert (Hpos : (0 < max_length)%nat) by (unfold max_length; lia).
  split_and!.
  - unfold message_chunks, range_step. rewrite slices_join.
    apply take_ge. by apply range_step_covers.
  - unfold message_chunks. apply Forall_fmap, Forall_forall.
    intros i Hi. apply (range_step_below _ _ _ Hpos) in Hi. simpl.
    rewrite length_take, length_drop. lia.
  - unfold message_chunks, range_step. by rewrite !length_fmap, length_seq.
Qed.

Lemma alist_pack_join {A} (lines : list (list A)) current messages :
  mjoin (alist_pack lines current messages)
  = mjoin messages ++ current ++ mjoin lines.
Proof.
  revert current messages.
  induction lines as [|line rest IH]; intros current messages; simpl.
  - destruct current; simpl; [by rewrite app_nil_r|].
    rewrite join_app. simpl. by rewrite !app_nil_r.
  - case_bool_decide; rewrite IH.
    + rewrite join_app. simpl. by rewrite app_nil_r, <- !app_assoc.
    + by rewrite <- !app_assoc.
Qed.

Lemma alist_pack_sizes {A} (lines : list (list A)) current messages :
  Forall (λ line, (0 < length line ≤ 4000)%nat) lines →
  (0 < length current ≤ 4000)%nat →
  Forall (λ msg, (0 < length msg ≤ 4000)%nat) messages →
  Forall (λ msg, (0 < length msg ≤ 4000)%nat) (alist_pack lines current messages).
Proof.
  revert current messages.
  induction lines as [|line rest IH]; intros current messages Hlines Hcur Hmsgs;
    simpl.
  - destruct current; [done|]. apply Forall_app. split; [done|].
    by apply Forall_singleton.
  - apply Forall_cons in Hlines as [Hline Hrest].
    case_bool_decide as Hover; apply IH; try done.
    + apply Forall_app. split; [done|]. by apply Forall_singleton.
    + rewrite length_app. lia.
Qed.

(** X5.  When the header and every rendered line are non-empty and at
    most 4000 characters long, the messages [alist] sends are, put together,
    the header followed by all lines in order, and each message is
    non-empty and at most 4000 characters long. *)
Theorem alist_messages_fit {A} (header : list A) (lines : list (list A)) :
  (0 < length header ≤ 4000)%nat →
  Forall (λ line, (0 < length line ≤ 4000)%nat) lines →
  mjoin (alist_messages header lines) = header ++ mjoin lines
  ∧ Forall (λ msg, (0 < length msg ≤ 4000)%nat) (alist_messages header lines).
Proof.
  intros Hh Hl. unfold alist_messages. split.
  - by rewrite alist_pack_join.
  - by apply alist_pack_sizes.
Qed.

Lemma alist_messages_fit_witness :
  length <$> alist_messages (replicate 3000 "h"%char)
               [replicate 900 "a"%char; replicate 200 "b"%char;
                replicate 4000 "c"%char; replicate 1 "d"%char]
  = [3900; 200; 4000; 1]%nat
  ∧ Forall (λ msg, (0 < length msg ≤ 4000)%nat)
      (alist_messages (replicate 3000 "h"%char)
         [replicate 900 "a"%char; replicate 200 "b"%char;
          replicate 4000 "c"%char; replicate 1 "d"%char]).
Proof.
  split; [by vm_compute|].
  apply (alist_messages_fit (replicate 3000 "h"%char)
           [replicate 900 "a"%char; replicate 200 "b"%char;
            replicate 4000 "c"%char; replicate 1 "d"%char]).
  - rewrite length_replicate. lia.
  - repeat (apply Forall_cons; split; [rewrite length_replicate; lia|]).
    apply Forall_nil_2.
Defined.

(** ** Broadcast *)

Lemma unbanned_user_ids_spec d uid :
  uid ∈ unbanned_user_ids d ↔ ∃ u, users d !! uid = Some u ∧ is_banned u = 0.
Proof.
  unfold unbanned_user_ids. rewrite list_elem_of_fmap. split.
  - intros ([k u] & -> & Hin). apply list_elem_of_filter in Hin as [Hb Hin].
    apply elem_of_map_to_list in Hin. eauto.
  - intros (u & Hu & Hb). exists (uid, u). split; [done|].
    apply list_elem_of_filter. split; [done|]. by apply elem_of_map_to_list.
Qed.

Lemma filter_split_length {A} (P : A → Prop) `{∀ x, Decision (P x)} (l : list A) :
  (length (filter P l) + length (filter (λ x, ¬ P x) l) = length l)%nat.
Proof.
  rewrite <- length_app. apply Permutation_length, filter_app_complement.
Qed.

(** X6.  A broadcast that the channel accepted reports as many channel
    messages as there are chunks, and its successes and failures add up to
    the number of users whose row says [is_banned = 0]; the users counted as
    successes all have such a row, so nobody who is banned from bidding and
    nobody without a row is among them.  When the channel refuses, nobody
    is written to. *)
Theorem post_counts e message_text d :
  match post e message_text d with
  | (PostFailed, reached) =>
      reached = [] ∧ channel_ok e = false ∧ message_text ≠ []
  | (BroadcastComplete channel_messages success failed, reached) =>
      channel_messages = length (message_chunks message_text)
      ∧ success = length reached
      ∧ (success + failed)%nat = length (unbanned_user_ids d)
      ∧ ∀ uid, uid ∈ reached → banned d uid = false ∧ is_Some (users d !! uid)
  end.
Proof.
  unfold post.
  destruct (bool_decide (message_chunks message_text = []) || channel_ok e)
    eqn:Hch; cbn [negb].
  - split_and!; [done..| |].
    + apply filter_split_length.
    + intros uid Huid. apply list_elem_of_filter in Huid as [_ Huid].
      apply unbanned_user_ids_spec in Huid as (u & Hu & Hb).
      unfold banned, truthy. rewrite Hu, Hb. split; [done|by eexists].
  - apply orb_false_iff in Hch as [Hne Hok]. split_and!; [done..|].
    intros ->. by vm_compute in Hne.
Qed.

(** ** Phase commands *)

(** X7.  Once [bido] has run, whether its loop came to the end or stopped
    at a row without a name, every bid with a positive amount is answered
    as closed and changes nothing; the submissions flag is as it was, and
    [starto] opens the bidding again. *)
Theorem bido_closes_bidding e d e' user id amount :
  0 < amount →
  bid e' user id amount (c_db (bido e d)) = answer BiddingClosed (c_db (bido e d))
  ∧ (∀ in_progress, add in_progress (c_db (bido e d)) = add in_progress d)
  ∧ truthy (bidding_open (starto (c_db (bido e d)))) = true.
Proof.
  intros Hpos. destruct (bido_frame e d) as (_ & _ & Hsub & Hbid). split_and!.
  - apply bid_closed; [done|]. by rewrite Hbid.
  - intros in_progress. unfold add, get_auction_state. by rewrite Hsub.
  - done.
Qed.

Lemma bido_closes_bidding_witness :
  bid Sample.calm Sample.carol "G0094" 14000
    (c_db (bido Sample.calm Sample.tm_shop))
  = answer BiddingClosed (c_db (bido Sample.calm Sample.tm_shop)).
Proof.
  apply (bido_closes_bidding Sample.calm Sample.tm_shop Sample.calm Sample.carol
           "G0094" 14000). lia.
Defined.

Lemma bid_with_phase e user id amount s d :
  let o := bid e user id amount d in
  let o' := bid e user id amount (with_phase s (bidding_open d) d) in
  replied o' = replied o ∧ sent o' = sent o ∧ log o' = log o
  ∧ db_after o' = with_phase s (bidding_open d) (db_after o).
Proof.
  unfold bid, get_auction_state, banned. simpl.
  case_bool_decide; [done|].
  destruct (negb (truthy (bidding_open d))); [done|].
  destruct (users d !! tg_id user) as [u|]; simpl;
    [destruct (truthy (is_banned u)); [done|]|];
    (destruct (fetch_approved id (items d)) as [it|]; [|done];
     repeat (case_bool_decide; [done|]);
     destruct (storage_fault e) as [st|] eqn:Hf;
     [by rewrite !(bid_unit_of_work_fault _ _ _ _ _ st Hf)|];
     rewrite !(bid_unit_of_work_no_fault _ _ _ _ _ Hf);
     destruct (channel_ok e); [|done];
     by destruct (notify_previous_bidder _ _ _ _), (notify_seller _ _ _)).
Qed.

(** X8.  [submito] closes the submissions only: [add] is refused
    afterwards, and every bid gets the same answer, sends the same notices
    and writes the same rows as it would have before. *)
Theorem submito_closes_submissions_only e user id amount d :
  (∀ in_progress, add in_progress (submito d) = SubmissionsClosed)
  ∧ replied (bid e user id amount (submito d)) = replied (bid e user id amount d)
  ∧ sent (bid e user id amount (submito d)) = sent (bid e user id amount d)
  ∧ db_after (bid e user id amount (submito d))
    = submito (db_after (bid e user id amount d)).
Proof.
  destruct (bid_with_phase e user id amount 0 d) as (Hr & Hs & _ & Hd).
  split_and!; [done|exact Hr|exact Hs|].
  unfold submito. rewrite Hd.
  destruct (bid_changes_only_when_committed e user id amount d) as [->|[-> _]];
    done.
Qed.

(** ** Bans *)

Lemma with_users_same d : with_users (users d) d = d.
Proof. by destruct d. Qed.

Lemma banned_alter (f : user_row → user_row) k d uid :
  (∀ u, is_banned (f u) = is_banned u) →
  banned (with_users (alter f k (users d)) d) uid = banned d uid.
Proof.
  intros Hf. unfold banned. simpl. rewrite lookup_alter. case_decide; [|done].
  subst. destruct (users d !! uid) as [u|]; simpl; [|done]. by rewrite Hf.
Qed.

(** X9.  Banning a user who has a row in [users] takes effect: with the
    bidding open, every bid of that user with a positive amount is answered
    as banned and changes nothing, whatever the item and the amount; nobody
    else's ban state changes; [unban] lifts the ban, and for a user who was
    not banned before it restores the database exactly. *)
Theorem aban_blocks_bids uid d u :
  users d !! uid = Some u →
  (∀ e user id amount,
     tg_id user = uid → 0 < amount → truthy (bidding_open d) = true →
     bid e user id amount (aban uid d) = answer BidderBanned (aban uid d))
  ∧ (∀ uid', uid' ≠ uid → banned (aban uid d) uid' = banned d uid')
  ∧ banned (unban uid (aban uid d)) uid = false
  ∧ (is_banned u = 0 → unban uid (aban uid d) = d).
Proof.
  intros Hu. split_and!.
  - intros e user id amount <- Hpos Hopen. apply bid_banned; [done..|].
    unfold banned, aban. simpl. by rewrite lookup_alter_eq, Hu.
  - intros uid' Hne. unfold banned, aban. simpl. by rewrite lookup_alter_ne.
  - unfold banned, unban, aban. simpl. by rewrite !lookup_alter_eq, Hu.
  - intros Hclean. unfold unban, aban, with_users. simpl.
    rewrite alter_alter_eq.
    rewrite alter_id; [by destruct d|].
    intros x Hx. assert (x = u) as -> by congruence.
    destruct u. simpl in *. by subst.
Qed.

(** Alice, who has a row, is banned and bids on Gengar. *)
Lemma aban_blocks_bids_witness :
  bid Sample.calm Sample.alice "G0094" 14000 (aban 101 Sample.tm_shop)
  = answer BidderBanned (aban 101 Sample.tm_shop)
  ∧ unban 101 (aban 101 Sample.tm_shop) = Sample.tm_shop.
Proof.
  destruct (aban_blocks_bids 101 Sample.tm_shop (Sample.row Sample.alice 0 3 0))
    as (Hbid & _ & _ & Hback); [reflexivity|].
  split; [|by apply Hback].
  apply Hbid; [reflexivity|lia|reflexivity].
Defined.

(** X10.  Banning (or unbanning) a user id that has no row in [users]
    changes nothing at all: a user who never submitted an item is not banned
    afterwards and their bids are answered as before. *)
Theorem aban_without_row uid d :
  users d !! uid = None →
  aban uid d = d
  ∧ unban uid d = d
  ∧ banned (aban uid d) uid = false
  ∧ ∀ e user id amount,
      tg_id user = uid →
      bid e user id amount (aban uid d) = bid e user id amount d.
Proof.
  intros Hnone.
  assert (Ha : aban uid d = d).
  { unfold aban. rewrite alter_id' by done. apply with_users_same. }
  split_and!; [done| | |].
  - unfold unban. rewrite alter_id' by done. apply with_users_same.
  - rewrite Ha. unfold banned. by rewrite Hnone.
  - intros. by rewrite Ha.
Qed.

(** Bob never submitted an item: banning him does not stop his bid. *)
Lemma aban_without_row_witness :
  aban 202 Sample.shop = Sample.shop
  ∧ replied (bid Sample.calm Sample.bob "A0000" 27000 (aban 202 Sample.shop))
    = BidPlaced 27000.
Proof.
  destruct (aban_without_row 202 Sample.shop) as (Ha & _ & _ & Hbid);
    [reflexivity|].
  split; [exact Ha|].
  rewrite (Hbid Sample.calm Sample.bob "A0000" 27000); reflexivity.
Defined.

(** ** Bid prompt, refresh and listings *)

Lemma fetch_approved_update_same (f : item → item) id its :
  (∀ it, item_id (f it) = item_id it) → (∀ it, status (f it) = status it) →
  fetch_approved id (update_item id f its) = f <$> fetch_approved id its.
Proof.
  intros Hid Hst. induction its as [|x rest IH]; [done|].
  unfold update_item in *. rewrite fmap_cons. simpl.
  destruct (decide (item_id x = id)) as [Hx|Hx].
  - rewrite !(bool_decide_eq_true_2 _ Hx). simpl. rewrite Hst.
    rewrite ?(bool_decide_eq_true_2 (item_id (f x) = id)) by by rewrite Hid.
    simpl. by case_bool_decide.
  - rewrite !(bool_decide_eq_false_2 _ Hx). simpl.
    by rewrite ?(bool_decide_eq_false_2 _ Hx).
Qed.

Lemma committed_bid_leader e user id amount d it :
  fetch_approved id (items d) = Some it →
  fetch_approved id (items (committed_bid e user id amount d))
  = Some (set_highest amount (tg_id user) (tg_first_name user) it).
Proof.
  intros Hit. unfold committed_bid. simpl.
  rewrite fetch_approved_update_same by done. by rewrite Hit.
Qed.

Lemma current_bid_set_highest amount uid n it :
  0 < amount → current_bid (set_highest amount uid n it) = amount.
Proof.
  intros Hpos. unfold current_bid, truthy. simpl.
  by rewrite bool_decide_eq_false_2 by lia.
Qed.

(** X11.  The minimum the bid prompt names is the threshold of [bid]: no
    smaller amount is ever placed or written, and the named amount itself
    is committed for a bidder who passes the other checks when no statement
    fails (and answered as placed when the channel edit goes through). *)
Theorem bid_prompt_minimum e user id d current min_bid :
  bid_prompt_callback id d = BidHint id current min_bid →
  (∀ amount, amount < min_bid →
     db_after (bid e user id amount d) = d
     ∧ ∀ a, replied (bid e user id amount d) ≠ BidPlaced a)
  ∧ (0 < min_bid → truthy (bidding_open d) = true →
     banned d (tg_id user) = false →
     (∀ it, fetch_approved id (items d) = Some it → tg_id user ≠ user_id it) →
     storage_fault e = None →
     db_after (bid e user id min_bid d) = committed_bid e user id min_bid d
     ∧ (channel_ok e = true → replied (bid e user id min_bid d) = BidPlaced min_bid)).
Proof.
  unfold bid_prompt_callback.
  destruct (fetch_approved id (items d)) as [it|] eqn:Hit; [|done].
  intros [= <- <-]. split.
  - intros amount Hlt. split.
    + destruct (bid_changes_only_when_committed e user id amount d)
        as [?|(_ & _ & _ & it' & Hit' & _ & Hge)]; [done|].
      assert (it' = it) as -> by congruence. lia.
    + intros a Ha. apply bid_reply_placed in Ha as (_ & _ & _ & _ & it' & Hit' & _ & Hge).
      assert (it' = it) as -> by congruence. lia.
  - intros Hpos Hopen Hban Hown Hf.
    destruct (bid_committed e user id _ d Hpos Hopen Hban it Hit (Hown it eq_refl))
      as [Hdb Hr]; [lia|done|].
    split; [done|]. intros Hc. by rewrite Hr, Hc.
Qed.

(** The prompt for Mew names 70000: Carol's 69999 is refused, her 70000 is
    placed. *)
Lemma bid_prompt_minimum_witness :
  bid_prompt_callback "B1234" Sample.shop = BidHint "B1234" 65000 70000
  ∧ db_after (bid Sample.calm Sample.carol "B1234" 69999 Sample.shop) = Sample.shop
  ∧ replied (bid Sample.calm Sample.carol "B1234" 70000 Sample.shop)
    = BidPlaced 70000.
Proof.
  destruct (bid_prompt_minimum Sample.calm Sample.carol "B1234" Sample.shop
              65000 70000) as [Hlow Hmin]; [reflexivity|].
  split; [reflexivity|]. split.
  - apply Hlow. lia.
  - apply Hmin; [lia|reflexivity|reflexivity| |reflexivity|reflexivity].
    intros it [= <-]. by vm_compute.
Defined.

(** X12.  After a bid that changed the database, the refresh button of
    the item shows that amount with the escaped first name of the bidder,
    and the bid prompt names that amount as the current bid and asks for
    one increment more. *)
Theorem refresh_after_bid e user id amount d :
  db_after (bid e user id amount d) ≠ d →
  refresh_callback id (db_after (bid e user id amount d))
  = HighestBid amount (escape_markdown_v2 (tg_first_name user))
  ∧ bid_prompt_callback id (db_after (bid e user id amount d))
    = BidHint id amount (amount + increment amount).
Proof.
  intros Hne.
  destruct (bid_changes_only_when_committed e user id amount d)
    as [?|(Heq & Hpos & _ & it & Hit & _ & _)]; [done|].
  rewrite Heq. unfold refresh_callback, bid_prompt_callback.
  rewrite (committed_bid_leader _ _ _ _ _ _ Hit).
  rewrite current_bid_set_highest by done. simpl.
  unfold truthy. by rewrite bool_decide_eq_false_2 by lia.
Qed.

Lemma refresh_after_bid_witness :
  refresh_callback "A0000" Sample.shop = NoBidsYet 25000
  ∧ refresh_callback "A0000"
      (db_after (bid Sample.deaf Sample.bob "A0000" 27000 Sample.shop))
    = HighestBid 27000 "Bob".
Proof.
  split; [reflexivity|].
  apply (refresh_after_bid Sample.deaf Sample.bob "A0000" 27000 Sample.shop).
  apply (bool_decide_unpack _). by vm_compute.
Defined.

(** X13.  After a bid that changed the database, the item is among the
    rows [mybids] selects for the bidder, with the new amount, and among
    the rows of nobody else: the previous leader no longer lists it. *)
Theorem mybids_after_bid e user id amount d :
  db_after (bid e user id amount d) ≠ d →
  let its' := items (db_after (bid e user id amount d)) in
  (∃ it, it ∈ mybids_rows (tg_id user) its'
         ∧ item_id it = id ∧ highest_bid it = Some amount)
  ∧ (∀ uid it, uid ≠ tg_id user → it ∈ mybids_rows uid its' → item_id it ≠ id)
  ∧ mybids user (db_after (bid e user id amount d)) ≠ NotWinning.
Proof.
  intros Hne its'.
  destruct (bid_changes_only_when_committed e user id amount d)
    as [?|(Heq & Hpos & _ & it & Hit & _ & _)]; [done|].
  assert (Hits : its' = update_item id
            (set_highest amount (tg_id user) (tg_first_name user)) (items d))
    by (subst its'; by rewrite Heq).
  apply fetch_approved_Some in Hit as (Hin & Hid & Hst).
  assert (Hrow : set_highest amount (tg_id user) (tg_first_name user) it
                 ∈ mybids_rows (tg_id user) its').
  { unfold mybids_rows. apply list_elem_of_filter. split; [done|].
    rewrite Hits. unfold update_item. apply list_elem_of_fmap.
    exists it. by rewrite bool_decide_eq_true_2. }
  split_and!.
  - eexists. split; [exact Hrow|]. done.
  - intros uid x Huid Hx Hxid. unfold mybids_rows in Hx.
    apply list_elem_of_filter in Hx as [[Hb _] Hx]. rewrite Hits in Hx.
    unfold update_item in Hx. apply list_elem_of_fmap in Hx as (y & -> & _).
    case_bool_decide; simpl in *; congruence.
  - unfold mybids. fold its'.
    destruct (mybids_rows (tg_id user) its') as [|r rows];
      [by apply elem_of_nil in Hrow|].
    by destruct (mybids_lines (r :: rows)).
Qed.

(** Carol overbids Bob on Mew: Mew moves from Bob's listing to hers. *)
Lemma mybids_after_bid_witness :
  mybids Sample.bob Sample.shop = Winning [("B1234", "Mew", 65000, 60000)]%string
  ∧ mybids Sample.bob
      (db_after (bid Sample.calm Sample.carol "B1234" 70000 Sample.shop))
    = NotWinning
  ∧ ∃ it, it ∈ mybids_rows 303
             (items (db_after (bid Sample.calm Sample.carol "B1234" 70000
                                  Sample.shop)))
          ∧ item_id it = "B1234"%string ∧ highest_bid it = Some 70000.
Proof.
  split; [reflexivity|]. split; [reflexivity|].
  apply (mybids_after_bid Sample.calm Sample.carol "B1234" 70000 Sample.shop).
  apply (bool_decide_unpack _). by vm_compute.
Defined.

Lemma mybids_lines_named rows :
  Forall (λ it, truthy_str (name it) = true ∧ is_Some (highest_bid it)) rows →
  ∃ lines, mybids_lines rows = inr lines
           ∧ (λ l : mybids_line, l.1.1.1) <$> lines = item_id <$> rows
           ∧ (λ l : mybids_line, Some l.1.2) <$> lines = highest_bid <$> rows.
Proof.
  induction 1 as [|it rest [Hname [h Hh]] _ (lines & Hlines & Hids & Hbids)].
  { by exists []. }
  simpl. destruct (name it) as [n|] eqn:Hn; [|done].
  rewrite Hname, Hh, Hlines.
  eexists. split; [done|]. rewrite !fmap_cons. cbn [fst snd]. by rewrite Hids, Hbids.
Qed.

Lemma mybids_lines_nameless rows it :
  it ∈ rows → truthy_str (name it) = false →
  ∃ exception, mybids_lines rows = inl exception.
Proof.
  intros Hin Hname. induction rows as [|x rest IH]; [by apply elem_of_nil in Hin|].
  cbn [mybids_lines]. apply elem_of_cons in Hin as [->|Hin].
  - destruct (name x) as [n|] eqn:Hn; [|by eexists].
    rewrite Hname. by eexists.
  - destruct (IH Hin) as [ex Hex]. rewrite Hex.
    destruct (name x) as [n|] eqn:Hn; [|by eexists].
    destruct (truthy_str (Some n)); [|by eexists].
    destruct (highest_bid x); by eexists.
Qed.

(** X14.  [mybids] lists the items a user leads, one line per row in scan
    order with the user's bid, as long as each of these rows has a name; as
    soon as one of them has none (a TM row) the handler ends in an exception
    and the user gets no listing at all. *)
Theorem mybids_needs_names user d :
  let rows := mybids_rows (tg_id user) (items d) in
  (rows = [] → mybids user d = NotWinning)
  ∧ (rows ≠ [] →
     Forall (λ it, truthy_str (name it) = true ∧ is_Some (highest_bid it)) rows →
     ∃ lines, mybids user d = Winning lines
              ∧ (λ l : mybids_line, l.1.1.1) <$> lines = item_id <$> rows
              ∧ (λ l : mybids_line, Some l.1.2) <$> lines = highest_bid <$> rows)
  ∧ (∀ it, it ∈ rows → truthy_str (name it) = false →
       ∃ exception, mybids user d = MybidsRaised exception).
Proof.
  intros rows. unfold mybids. fold rows. split_and!.
  - by intros ->.
  - intros Hne Hall. destruct (mybids_lines_named rows Hall) as (lines & Hl & Hi & Hb).
    destruct rows; [done|]. rewrite Hl. eauto.
  - intros it Hin Hname.
    destruct (mybids_lines_nameless rows it Hin Hname) as [ex Hex].
    destruct rows; [by apply elem_of_nil in Hin|]. rewrite Hex. eauto.
Qed.

(** Bob leads on Mew and on the TM: his listing fails. *)
Example mybids_with_tm :
  mybids Sample.bob Sample.tm_shop = MybidsRaised "IndexError"
  ∧ mybids Sample.carol Sample.tm_shop
    = Winning [("G0094", "Gengar", 13000, 12000)]%string.
Proof. split; reflexivity. Qed.

(** ** Notices and failures around a bid *)

Lemma bid_unit_of_work_env e1 e2 user id amount d :
  now e1 = now e2 → storage_fault e1 = storage_fault e2 →
  bid_unit_of_work e1 user id amount d = bid_unit_of_work e2 user id amount d.
Proof.
  intros Hnow Hf. unfold bid_unit_of_work, exec, new_bid_row.
  by rewrite Hnow, Hf.
Qed.

(** X15.  Whether the outbid notice and the seller's notice can be
    delivered has no influence on a bid: two worlds that agree on the clock,
    the database and the channel give the same answer and the same
    database. *)
Theorem bid_ignores_delivery e1 e2 user id amount d :
  now e1 = now e2 →
  storage_fault e1 = storage_fault e2 →
  channel_ok e1 = channel_ok e2 →
  replied (bid e1 user id amount d) = replied (bid e2 user id amount d)
  ∧ db_after (bid e1 user id amount d) = db_after (bid e2 user id amount d).
Proof.
  intros Hnow Hf Hc. unfold bid, get_auction_state.
  case_bool_decide; [done|].
  destruct (negb (truthy (bidding_open d))); [done|].
  destruct (banned d (tg_id user)); [done|].
  destruct (fetch_approved id (items d)) as [it|]; [|done].
  repeat (case_bool_decide; [done|]).
  rewrite (bid_unit_of_work_env e1 e2) by done.
  destruct (bid_unit_of_work e2 user id amount d); [|done].
  rewrite Hc. destruct (channel_ok e2); [|done].
  by destruct (notify_previous_bidder e1 _ _ _), (notify_seller e1 _ _),
     (notify_previous_bidder e2 _ _ _), (notify_seller e2 _ _).
Qed.

(** Carol overbids Bob on Mew while nobody can be reached: the bid stands,
    only the two notices are missing and logged. *)
Lemma bid_ignores_delivery_witness :
  replied (bid Sample.muted Sample.carol "B1234" 70000 Sample.shop)
  = BidPlaced 70000
  ∧ db_after (bid Sample.muted Sample.carol "B1234" 70000 Sample.shop)
    = db_after (bid Sample.calm Sample.carol "B1234" 70000 Sample.shop)
  ∧ log (bid Sample.muted Sample.carol "B1234" 70000 Sample.shop)
    = ["Error notifying previous bidder"; "Error notifying seller"]%string.
Proof.
  destruct (bid_ignores_delivery Sample.muted Sample.calm Sample.carol "B1234"
              70000 Sample.shop) as [Hr Hd]; [reflexivity..|].
  split; [by rewrite Hr|]. split; [exact Hd|reflexivity].
Defined.

Lemma banned_committed_bid e user id amount d uid :
  banned (committed_bid e user id amount d) uid = banned d uid.
Proof.
  unfold banned, committed_bid. simpl. rewrite lookup_alter.
  case_decide; [|done]. subst. by destruct (users d !! tg_id user).
Qed.

(** X16.  When the unit of work has been committed and the edit of the
    channel message then fails, the bidder is told that an error occurred
    and to try again, although the bid is in the database; the same command
    sent again is refused as not higher than the current bid, which is the
    bidder's own amount. *)
Theorem bid_retry_after_channel_failure e e' user id amount d it :
  0 < amount →
  truthy (bidding_open d) = true →
  banned d (tg_id user) = false →
  fetch_approved id (items d) = Some it →
  tg_id user ≠ user_id it →
  current_bid it + increment (current_bid it) ≤ amount →
  storage_fault e = None →
  channel_ok e = false →
  let o := bid e user id amount d in
  replied o = BidProcessingFailed
  ∧ db_after o = committed_bid e user id amount d
  ∧ sent o = []
  ∧ bid e' user id amount (db_after o) = answer (BidNotHigher amount) (db_after o).
Proof.
  intros Hpos Hopen Hban Hit Hown Hge Hf Hc o.
  destruct (bid_committed e user id amount d Hpos Hopen Hban it Hit Hown Hge Hf)
    as [Hdb Hr].
  fold o in Hdb, Hr. rewrite Hc in Hr. split_and!; [done..| |].
  - subst o. unfold bid, get_auction_state.
    rewrite bool_decide_eq_false_2 by lia. rewrite Hopen, Hban, Hit. simpl.
    rewrite (bool_decide_eq_false_2 _ Hown).
    pose proof (increment_pos (current_bid it)).
    rewrite !bool_decide_eq_false_2 by lia.
    by rewrite (bid_unit_of_work_no_fault _ _ _ _ _ Hf), Hc.
  - rewrite Hdb.
    pose proof (current_bid_set_highest amount (tg_id user) (tg_first_name user) it
                  Hpos) as Hcur.
    set (d' := committed_bid e user id amount d).
    set (it' := set_highest amount (tg_id user) (tg_first_name user) it) in *.
    assert (Hban' : banned d' (tg_id user) = false)
      by (subst d'; by rewrite banned_committed_bid).
    assert (Hit' : fetch_approved id (items d') = Some it')
      by by apply committed_bid_leader.
    assert (Hle : amount ≤ current_bid it') by lia.
    rewrite (bid_not_higher e' user id amount d' Hpos Hopen Hban' it' Hit' Hown Hle).
    by rewrite Hcur.
Qed.

Lemma bid_retry_after_channel_failure_witness :
  replied (bid Sample.deaf Sample.carol "B1234" 70000 Sample.shop)
  = BidProcessingFailed
  ∧ replied (bid Sample.calm Sample.carol "B1234" 70000
               (db_after (bid Sample.deaf Sample.carol "B1234" 70000 Sample.shop)))
    = BidNotHigher 70000.
Proof.
  destruct (bid_retry_after_channel_failure Sample.deaf Sample.calm Sample.carol
              "B1234" 70000 Sample.shop Sample.mew)
    as (Hr & _ & _ & Hretry);
    [lia|reflexivity|reflexivity|reflexivity|by vm_compute|by vm_compute
    |reflexivity|reflexivity|].
  split; [exact Hr|]. by rewrite Hretry.
Defined.


(** ** Submissions *)

Lemma complete_submission_db e r user dr d :
  (complete_submission e r user dr d).2 = d
  ∨ (generate_item_id r ∉ item_id <$> items d)
    ∧ (complete_submission e r user dr d).2
      = with_items (items d ++ [new_item (generate_item_id r) user dr])
          (with_users
             (alter (touch_submitter user (now e)) (tg_id user)
                (insert_or_ignore (tg_id user) (fresh_user_row user (now e))
                   (users d))) d).
Proof.
  destruct (decide (- 2 ^ 63 ≤ d_base_price dr < 2 ^ 63)) as [Hfit|Hbig].
  - rewrite (complete_submission_fits _ _ _ _ _ Hfit).
    case_bool_decide; [by left|]. right. split; [done|]. simpl.
    by destruct (reachable e ADMIN_APPROVAL_GROUP_CHAT_ID),
                (reachable e (tg_id user)).
  - rewrite (complete_submission_overflow _ _ _ _ _ Hbig). by left.
Qed.


Lemma submitter_row user seen us uid :
  (alter (touch_submitter user seen) (tg_id user)
     (insert_or_ignore (tg_id user) (fresh_user_row user seen) us)) !! uid
  = if decide (tg_id user = uid)
    then Some (touch_submitter user seen
                 (default (fresh_user_row user seen) (us !! uid)))
    else us !! uid.
Proof.
  unfold insert_or_ignore. rewrite lookup_alter. case_decide as Hk.
  - subst. destruct (us !! tg_id user) as [u|] eqn:Hu; simpl.
    + by rewrite Hu.
    + by rewrite lookup_insert_eq.
  - destruct (us !! tg_id user); [done|]. by rewrite lookup_insert_ne.
Qed.



(** X19.  The price step accepts only a number above zero: on anything
    else it asks again and writes nothing, and every item it adds is pending,
    without a bid, owned by the sender and has the positive price that was
    sent.  [tm_price] behaves exactly like [poke_price]. *)
Theorem poke_price_positive parsed e r user dr d :
  let res := poke_price parsed e r user dr d in
  (∀ it, it ∈ items res.2 →
     it ∈ items d
     ∨ (0 < base_price it ∧ parsed = Some (base_price it)
        ∧ status it = "pending"%string ∧ highest_bid it = None
        ∧ user_id it = tg_id user ∧ item_id it ∉ item_id <$> items d))
  ∧ (match parsed with Some price => price ≤ 0 | None => True end →
     res = (InvalidPrice, d))
  ∧ tm_price parsed e r user dr d = res.
Proof.
  intros res. subst res. unfold poke_price, tm_price. split_and!; [| |done].
  - destruct parsed as [price|]; [|by left].
    case_bool_decide as Hprice; [by left|].
    pose proof (complete_submission_db e r user (with_base_price price dr) d)
      as Hdb.
    destruct (complete_submission e r user (with_base_price price dr) d)
      as [reply d'].
    simpl in *. intros it Hin. destruct Hdb as [->|[Hfresh ->]]; [by left|].
    simpl in Hin. apply elem_of_app in Hin as [Hin|Hin]; [by left|].
    apply list_elem_of_singleton in Hin as ->. right. simpl.
    split_and!; try done. lia.
  - destruct parsed as [price|]; [|done]. intros Hle.
    by rewrite bool_decide_eq_true_2.
Qed.

(** ** Admin decisions *)





(** ** What every reachable database satisfies *)

Lemma sound_same_columns d d' g :
  keeps_columns g → items d' = g <$> items d → bids d' = bids d →
  sound d → sound d'.
Proof.
  intros Hg Hitems Hbids (Hnd & [Hrec Hshown] & Horph & Hprices).
  assert (Hids : item_id <$> items d' = item_id <$> items d).
  { rewrite Hitems, <- list_fmap_compose. apply list_fmap_ext.
    intros i x _. apply Hg. }
  unfold sound, unique_ids, consistent, no_orphan_bids, prices_ok.
  rewrite Hids, Hbids, Hitems. split_and!; try done.
  - apply Forall_fmap, (Forall_impl _ _ _ Hrec). intros x Hx. simpl.
    unfold bid_recorded in *. destruct (Hg x) as (-> & -> & -> & _). done.
  - apply (Forall_impl _ _ _ Hshown). intros b Hb. unfold bid_shown in *.
    apply Forall_fmap, (Forall_impl _ _ _ Hb). intros x Hx. simpl.
    destruct (Hg x) as (-> & -> & _). done.
  - apply Forall_fmap, (Forall_impl _ _ _ Hprices). intros x [Hbase Hab]. simpl.
    unfold above_base in *. destruct (Hg x) as (_ & -> & _ & ->). done.
Qed.

Lemma sound_same_tables d d' :
  items d' = items d → bids d' = bids d → sound d → sound d'.
Proof.
  intros Hitems Hbids. apply (sound_same_columns d d' id); [done| |done].
  by rewrite list_fmap_id.
Qed.

Lemma keeps_columns_update id f :
  keeps_columns f →
  keeps_columns (λ x, if bool_decide (item_id x = id) then f x else x).
Proof. intros Hf x. case_bool_decide; [apply Hf|done]. Qed.

Lemma fetch_item_Some id its it :
  fetch_item id its = Some it → it ∈ its ∧ item_id it = id.
Proof.
  induction its as [|x rest IH]; simpl; [done|].
  case_bool_decide as Hid.
  - intros [= ->]. split; [apply list_elem_of_here|done].
  - intros H. destruct (IH H). split; [by apply list_elem_of_further|done].
Qed.

Lemma decision_sound e admin action id message_text posted d :
  sound d →
  sound (admin_approval_callback e admin action id message_text posted d).2.
Proof.
  intros Hs. unfold admin_approval_callback.
  destruct (negb (is_admin admin)); [done|].
  destruct (fetch_item id (items d)) as [it|]; [|done].
  destruct (negb (bool_decide (status it = "pending"%string))); [done|].
  assert (Hst : ∀ s us, sound (with_users us
                  (with_items (update_item id (set_status s) (items d)) d))).
  { intros s us. apply (sound_same_columns d _ _
      (keeps_columns_update id (set_status s) ltac:(done))); done. }
  case_bool_decide; [|apply Hst].
  destruct posted as [m|]; simpl; [|apply Hst].
  set (d1 := with_users (alter bump_approved_count (user_id it) (users d))
               (with_items (update_item id (set_status "approved") (items d)) d)).
  apply (sound_same_columns d1 _ _
           (keeps_columns_update id (set_channel_message (m + 1)) ltac:(done)));
    [done..|]. apply Hst.
Qed.

Lemma bido_sound e d : sound d → sound (c_db (bido e d)).
Proof.
  destruct (bido_frame e d) as (_ & Hbids & _).
  apply (sound_same_columns d _
           (λ it, if bool_decide
                       (item_id it ∈ item_id <$> named_prefix (bido_rows (items d)))
                  then set_status "sold" it else it)).
  - intros x. by case_bool_decide.
  - apply bido_items.
  - done.
Qed.

Lemma current_price_raised it amount :
  0 < amount →
  current_bid it + increment (current_bid it) ≤ amount →
  current_price it < amount.
Proof.
  intros Hpos Hge. pose proof (increment_pos (current_bid it)) as Hinc.
  unfold current_bid, current_price, truthy in *.
  destruct (highest_bid it) as [h|]; simpl in *; [|lia].
  case_bool_decide; simpl in *; lia.
Qed.

Lemma bid_sound e user id amount d : sound d → sound (db_after (bid e user id amount d)).
Proof.
  intros (Hnd & Hcons & Horph & Hprices).
  destruct (bid_changes_only_when_committed e user id amount d)
    as [->|(-> & Hpos & _ & it & Hit & _ & Hge)]; [done|].
  pose proof (fetch_approved_Some _ _ _ Hit) as (Hin & Hid & _).
  unfold sound. split_and!.
  - unfold unique_ids, committed_bid. simpl. by rewrite update_item_ids.
  - by apply committed_bid_consistent.
  - unfold no_orphan_bids, committed_bid. simpl. rewrite update_item_ids by done.
    apply Forall_app. split; [done|]. apply Forall_singleton. simpl.
    rewrite <- Hid. by apply list_elem_of_fmap_2.
  - unfold prices_ok, committed_bid. simpl. unfold update_item.
    apply Forall_fmap, Forall_forall. intros x Hx. simpl.
    unfold prices_ok in Hprices. rewrite Forall_forall in Hprices.
    destruct (Hprices x Hx) as [Hbase Hab].
    case_bool_decide as Hxid; [|done]. simpl. split; [done|].
    assert (x = it) as ->.
    { apply (unique_ids_inj d); [exact Hnd|exact Hx|exact Hin|]. by rewrite Hxid. }
    intros h [= <-]. by destruct (above_current_price it amount Hpos Hab Hge).
Qed.

Lemma price_sound parsed e r user dr d :
  sound d → sound (poke_price parsed e r user dr d).2.
Proof.
  intros Hs. unfold poke_price. destruct parsed as [price|]; [|done].
  case_bool_decide as Hprice; [done|].
  pose proof (complete_submission_db e r user (with_base_price price dr) d) as Hdb.
  destruct (complete_submission e r user (with_base_price price dr) d)
    as [reply d']. simpl in *.
  destruct Hdb as [->|[Hfresh ->]]; [done|].
  destruct Hs as (Hnd & [Hrec Hshown] & Horph & Hprices).
  set (new := new_item (generate_item_id r) user (with_base_price price dr)).
  unfold sound, unique_ids, consistent, no_orphan_bids, prices_ok. simpl.
  split_and!.
  - rewrite fmap_app. apply NoDup_app. split_and!; [done| |apply NoDup_singleton].
    intros y Hy Hy'. apply list_elem_of_singleton in Hy'. by subst.
  - apply Forall_app. split; [done|]. by apply Forall_singleton.
  - unfold no_orphan_bids in Horph. rewrite Forall_forall in Horph, Hshown.
    apply Forall_forall. intros b Hb. unfold bid_shown.
    apply Forall_app. split; [by apply Hshown|].
    apply Forall_singleton. intros Hid. exfalso. apply Hfresh.
    change (item_id new) with (generate_item_id r) in Hid.
    rewrite Hid. by apply Horph.
  - apply (Forall_impl _ _ _ Horph). intros b Hb. rewrite fmap_app.
    apply elem_of_app. by left.
  - apply Forall_app. split; [done|]. apply Forall_singleton. simpl.
    split; [lia|]. by intros h.
Qed.

Lemma endo_sound data d : sound d → sound (endo_callback data d).
Proof.
  unfold endo_callback. case_bool_decide; [|done].
  intros (Hnd & [Hrec Hshown] & Horph & Hprices).
  set (kept := filter (λ it, status it ∉ cleanup_statuses) (items d)).
  assert (Hkept : ∀ x, x ∈ kept → x ∈ items d).
  { intros x Hx. by apply list_elem_of_filter in Hx as [_ Hx]. }
  unfold sound, unique_ids, consistent, no_orphan_bids, prices_ok. simpl.
  fold kept. rewrite Forall_forall in Hrec. rewrite Forall_forall in Hshown.
  unfold prices_ok in Hprices. rewrite Forall_forall in Hprices.
  split_and!.
  - apply (sublist_NoDup _ _ Hnd), fmap_sublist, sublist_filter.
  - apply Forall_forall. intros x Hx. specialize (Hrec x (Hkept x Hx)).
    unfold bid_recorded in *. destruct (highest_bid x) as [a|]; [|done].
    apply Exists_exists in Hrec as (b & Hb & Hbid & Ham & Hwho).
    apply Exists_exists. exists b. split; [|done].
    apply list_elem_of_filter. split; [|done].
    rewrite Hbid. by apply list_elem_of_fmap_2.
  - apply Forall_forall. intros b Hb. apply list_elem_of_filter in Hb as [_ Hb].
    specialize (Hshown b Hb). unfold bid_shown in *.
    rewrite Forall_forall in Hshown. apply Forall_forall. auto.
  - apply Forall_forall. intros b Hb. by apply list_elem_of_filter in Hb as [Hb _].
  - apply Forall_forall. auto.
Qed.

Lemma step_sound o d : sound d → sound (step o d).
Proof.
  destruct o; simpl.
  - by apply sound_same_tables.
  - by apply sound_same_tables.
  - apply price_sound.
  - apply decision_sound.
  - apply bid_sound.
  - apply bido_sound.
  - apply endo_sound.
  - by apply sound_same_tables.
  - by apply sound_same_tables.
Qed.

Lemma init_db_sound : sound init_db.
Proof.
  unfold sound, unique_ids, consistent, no_orphan_bids, prices_ok, init_db.
  simpl. split_and!; try done. apply NoDup_nil_2.
Qed.

Lemma run_sound ops d : sound d → sound (run ops d).
Proof.
  revert d. induction ops as [|o ops IH]; intros d Hs; [done|].
  apply IH. by apply step_sound.
Qed.

(** X21.  Whatever sequence of submissions, decisions, bids, phase
    commands, closings, cleanups and bans is run on a new database, and
    whatever fails meanwhile, the database stays sound: item ids are
    pairwise different; every base price is positive and every highest bid
    lies above it; an item that shows a highest bid has a row in [bids] with
    its id, that amount and that bidder; and every row of [bids] names an
    item that is still there and shows a highest bid. *)
Theorem every_run_is_sound ops :
  let d := run ops init_db in
  sound d
  ∧ NoDup (item_id <$> items d)
  ∧ (∀ it, it ∈ items d →
       0 < base_price it
       ∧ ∀ h, highest_bid it = Some h →
           base_price it < h
           ∧ ∃ b, b ∈ bids d ∧ b_item_id b = item_id it ∧ b_amount b = h
                  ∧ highest_bidder_id it = Some (b_user_id b))
  ∧ (∀ b, b ∈ bids d →
       ∃ it, it ∈ items d ∧ item_id it = b_item_id b ∧ is_Some (highest_bid it)).
Proof.
  intros d. pose proof (run_sound ops init_db init_db_sound) as Hs. fold d in Hs.
  split; [done|]. destruct Hs as (Hnd & [Hrec Hshown] & Horph & Hprices).
  rewrite Forall_forall in Hrec. rewrite Forall_forall in Hshown.
  unfold prices_ok in Hprices. rewrite Forall_forall in Hprices.
  unfold no_orphan_bids in Horph. rewrite Forall_forall in Horph.
  split_and!; [done| |].
  - intros it Hin. destruct (Hprices it Hin) as [Hbase Hab]. split; [done|].
    intros h Hh. split; [by apply Hab|].
    specialize (Hrec it Hin). unfold bid_recorded in Hrec. rewrite Hh in Hrec.
    apply Exists_exists in Hrec as (b & Hb & ? & ? & ?). eauto.
  - intros b Hb. specialize (Horph b Hb).
    apply list_elem_of_fmap in Horph as (it & Hid & Hin).
    exists it. split_and!; [done..|].
    specialize (Hshown b Hb). unfold bid_shown in Hshown.
    rewrite Forall_forall in Hshown. by apply Hshown.
Qed.

(** ** How one call changes a row *)

Lemma status_move_refl s : status_move s s.
Proof. by left. Qed.

Lemma item_move_refl o x : item_move o x x.
Proof. unfold item_move. split_and!; try done; [apply status_move_refl|by left]. Qed.

Lemma decision_items e admin action id message_text posted d :
  (admin_approval_callback e admin action id message_text posted d).2 = d
  ∨ ∃ it0 f,
      fetch_item id (items d) = Some it0
      ∧ status it0 = "pending"%string
      ∧ items (admin_approval_callback e admin action id message_text posted d).2
        = update_item id f (items d)
      ∧ (∀ x, item_id (f x) = item_id x ∧ user_id (f x) = user_id x
              ∧ base_price (f x) = base_price x
              ∧ highest_bid (f x) = highest_bid x
              ∧ highest_bidder_id (f x) = highest_bidder_id x
              ∧ (status (f x) = "approved"%string
                 ∨ status (f x) = "rejected"%string)).
Proof.
  unfold admin_approval_callback.
  destruct (negb (is_admin admin)); [by left|].
  destruct (fetch_item id (items d)) as [it0|] eqn:Hit; [|by left].
  case_bool_decide as Hst; simpl; [|by left]. right.
  case_bool_decide as Hact.
  - destruct posted as [m|]; simpl.
    + exists it0, (λ x, set_channel_message (m + 1) (set_status "approved" x)).
      split_and!; try done; [|intros x; split_and!; try done; by left].
      unfold update_item. rewrite <- list_fmap_compose.
      apply list_fmap_ext. intros i x _. cbn [compose].
      destruct (decide (item_id x = id)) as [Hx|Hx].
      * rewrite !(bool_decide_eq_true_2 _ Hx). cbn [item_id set_status].
        by rewrite ?(bool_decide_eq_true_2 _ Hx).
      * by rewrite !(bool_decide_eq_false_2 _ Hx).
    + exists it0, (set_status "approved").
      split_and!; try done. intros x. split_and!; try done. by left.
  - exists it0, (set_status "rejected").
    split_and!; try done. intros x. split_and!; try done. by right.
Qed.

Lemma poke_price_items parsed e r user dr d :
  (poke_price parsed e r user dr d).2 = d
  ∨ ∃ price, parsed = Some price ∧ 0 < price
      ∧ (generate_item_id r ∉ item_id <$> items d)
      ∧ items (poke_price parsed e r user dr d).2
        = items d ++ [new_item (generate_item_id r) user (with_base_price price dr)].
Proof.
  unfold poke_price. destruct parsed as [price|]; [|by left].
  case_bool_decide as Hprice; [by left|].
  pose proof (complete_submission_db e r user (with_base_price price dr) d) as Hdb.
  destruct (complete_submission e r user (with_base_price price dr) d)
    as [reply d']. simpl in *.
  destruct Hdb as [->|[Hfresh ->]]; [by left|]. right.
  exists price. split_and!; try done. lia.
Qed.

(** X22.  One call of any handler changes a row of [items] only along the
    life of an item: the id, the owner and the base price never change; the
    status stays or goes from pending to approved or rejected, or from
    approved to sold, never back; the bid columns change only through a bid
    on that very item, which must be approved and then shows the amount and
    bidder of the call, above the price it stood at.  A row that was not
    there before comes from the price step of a submission, under an unused
    id, pending and without a bid. *)
Theorem step_moves_items o d it' :
  unique_ids d →
  it' ∈ items (step o d) →
  (∃ it, it ∈ items d ∧ item_move o it it')
  ∨ ((item_id it' ∉ item_id <$> items d)
     ∧ status it' = "pending"%string ∧ highest_bid it' = None
     ∧ ∃ parsed e r user dr, o = OpPrice parsed e r user dr).
Proof.
  intros Hnd Hin.
  assert (Hsame : it' ∈ items d → (∃ it, it ∈ items d ∧ item_move o it it')).
  { intros H. exists it'. split; [done|apply item_move_refl]. }
  destruct o as [| |parsed e r user dr|e admin action id message_text posted
                |e user id amount|e|data|uid|uid]; simpl in Hin.
  - left. by apply Hsame.
  - left. by apply Hsame.
  - destruct (poke_price_items parsed e r user dr d)
      as [Heq|(price & -> & Hpos & Hfresh & Heq)]; rewrite Heq in Hin.
    { left. by apply Hsame. }
    apply elem_of_app in Hin as [Hin|Hin]; [left; by apply Hsame|].
    apply list_elem_of_singleton in Hin as ->. right.
    split_and!; try done. by eexists _, _, _, _, _.
  - destruct (decision_items e admin action id message_text posted d)
      as [Heq|(it0 & f & Hit0 & Hst0 & Heq & Hf)]; rewrite Heq in Hin.
    { left. by apply Hsame. }
    unfold update_item in Hin. apply list_elem_of_fmap in Hin as (x & -> & Hx).
    left. exists x. split; [done|].
    case_bool_decide as Hxid; [|apply item_move_refl].
    apply fetch_item_Some in Hit0 as [Hin0 Hid0].
    assert (x = it0) as ->.
    { apply (unique_ids_inj d); [done..|]. by rewrite Hxid. }
    destruct (Hf it0) as (? & ? & ? & ? & ? & Hdecided).
    unfold item_move. split_and!; try done; [|by left].
    unfold status_move. rewrite Hst0. right. left. split; [done|].
    destruct Hdecided as [-> | ->]; auto.
  - destruct (bid_changes_only_when_committed e user id amount d)
      as [Heq|(Heq & Hpos & _ & it & Hit & _ & Hge)]; rewrite Heq in Hin.
    { left. by apply Hsame. }
    unfold committed_bid in Hin. simpl in Hin. unfold update_item in Hin.
    apply list_elem_of_fmap in Hin as (x & -> & Hx).
    left. exists x. split; [done|].
    case_bool_decide as Hxid; [|apply item_move_refl].
    apply fetch_approved_Some in Hit as (Hin0 & Hid0 & Hst0).
    assert (x = it) as ->.
    { apply (unique_ids_inj d); [done..|]. by rewrite Hxid. }
    unfold item_move. split_and!; try done; [apply status_move_refl|].
    right. exists e, user, amount. rewrite Hid0.
    split_and!; try done. by apply current_price_raised.
  - rewrite bido_items in Hin. apply list_elem_of_fmap in Hin as (x & -> & Hx).
    left. exists x. split; [done|].
    case_bool_decide as Hsold; [|apply item_move_refl].
    apply list_elem_of_fmap in Hsold as (row & Hid & Hrow).
    apply (λ H, elem_of_sublist _ _ _ H (named_prefix_sublist _)) in Hrow.
    unfold bido_rows in Hrow. apply list_elem_of_filter in Hrow as [[Hst _] Hrow].
    assert (x = row) as -> by by apply (unique_ids_inj d).
    unfold item_move. split_and!; try done; [|by left].
    unfold status_move. rewrite Hst. right. right. done.
  - left. apply Hsame. unfold endo_callback in Hin.
    case_bool_decide; [|done]. simpl in Hin.
    by apply list_elem_of_filter in Hin as [_ Hin].
  - left. by apply Hsame.
  - left. by apply Hsame.
Qed.

(** Closing the sample auction moves Mew from approved to sold and nothing
    else of it. *)
Lemma step_moves_items_witness :
  ∃ it, it ∈ items Sample.pokemon_shop
        ∧ item_move (OpBido Sample.calm) it (set_status "sold" Sample.mew).
Proof.
  destruct (step_moves_items (OpBido Sample.calm) Sample.pokemon_shop
              (set_status "sold" Sample.mew)) as [Hmove|(Hnew & _)].
  - apply (bool_decide_unpack _). by vm_compute.
  - apply (bool_decide_unpack _). by vm_compute.
  - exact Hmove.
  - exfalso. apply Hnew. apply (bool_decide_unpack _). by vm_compute.
Defined.

(** ** The ban flag *)

Lemma banned_same_users d d' uid : users d' = users d → banned d' uid = banned d uid.
Proof. intros H. unfold banned. by rewrite H. Qed.

Lemma banned_alter_users (f : user_row → user_row) k d d' uid :
  (∀ u, is_banned (f u) = is_banned u) →
  users d' = alter f k (users d) →
  banned d' uid = banned d uid.
Proof.
  intros Hf Hus. unfold banned. rewrite Hus, lookup_alter.
  case_decide as Hk; [|done]. rewrite Hk.
  destruct (users d !! uid) as [u|]; simpl; [|done]. by rewrite Hf.
Qed.

(** X23.  The ban flag belongs to the admins: no submission, decision,
    bid, phase command, closing or cleanup changes whether a user is banned;
    only [aban] and [unban] do. *)
Theorem ban_flag_is_admin_owned o d uid :
  (∀ target, o ≠ OpAban target) →
  (∀ target, o ≠ OpUnban target) →
  banned (step o d) uid = banned d uid.
Proof.
  intros Hban Hunban.
  destruct o as [| |parsed e r user dr|e admin action id message_text posted
                |e user id amount|e|data|target|target]; simpl.
  - done.
  - done.
  - unfold poke_price. destruct parsed as [price|]; [|done].
    case_bool_decide; [done|].
    pose proof (complete_submission_db e r user (with_base_price price dr) d) as Hdb.
    destruct (complete_submission e r user (with_base_price price dr) d)
      as [reply d']. simpl in *.
    destruct Hdb as [->|[_ ->]]; [done|].
    unfold banned. simpl. rewrite submitter_row.
    case_decide as Hk; [|done]. rewrite <- Hk.
    by destruct (users d !! tg_id user).
  - unfold admin_approval_callback.
    destruct (negb (is_admin admin)); [done|].
    destruct (fetch_item id (items d)) as [it|]; [|done].
    destruct (negb (bool_decide (status it = "pending"%string))); [done|].
    case_bool_decide.
    + destruct posted; simpl;
        by apply (banned_alter_users bump_approved_count (user_id it)).
    + by apply (banned_alter_users bump_rejected_count (user_id it)).
  - destruct (bid_changes_only_when_committed e user id amount d) as [->|[-> _]];
      [done|apply banned_committed_bid].
  - apply banned_same_users. by destruct (bido_frame e d).
  - apply banned_same_users. unfold endo_callback. by case_bool_decide.
  - by destruct (Hban target).
  - by destruct (Hunban target).
Qed.

(** Banned Dave submits an item: he is still banned. *)
Lemma ban_flag_is_admin_owned_witness :
  banned (step (OpPrice (Some 12000) Sample.calm (λ k, (7 * k + 3)%nat)
                  Sample.dave Sample.gengar_draft) Sample.shop) 404 = true.
Proof.
  rewrite (ban_flag_is_admin_owned
             (OpPrice (Some 12000) Sample.calm (λ k, (7 * k + 3)%nat)
                Sample.dave Sample.gengar_draft) Sample.shop 404);
    [reflexivity|done|done].
Defined.

(** ** Cleanup and closing, repeated *)

(** X24.  A second cleanup finds nothing left to delete. *)
Theorem cleanup_twice data d :
  endo_callback data (endo_callback data d) = endo_callback data d.
Proof.
  unfold endo_callback. case_bool_decide as Hdata; [|done].
  simpl.
  set (kept := filter (λ it, status it ∉ cleanup_statuses) (items d)).
  assert (Hkept : filter (λ it, status it ∉ cleanup_statuses) kept = kept).
  { subst kept. rewrite list_filter_filter. apply list_filter_iff. tauto. }
  rewrite Hkept. unfold with_bids, with_items. simpl. f_equal.
  rewrite list_filter_filter. apply list_filter_iff. tauto.
Qed.

Lemma named_prefix_split rows :
  ∃ rest, rows = named_prefix rows ++ rest ∧ named_prefix rest = [].
Proof.
  induction rows as [|r rows (rest & Hrows & Hrest)]; [by exists []|].
  simpl. destruct (truthy_str (name r)) eqn:Hr.
  - exists rest. split; [|done]. simpl. by rewrite <- Hrows.
  - exists (r :: rows). split; [done|]. simpl. by rewrite Hr.
Qed.

Lemma bido_rows_after_sold (ids : list string) its :
  bido_rows ((λ it, if bool_decide (item_id it ∈ ids)
                    then set_status "sold" it else it) <$> its)
  = filter (λ it, item_id it ∉ ids) (bido_rows its).
Proof.
  unfold bido_rows. induction its as [|x rest IH]; [done|].
  rewrite fmap_cons. rewrite !filter_cons. rewrite IH.
  destruct (decide (item_id x ∈ ids)) as [Hx|Hx].
  - rewrite (bool_decide_eq_true_2 _ Hx).
    rewrite decide_False by (intros [Hst _]; done).
    destruct (decide (status x = "approved"%string ∧ is_Some (highest_bidder_id x)));
      [|done].
    rewrite filter_cons. by rewrite decide_False by tauto.
  - rewrite (bool_decide_eq_false_2 _ Hx).
    destruct (decide (status x = "approved"%string ∧ is_Some (highest_bidder_id x)));
      [|done].
    rewrite filter_cons. by rewrite decide_True.
Qed.

Lemma filter_none {A} (P : A → Prop) `{∀ x, Decision (P x)} (l : list A) :
  (∀ x, x ∈ l → ¬ P x) → filter P l = [].
Proof.
  induction l as [|x l IH]; intros Hl; [done|].
  rewrite filter_cons_False by (apply Hl, list_elem_of_here).
  apply IH. intros y Hy. by apply Hl, list_elem_of_further.
Qed.

Lemma filter_all {A} (P : A → Prop) `{∀ x, Decision (P x)} (l : list A) :
  (∀ x, x ∈ l → P x) → filter P l = l.
Proof.
  induction l as [|x l IH]; intros Hl; [done|].
  rewrite filter_cons_True by (apply Hl, list_elem_of_here).
  f_equal. apply IH. intros y Hy. by apply Hl, list_elem_of_further.
Qed.

Lemma with_phase_same d : with_phase (submissions_open d) (bidding_open d) d = d.
Proof. by destruct d. Qed.

Lemma bido_db_noop e d :
  named_prefix (bido_rows (items d)) = [] → bidding_open d = 0 →
  c_db (bido e d) = d.
Proof.
  intros Hrows Hclosed. rewrite bido_db, bido_loop_db. cbn [c_db].
  change (items (with_phase (submissions_open d) 0 d)) with (items d).
  rewrite Hrows. cbn [foldl]. destruct d. simpl in *. by subst.
Qed.

Lemma bido_raised e d :
  c_raised (bido e d)
  = if bool_decide (named_prefix (bido_rows (items d)) = bido_rows (items d))
    then (if channel_ok e then None
          else Some "telegram.error.TelegramError"%string)
    else Some "IndexError"%string.
Proof.
  unfold bido. cbn zeta.
  change (items (with_phase (submissions_open d) 0 d)) with (items d).
  pose proof (bido_loop_raised e (bido_rows (items d))
    {| c_db := with_phase (submissions_open d) 0 d; c_sent := []; c_log := [];
       c_raised := None |} eq_refl) as Hloop.
  destruct (c_raised (bido_loop e (bido_rows (items d)) _)) as [ex|] eqn:Hr.
  - rewrite Hr. by case_bool_decide.
  - case_bool_decide; [|done]. by destruct (channel_ok e).
Qed.

(** X25.  Closing the bidding a second time changes nothing, with item
    ids pairwise different: the rows that were sold are no longer selected,
    and if the first closing stopped at a row without a name, the second
    one stops at the same row before it sells anything. *)
Theorem bido_twice e e' d :
  unique_ids d →
  c_db (bido e' (c_db (bido e d))) = c_db (bido e d)
  ∧ (c_raised (bido e d) = Some "IndexError"%string →
     c_raised (bido e' (c_db (bido e d))) = Some "IndexError"%string).
Proof.
  intros Hnd.
  destruct (bido_frame e d) as (Hus & Hbids & Hsub & Hbid).
  destruct (named_prefix_split (bido_rows (items d))) as (rest & Hrows & Hrest).
  set (sold := named_prefix (bido_rows (items d))) in *.
  assert (Hrows2 : bido_rows (items (c_db (bido e d))) = rest).
  { rewrite bido_items. fold sold. rewrite bido_rows_after_sold, Hrows.
    assert (Hnd' : NoDup (item_id <$> (sold ++ rest))).
    { rewrite <- Hrows. apply (sublist_NoDup _ _ Hnd), fmap_sublist.
      unfold bido_rows. apply sublist_filter. }
    rewrite fmap_app in Hnd'. apply NoDup_app in Hnd' as (_ & Hdisj & _).
    rewrite filter_app.
    assert (Hsold : filter (λ it, item_id it ∉ item_id <$> sold) sold = []).
    { apply filter_none. intros x Hx Hn.
      apply Hn. by apply list_elem_of_fmap_2. }
    assert (Hkeep : filter (λ it, item_id it ∉ item_id <$> sold) rest = rest).
    { apply filter_all. intros x Hx Hin.
      apply (Hdisj (item_id x)); [done|]. by apply list_elem_of_fmap_2. }
    by rewrite Hsold, Hkeep. }
  split.
  - apply bido_db_noop; [by rewrite Hrows2|done].
  - intros Hraised. rewrite bido_raised in Hraised. rewrite bido_raised.
    rewrite Hrows2, Hrest.
    destruct rest as [|r rest'].
    + exfalso. fold sold in Hraised. rewrite app_nil_r in Hrows.
      rewrite bool_decide_eq_true_2 in Hraised by by rewrite <- Hrows.
      by destruct (channel_ok e).
    + by rewrite bool_decide_eq_false_2.
Qed.

(** On the auction with the TM, Mew is sold by the first closing; the
    second one stops at the TM again and changes nothing. *)
Lemma bido_twice_witness :
  c_db (bido Sample.muted (c_db (bido Sample.calm Sample.tm_shop)))
  = c_db (bido Sample.calm Sample.tm_shop)
  ∧ c_raised (bido Sample.muted (c_db (bido Sample.calm Sample.tm_shop)))
    = Some "IndexError"%string.
Proof.
  destruct (bido_twice Sample.calm Sample.muted Sample.tm_shop) as [Hdb Hraised].
  - apply (bool_decide_unpack _). by vm_compute.
  - split; [exact Hdb|]. apply Hraised. reflexivity.
Defined.

Lemma fetch_approved_None id its :
  (∀ x, x ∈ its → item_id x = id → status x ≠ "approved"%string) →
  fetch_approved id its = None.
Proof.
  induction its as [|x rest IH]; intros Hall; [done|]. simpl.
  destruct (decide (item_id x = id)) as [Hid|Hid].
  - rewrite (bool_decide_eq_true_2 _ Hid).
    rewrite bool_decide_eq_false_2 by (apply Hall; [apply list_elem_of_here|done]).
    simpl. apply IH. intros y Hy. by apply Hall, list_elem_of_further.
  - rewrite (bool_decide_eq_false_2 _ Hid). simpl.
    apply IH. intros y Hy. by apply Hall, list_elem_of_further.
Qed.

(** X26.  What the closing has sold stays sold: when every item with a bid
    has a name, so that [bido] gets through its loop, and item ids are
    pairwise different, then after [starto] has opened the bidding again a
    bid on an item that had a bid at the closing is answered as not
    biddable and changes nothing, whatever the amount. *)
Theorem sold_item_takes_no_bids e e' d it user amount :
  unique_ids d →
  Forall (λ r, truthy_str (name r) = true) (bido_rows (items d)) →
  it ∈ items d →
  status it = "approved"%string →
  is_Some (highest_bidder_id it) →
  0 < amount →
  banned d (tg_id user) = false →
  let d' := starto (c_db (bido e d)) in
  truthy (bidding_open d') = true
  ∧ bid e' user (item_id it) amount d' = answer ItemNotBiddable d'.
Proof.
  intros Hnd Hnamed Hin Hst Hbid Hpos Hban d'. split; [done|].
  apply bid_no_item; [done|done| |].
  - subst d'. unfold starto.
    rewrite <- Hban. apply banned_same_users. simpl. by destruct (bido_frame e d).
  - subst d'. unfold starto. simpl. rewrite bido_items.
    rewrite (named_prefix_all _ Hnamed).
    apply fetch_approved_None. intros y Hy Hid.
    apply list_elem_of_fmap in Hy as (x & -> & Hx).
    assert (Hsel : it ∈ bido_rows (items d))
      by (unfold bido_rows; by apply list_elem_of_filter).
    assert (x = it) as ->.
    { apply (unique_ids_inj d); [done..|].
      revert Hid. by case_bool_decide. }
    rewrite bool_decide_eq_true_2 by by apply list_elem_of_fmap_2.
    done.
Qed.

(** Mew is sold at the closing; after the reopening Carol's bid on it is
    refused. *)
Lemma sold_item_takes_no_bids_witness :
  bid Sample.calm Sample.carol "B1234" 70000
    (starto (c_db (bido Sample.calm Sample.pokemon_shop)))
  = answer ItemNotBiddable (starto (c_db (bido Sample.calm Sample.pokemon_shop))).
Proof.
  destruct (sold_item_takes_no_bids Sample.calm Sample.calm Sample.pokemon_shop
              Sample.mew Sample.carol 70000) as [_ Hbid].
  - apply (bool_decide_unpack _). by vm_compute.
  - apply (bool_decide_unpack _). by vm_compute.
  - apply (bool_decide_unpack _). by vm_compute.
  - reflexivity.
  - by eexists.
  - lia.
  - reflexivity.
  - exact Hbid.
Defined.

(** ** The three writes of a bid *)

Lemma committed_bid_written e user id amount d it :
  fetch_approved id (items d) = Some it →
  let d' := committed_bid e user id amount d in
  (∃ it', fetch_approved id (items d') = Some it'
          ∧ highest_bid it' = Some amount
          ∧ highest_bidder_id it' = Some (tg_id user)
          ∧ highest_bidder_name it' = Some (tg_first_name user)
          ∧ base_price it' = base_price it
          ∧ user_id it' = user_id it)
  ∧ (∃ b, bids d' = bids d ++ [b]
          ∧ b_item_id b = id ∧ b_user_id b = tg_id user ∧ b_amount b = amount
          ∧ b_bid_time b = now e)
  ∧ (∀ uid, uid ≠ tg_id user → users d' !! uid = users d !! uid).
Proof.
  intros Hit d'. subst d'. split_and!.
  - rewrite (committed_bid_leader _ _ _ _ _ _ Hit). by eexists.
  - unfold committed_bid. simpl. by eexists.
  - intros uid Hne. unfold committed_bid. simpl. by rewrite lookup_alter_ne.
Qed.

Lemma committed_bid_unknown_bidder e user id amount d :
  users d !! tg_id user = None →
  users (committed_bid e user id amount d) = users d.
Proof. intros Hnone. unfold committed_bid. simpl. by rewrite alter_id'. Qed.

(** C3 (as amended).  A bid writes all or nothing.  Either the database
    is as it was, or the writes of the unit of work are there together: the
    item shows the amount, the id and the first name of the bidder (owner
    and base price as before), [bids] has gained exactly one row at its
    end, with the item, the bidder, the amount and the time of the bid, and
    the bidder's row in [users], when there is one, has a [bids_count]
    larger by exactly one and is otherwise as before; when the bidder has
    no row (rows are created by submissions only), [users] is unchanged;
    no other user's row changes.  A bid answered as placed has written
    them.  When a statement of the unit fails, the database is as before
    the bid and, if the bid had passed the checks, the answer is the
    generic failure.  In every case items and bid history still agree
    afterwards. *)
Theorem bid_unit_of_work_atomic e user id amount d :
  consistent d →
  let o := bid e user id amount d in
  let d' := db_after o in
  let written :=
    (∃ it it', fetch_approved id (items d) = Some it
               ∧ fetch_approved id (items d') = Some it'
               ∧ highest_bid it' = Some amount
               ∧ highest_bidder_id it' = Some (tg_id user)
               ∧ highest_bidder_name it' = Some (tg_first_name user)
               ∧ base_price it' = base_price it
               ∧ user_id it' = user_id it)
    ∧ (∃ b, bids d' = bids d ++ [b]
            ∧ b_item_id b = id ∧ b_user_id b = tg_id user ∧ b_amount b = amount
            ∧ b_bid_time b = now e)
    ∧ (∀ u, users d !! tg_id user = Some u →
         ∃ u', users d' !! tg_id user = Some u'
               ∧ bids_count u' = bids_count u + 1
               ∧ is_banned u' = is_banned u
               ∧ submissions_count u' = submissions_count u
               ∧ approved_count u' = approved_count u
               ∧ rejected_count u' = rejected_count u)
    ∧ (users d !! tg_id user = None → users d' = users d)
    ∧ (∀ uid, uid ≠ tg_id user → users d' !! uid = users d !! uid) in
  (d' = d ∨ written)
  ∧ (d' ≠ d → written)
  ∧ (∀ a, replied o = BidPlaced a → written)
  ∧ (∀ s, storage_fault e = Some s →
       d' = d
       ∧ (∀ a, replied o ≠ BidPlaced a)
       ∧ (∀ it, 0 < amount → truthy (bidding_open d) = true →
            banned d (tg_id user) = false →
            fetch_approved id (items d) = Some it → tg_id user ≠ user_id it →
            current_bid it + increment (current_bid it) ≤ amount →
            replied o = BidProcessingFailed))
  ∧ consistent d'.
Proof.
  intros Hcons o d' written.
  assert (Hw : ∀ it, fetch_approved id (items d) = Some it →
                 d' = committed_bid e user id amount d → written).
  { intros it Hit Heq. unfold written. rewrite Heq.
    destruct (committed_bid_written e user id amount d it Hit)
      as ((it' & Hit' & ? & ? & ? & ? & ?) & Hb & Hother).
    split_and!; [by exists it, it'|done| |apply committed_bid_unknown_bidder|done].
    intros u Hu. unfold committed_bid. simpl. rewrite lookup_alter_eq, Hu. simpl.
    eexists. split; [done|]. simpl. split_and!; done. }
  pose proof (bid_changes_only_when_committed e user id amount d) as Hch.
  fold o d' in Hch.
  split_and!.
  - destruct Hch as [?|(Heq & _ & _ & it & Hit & _)]; [by left|right].
    by apply (Hw it).
  - intros Hne. destruct Hch as [?|(Heq & _ & _ & it & Hit & _)]; [done|].
    by apply (Hw it).
  - intros a Ha. apply bid_reply_placed in Ha as (_ & Hdb & _ & _ & it & Hit & _).
    by apply (Hw it).
  - intros s Hf. split_and!.
    + destruct Hch as [?|(_ & _ & ? & _)]; [done|congruence].
    + intros a Ha. apply bid_reply_placed in Ha as (_ & _ & ? & _). congruence.
    + intros it Hpos Hopen Hban Hit Hown Hge. subst o.
      by rewrite (bid_rolled_back _ _ _ _ _ Hpos Hopen Hban it Hit Hown Hge s Hf).
  - destruct Hch as [Heq|[Heq _]]; rewrite Heq;
      [done|by apply committed_bid_consistent].
Qed.

(** Dave has a row in [users] and no bid so far; his bid of 27000 on
    Pikachu takes [bids_count] from 0 to 1.  The same bid with the COMMIT
    failing leaves the database as it was and is answered with the generic
    failure. *)
Lemma bid_unit_of_work_atomic_witness :
  consistent Sample.pokemon_shop
  ∧ bids_count
      <$> users (db_after (bid Sample.calm Sample.dave "A0000" 27000
                             Sample.pokemon_shop)) !! 404 = Some 1
  ∧ db_after (bid (Sample.failing StCommit) Sample.dave "A0000" 27000
                Sample.pokemon_shop) = Sample.pokemon_shop
  ∧ replied (bid (Sample.failing StCommit) Sample.dave "A0000" 27000
               Sample.pokemon_shop) = BidProcessingFailed.
Proof.
  assert (Hc : consistent Sample.pokemon_shop)
    by (apply (bool_decide_unpack _); by vm_compute).
  split; [exact Hc|]. split.
  - destruct (bid_unit_of_work_atomic Sample.calm Sample.dave "A0000" 27000
                Sample.pokemon_shop Hc) as (_ & _ & Hplaced & _).
    destruct (Hplaced 27000 eq_refl) as (_ & _ & Hcount & _).
    destruct (Hcount (Sample.row Sample.dave 0 1 0) eq_refl) as (u' & Hu' & Hn & _).
    change 404 with (tg_id Sample.dave). rewrite Hu'. simpl. by rewrite Hn.
  - destruct (bid_unit_of_work_atomic (Sample.failing StCommit) Sample.dave
                "A0000" 27000 Sample.pokemon_shop Hc) as (_ & _ & _ & Hfail & _).
    destruct (Hfail StCommit eq_refl) as (Hdb & _ & Hr).
    split; [exact Hdb|].
    apply (Hr Sample.pikachu);
      [lia|reflexivity|reflexivity|reflexivity|by vm_compute|by vm_compute].
Defined.

(** C3, the counterexample.  The auction is opened, Alice submits Abra at
    10000 and an admin approves it; Bob, who has never submitted anything
    and so has no row in [users], bids 11000.  The bid is placed, the item
    shows it and [bids] has its row, but [users] is exactly as before: Bob
    has no row and no [bids_count] has gone up by one. *)
Lemma bid_of_new_bidder_is_not_counted :
  let o := bid Sample.calm Sample.bob "A0000" 11000 Sample.listed in
  run [OpStarto;
       OpPrice (Some 10000) Sample.calm (λ _, 0%nat) Sample.alice Sample.abra_draft;
       OpDecision Sample.calm 5816482345 "approve" "A0000" None (Some 20)]
    init_db = Sample.listed
  ∧ replied o = BidPlaced 11000
  ∧ highest_bidder_id <$> fetch_approved "A0000" (items (db_after o)) = Some (Some 202)
  ∧ b_user_id <$> bids (db_after o) = [202]
  ∧ users Sample.listed !! 202 = None
  ∧ users (db_after o) = users Sample.listed
  ∧ users (db_after o) !! 202 = None
  ∧ ¬ ∃ uid u u', users Sample.listed !! uid = Some u
                  ∧ users (db_after o) !! uid = Some u'
                  ∧ bids_count u' = bids_count u + 1.
Proof.
  intros o.
  assert (Hus : users (db_after o) = users Sample.listed).
  { subst o.
    destruct (bid_changes_only_when_committed Sample.calm Sample.bob "A0000" 11000
                Sample.listed) as [->|[-> _]]; [done|].
    by apply committed_bid_unknown_bidder. }
  split_and!; try reflexivity.
  intros (uid & u & u' & Hu & Hu' & Hcount).
  rewrite Hus, Hu in Hu'. injection Hu' as <-. lia.
Qed.

(** ** Closing the bidding when every row with a bid has a name *)












(** ** Items that come from the dialogue *)

Lemma handler_for_POKE_CATEGORY data :
  handler_for POKE_CATEGORY data = Some CbPokeCategory.
Proof. reflexivity. Qed.

Lemma dialogue_draft_pokemon data text command tm_move dr :
  dialogue_draft data text command tm_move = Some dr →
  d_item_type dr = "pokemon"%string ∧ d_name dr = text ∧ text ≠ EmptyString
  ∧ data ≠ "cancel"%string.
Proof.
  unfold dialogue_draft. rewrite handler_for_POKE_CATEGORY.
  case_bool_decide as Hcancel; [done|].
  destruct (split underscore data !! 1%nat); [|done].
  unfold text_not_command. case_bool_decide as Hempty; simpl; [done|].
  destruct command; simpl; [done|]. by intros [= <-].
Qed.

(** A property of rows that the updates of the handlers keep and that the
    row of a submission has holds of every row after a call. *)
Lemma step_Forall (P : item → Prop) o d :
  (∀ s x, P x → P (set_status s x)) →
  (∀ a b n x, P x → P (set_highest a b n x)) →
  (∀ m x, P x → P (set_channel_message m x)) →
  (∀ parsed e r user dr price,
     o = OpPrice parsed e r user dr → parsed = Some price →
     P (new_item (generate_item_id r) user (with_base_price price dr))) →
  Forall P (items d) → Forall P (items (step o d)).
Proof.
  intros Hstatus Hhighest Hchannel Hnew Hall.
  assert (Hupd : ∀ id (f : item → item) its,
            (∀ x, P x → P (f x)) → Forall P its → Forall P (update_item id f its)).
  { intros id f its Hf Hits. unfold update_item. apply Forall_fmap.
    apply (Forall_impl _ _ _ Hits). intros x Hx. simpl.
    case_bool_decide; [by apply Hf|done]. }
  destruct o as [| |parsed e r user dr|e admin action id message_text posted
                |e user id amount|e|data|uid|uid]; simpl; try done.
  - destruct (poke_price_items parsed e r user dr d)
      as [->|(price & Hparsed & _ & _ & ->)]; [done|].
    apply Forall_app. split; [done|].
    apply Forall_singleton. by apply (Hnew parsed e r user dr price).
  - unfold admin_approval_callback.
    destruct (negb (is_admin admin)); [done|].
    destruct (fetch_item id (items d)) as [it|]; [|done].
    destruct (negb (bool_decide (status it = "pending"%string))); [done|].
    case_bool_decide; simpl.
    + destruct posted as [m|]; simpl.
      * apply Hupd; [apply Hchannel|]. apply Hupd; [apply Hstatus|done].
      * apply Hupd; [apply Hstatus|done].
    + apply Hupd; [apply Hstatus|done].
  - destruct (bid_changes_only_when_committed e user id amount d) as [->|[-> _]];
      [done|].
    unfold committed_bid. simpl. apply Hupd; [apply Hhighest|done].
  - rewrite bido_items. apply Forall_fmap. apply (Forall_impl _ _ _ Hall).
    intros x Hx. simpl. case_bool_decide; [by apply Hstatus|done].
  - unfold endo_callback. case_bool_decide; [|done]. simpl.
    apply Forall_forall. intros x Hx. apply list_elem_of_filter in Hx as [_ Hx].
    rewrite Forall_forall in Hall. by apply Hall.
Qed.

Lemma run_snoc ops o d : run (ops ++ [o]) d = step o (run ops d).
Proof. unfold run. by rewrite foldl_app. Qed.

(** X27.  The state in which the item type is chosen has two handlers
    for button presses, both registered without a pattern, so the first
    one, [poke_category], takes every press, the button "TM (Item)"
    included, and [item_tm] never runs.  Therefore every draft that reaches
    the price step is a Pokemon draft with a name that is not empty, and in
    every run of the bot from a new database whose submissions come from
    the dialogue, every item is a Pokemon row with a name and without a TM
    name.  In such a run neither the closing of the bidding nor the listing
    of a user's bids ends in the [IndexError] of a row without a name. *)
Theorem dialogue_items_are_named ops :
  Forall from_dialogue ops →
  let d := run ops init_db in
  (∀ data, handler_for POKE_CATEGORY data = Some CbPokeCategory)
  ∧ (∀ data text command tm_move dr,
       dialogue_draft data text command tm_move = Some dr →
       d_item_type dr = "pokemon"%string ∧ d_name dr = text
       ∧ text ≠ EmptyString)
  ∧ named_items d
  ∧ (∀ it, it ∈ items d →
       item_type it = "pokemon"%string ∧ tm_name it = None
       ∧ ∃ n, name it = Some n ∧ n ≠ EmptyString)
  ∧ (∀ e, c_raised (bido e d) ≠ Some "IndexError"%string)
  ∧ (∀ user, mybids user d ≠ MybidsRaised "IndexError").
Proof.
  intros Hops d.
  set (P := λ it : item, item_type it = "pokemon"%string ∧ tm_name it = None
                         ∧ ∃ n, name it = Some n ∧ n ≠ EmptyString).
  assert (Hall : Forall P (items d)).
  { subst d. induction ops as [|o ops IH] using rev_ind; [apply Forall_nil_2|].
    rewrite Forall_app, Forall_singleton in Hops. destruct Hops as [Hops Ho].
    rewrite run_snoc. apply step_Forall; try done; [|by apply IH].
    intros parsed e r user dr price -> _. simpl in Ho.
    destruct Ho as (data & text & command & tm_move & Hdr).
    apply dialogue_draft_pokemon in Hdr as (Htype & Hname & Htext & _).
    unfold P, new_item. simpl. rewrite Htype. simpl.
    split_and!; try done. exists (d_name dr). split; [done|]. by rewrite Hname. }
  assert (Hnamed : named_items d).
  { unfold named_items. apply (Forall_impl _ _ _ Hall).
    intros it (_ & _ & n & -> & Hn). simpl. by rewrite bool_decide_eq_false_2. }
  split_and!.
  - apply handler_for_POKE_CATEGORY.
  - intros data text command tm_move dr Hdr.
    by apply dialogue_draft_pokemon in Hdr as (? & ? & ? & _).
  - done.
  - intros it Hin. rewrite Forall_forall in Hall. by apply Hall.
  - intros e. rewrite bido_raised, named_prefix_all.
    + rewrite bool_decide_eq_true_2 by done. by destruct (channel_ok e).
    + unfold bido_rows. apply Forall_forall. intros it Hit.
      apply list_elem_of_filter in Hit as [_ Hit].
      unfold named_items in Hnamed. rewrite Forall_forall in Hnamed.
      by apply Hnamed.
  - intros user. unfold mybids.
    assert (Hrows : Forall (λ it, truthy_str (name it) = true)
                      (mybids_rows (tg_id user) (items d))).
    { unfold mybids_rows. apply Forall_forall. intros it Hit.
      apply list_elem_of_filter in Hit as [_ Hit].
      unfold named_items in Hnamed. rewrite Forall_forall in Hnamed.
      by apply Hnamed. }
    destruct (mybids_rows (tg_id user) (items d)) as [|x rest] eqn:Hr; [done|].
    assert (Hlines : ∀ rows, Forall (λ it, truthy_str (name it) = true) rows →
              mybids_lines rows ≠ inl "IndexError"%string).
    { clear. induction 1 as [|y ys Hy _ IH]; simpl; [done|].
      destruct (name y) as [n|]; [|done]. rewrite Hy.
      destruct (highest_bid y); [|done].
      destruct (mybids_lines ys) as [ex|lines]; [|done]. congruence. }
    specialize (Hlines _ Hrows).
    destruct (mybids_lines (x :: rest)) as [ex|lines]; [|done]. congruence.
Qed.

(** Alice presses "TM (Item)" and sends a text: what reaches the price step
    is a Pokemon draft named by that text, and the item stored from it has
    a name. *)
Lemma dialogue_items_are_named_witness :
  dialogue_draft "item_tm" "TM26" false "Earthquake"
  = Some {| d_item_type := "pokemon"; d_name := "TM26"; d_tm_name := EmptyString;
            d_base_price := 0 |}
  ∧ name <$> items (run [OpStarto;
                         OpPrice (Some 5000) Sample.calm (λ _, 0%nat) Sample.alice
                           {| d_item_type := "pokemon"; d_name := "TM26";
                              d_tm_name := EmptyString; d_base_price := 0 |}]
                      init_db)
    = [Some "TM26"%string]
  ∧ named_items (run [OpStarto;
                      OpPrice (Some 5000) Sample.calm (λ _, 0%nat) Sample.alice
                        {| d_item_type := "pokemon"; d_name := "TM26";
                           d_tm_name := EmptyString; d_base_price := 0 |}]
                   init_db).
Proof.
  split; [reflexivity|]. split; [reflexivity|].
  apply (dialogue_items_are_named
           [OpStarto;
            OpPrice (Some 5000) Sample.calm (λ _, 0%nat) Sample.alice
              {| d_item_type := "pokemon"; d_name := "TM26";
                 d_tm_name := EmptyString; d_base_price := 0 |}]).
  apply Forall_cons. split; [done|].
  apply Forall_singleton. simpl.
  by exists "item_tm"%string, "TM26"%string, false, "Earthquake"%string.
Defined.
